(** * GIVC Core Academy: LINC workflows and agents

    A shallow embedding of the durable workflows (the workflows worker that
    [setup.sh] carries) and of the stateful agents
    ([backend/linc-agents/src/index.ts]), with the properties their
    specification states about them.

    Numbers.  JavaScript numbers are modelled by exact rationals ([Q])
    where the source computes fractions, and by [nat]/[Z] where it only
    counts.  [Math.round x] is [floor (x + 1/2)].  The doubles of
    JavaScript and the rationals agree on the whole and the fixed numbers
    the properties of these readings are about; the scoring steps, whose
    results depend on how the doubles round, are also given on IEEE 754
    doubles (modules [Double] and [Scoring]), and the properties of their
    scores are stated there.

    Strings.  Strings are byte strings; [toLowerCase]/[toUpperCase] act on
    the ASCII letters, which is what the keyword tests of the source look
    at.

    Effects.  The agents read the clock, draw ids and random numbers; these
    are answers of an oracle, indexed by the number of the call.  A handler
    is a function on the call counters and the state of its instance that
    returns a response or throws; what it wrote before throwing stays
    written.  The platform pieces the sources call but do not contain (the
    agent namespaces, the tables, [step.do]) are modelled next to their
    callers. *)

From Stdlib Require Import ZArith QArith Qround Qminmax Qabs Lia Lqa Ascii String.
From Stdlib Require Import Floats Uint63.
From stdpp Require Import base strings list gmap pretty.

Set Warnings "-inexact-float".


(* ===================================================================== *)
(** * JavaScript primitives used by the sources *)
(* ===================================================================== *)
Module JS.

(** [a < b] on numbers. *)
Definition lt (a b : Q) : bool := negb (Qle_bool b a).

(** [Math.round]: the nearest integer, halves going up. *)
Definition Math_round (x : Q) : Z := Qfloor (x + (1 # 2)).

(** The idiom [Math.round(x * 100) / 100]. *)
Definition round2 (x : Q) : Q := (inject_Z (Math_round (x * 100)) / 100)%Q.

Definition Math_min (a b : Q) : Q := Qmin a b.
Definition Math_max (a b : Q) : Q := Qmax a b.

(** [Math.ceil]. *)
Definition Math_ceil (x : Q) : Z := Qceiling x.

Definition lower_ascii (c : ascii) : ascii :=
  let n := nat_of_ascii c in
  if (65 <=? n)%nat && (n <=? 90)%nat then ascii_of_nat (n + 32) else c.

Definition upper_ascii (c : ascii) : ascii :=
  let n := nat_of_ascii c in
  if (97 <=? n)%nat && (n <=? 122)%nat then ascii_of_nat (n - 32) else c.

Fixpoint map_string (f : ascii -> ascii) (s : string) : string :=
  match s with
  | EmptyString => EmptyString
  | String c s' => String (f c) (map_string f s')
  end.

Definition toLowerCase : string -> string := map_string lower_ascii.
Definition toUpperCase : string -> string := map_string upper_ascii.

(** [s.includes(needle)]. *)
Fixpoint includes (s needle : string) : bool :=
  String.prefix needle s ||
  match s with
  | EmptyString => false
  | String _ s' => includes s' needle
  end.

(** [s.split(sep)[0]]: the part of [s] before the first [sep]. *)
Fixpoint split_head (sep : ascii) (s : string) : string :=
  match s with
  | EmptyString => EmptyString
  | String c s' => if Ascii.eqb c sep then EmptyString
                   else String c (split_head sep s')
  end.

(** [s.replace(/c/g, '')]: [s] without the occurrences of [c]. *)
Fixpoint remove_all (c : ascii) (s : string) : string :=
  match s with
  | EmptyString => EmptyString
  | String c' s' => if Ascii.eqb c' c then remove_all c s'
                    else String c' (remove_all c s')
  end.

(** Truthiness of an optional string: [undefined] and [''] are falsy. *)
Definition truthy (o : option string) : bool :=
  match o with
  | Some s => negb (String.eqb s "")
  | None => false
  end.

(** [o || d] for an optional string [o]. *)
Definition or_else (o : option string) (d : string) : string :=
  match o with
  | Some s => if String.eqb s "" then d else s
  | None => d
  end.

End JS.

(* ===================================================================== *)
(** * Durable workflows ([setup.sh], the workflows worker) *)
(* ===================================================================== *)
(** A bilingual (Arabic/English) text, [{ ar, en }]. *)
Record Bilingual := { ar : string; en : string }.

Module Workflows.

(** ** Workflow parameters *)

(** The HTTP handler passes the parsed body on unchecked, so every field of
    [ClaimsParams] may be missing at run time. *)
Record ClaimsParams := {
  claimId : option string;
  payerId : option string;
  diagnosisCodes : option (list string);
  procedureCodes : option (list string);
  rejectionReason : option string;
  priority : option string
}.

(** ** ClaimsWorkflow, step 1: [validate-claim-data] *)
Record Validation := {
  isValid : bool;
  issues : list string;
  v_claimId : option string
}.

Definition validate_claim_data (p : ClaimsParams) : Validation :=
  let issues := [] in
  let issues := if negb (JS.truthy (claimId p))
                then issues ++ ["Missing claim ID"] else issues in
  let issues := if negb (JS.truthy (payerId p))
                then issues ++ ["Missing payer ID"] else issues in
  let issues := if match diagnosisCodes p with
                   | Some l => Nat.eqb (length l) 0
                   | None => true
                   end
                then issues ++ ["Missing diagnosis codes"] else issues in
  {| isValid := Nat.eqb (length issues) 0;
     issues := issues;
     v_claimId := claimId p |}.

(** ** ClaimsWorkflow, step 2: [ai-analyze-rejection] *)
Record RejectionAnalysis := {
  confidenceScore : Q;
  rootCauses : list string;
  recommendations : list Bilingual;
  automationAvailable : bool
}.

Definition ai_analyze_rejection (rejectionReason : option string)
  : RejectionAnalysis :=
  let recommendations : list Bilingual := [] in
  let rootCauses : list string := [] in
  let '(rootCauses, recommendations) :=
    if JS.truthy rejectionReason then
      let reason := JS.or_else rejectionReason "" in
      let '(rootCauses, recommendations) :=
        if JS.includes (JS.toLowerCase reason) "code" then
          (rootCauses ++ ["Incorrect or missing diagnosis/procedure codes"],
           recommendations ++ [{| ar := "تحديث رموز ICD-10 أو CPT";
                                  en := "Update ICD-10 or CPT codes" |}])
        else (rootCauses, recommendations) in
      let '(rootCauses, recommendations) :=
        if JS.includes (JS.toLowerCase reason) "authorization" then
          (rootCauses ++ ["Missing prior authorization"],
           recommendations ++ [{| ar := "الحصول على تفويض مسبق من الدافع";
                                  en := "Obtain prior authorization from payer" |}])
        else (rootCauses, recommendations) in
      if JS.includes (JS.toLowerCase reason) "documentation" then
        (rootCauses ++ ["Insufficient clinical documentation"],
         recommendations ++ [{| ar := "تحسين التوثيق السريري";
                                en := "Improve clinical documentation" |}])
      else (rootCauses, recommendations)
    else (rootCauses, recommendations) in
  (* Default if no specific reasons found *)
  let '(rootCauses, recommendations) :=
    if Nat.eqb (length rootCauses) 0 then
      (rootCauses ++ ["Requires manual review"],
       recommendations ++ [{| ar := "مراجعة يدوية مطلوبة";
                              en := "Manual review required" |}])
    else (rootCauses, recommendations) in
  {| confidenceScore :=
       if (0 <? length recommendations)%nat then 0.85%Q else 0.5%Q;
     rootCauses := rootCauses;
     recommendations := recommendations;
     automationAvailable := (0 <? length recommendations)%nat |}.

(** ** ClaimsWorkflow, steps 3 and 4 *)
Record StoredAnalysis := { stored : bool; timestamp : string }.

Record NextActions := { actions : list string; requiresHumanReview : bool }.

Definition determine_next_actions (automation : bool) : NextActions :=
  let actions := [] in
  let actions :=
    if automation
    then actions ++ ["Prepare corrected claim"] ++ ["Submit for re-processing"]
    else actions ++ ["Route to manual review queue"] ++ ["Notify billing team"] in
  {| actions := actions; requiresHumanReview := negb automation |}.

(** ** AuditWorkflow, step 3: [analyze-compliance] *)
Inductive RiskLevel := low | medium | high | critical.

Record SampleClaim := {
  s_claimId : string;
  hasErrors : bool;
  errorType : string
}.

Record ComplianceAnalysis := {
  complianceScore : Q;
  riskLevel : RiskLevel;
  auditOutcome : string;
  errorCount : nat;
  c_sampleSize : Q
}.

(** The score before it is rounded for the result:
    [Math.max(0, Math.min(100, ((sampleSize - errorCount) / sampleSize) * 100))]. *)
Definition clampedScore (sampleSize : Q) (errorCount : nat) : Q :=
  let baseScore :=
    (((sampleSize - inject_Z (Z.of_nat errorCount)) / sampleSize) * 100)%Q in
  JS.Math_max 0 (JS.Math_min 100 baseScore).

Definition analyze_compliance (sampleSize : Q) (claims : list SampleClaim)
  : ComplianceAnalysis :=
  let errorCount := length (List.filter hasErrors claims) in
  let complianceScore := clampedScore sampleSize errorCount in
  let riskLevel := low in
  let auditOutcome := "COMPLIANT" in
  let '(riskLevel, auditOutcome) :=
    if JS.lt complianceScore 90 then (medium, "MINOR_ISSUES")
    else (riskLevel, auditOutcome) in
  let '(riskLevel, auditOutcome) :=
    if JS.lt complianceScore 75 then (high, "REQUIRES_IMPROVEMENT")
    else (riskLevel, auditOutcome) in
  let '(riskLevel, auditOutcome) :=
    if JS.lt complianceScore 60 then (critical, "NON_COMPLIANT")
    else (riskLevel, auditOutcome) in
  {| complianceScore := JS.round2 complianceScore;
     riskLevel := riskLevel;
     auditOutcome := auditOutcome;
     errorCount := errorCount;
     c_sampleSize := sampleSize |}.

(** ** LearningWorkflow, step 3: [calculate-success-probability] *)
Record Factor := { factor : string; impact : string }.

Record Prediction := { overallProbability : Q; factors : list Factor }.

Definition adjustedProbability (yearsOfExperience : Q) : Q :=
  let baseProbability := (0.6 + yearsOfExperience * 0.05)%Q in
  JS.Math_min 0.95 baseProbability.

Definition calculate_success_probability
  (yearsOfExperience : Q) (currentRole : string) : Prediction :=
  {| overallProbability := JS.round2 (adjustedProbability yearsOfExperience);
     factors :=
       [ {| factor := "Experience";
            impact := if JS.lt 2 yearsOfExperience
                      then "positive" else "neutral" |};
         {| factor := "Current Role";
            impact := if JS.includes (JS.toLowerCase currentRole) "coder"
                      then "positive" else "neutral" |} ] |}.

(** ** The Step Executor ([step.do])

    The workflows only call [step.do]; the executor itself belongs to the
    workflow platform.  Its model follows the specification of the Step
    Executor and of [TaskRun]. *)

Inductive Outcome (A : Type) :=
  | Returned (a : A)
  | Raised (e : string).
Arguments Returned {A} a.
Arguments Raised {A} e.

Inductive Backoff := constant | exponential.

(** The options of a step as the workflows write them, e.g.
    [{ retries: { limit: 3, delay: '5 seconds', backoff: 'exponential' },
       timeout: '2 minutes' }]. *)
Record Retries := { limit : nat; delay : string; backoff : Backoff }.

Record StepOptions := { retries : option Retries; timeout : option string }.

(** Modelled from the spec: the services of the workflow platform (clock,
    console, suspension, parsing of duration strings, growth of the retry
    delay, the retry limit of a step without options), none of which is part
    of the repository. *)
Class Runtime (W : Type) := {
  Date_now : W -> nat;
  toISOString : nat -> string;
  console_log : string -> W -> W;
  sleep : nat -> W -> W;
  parseDuration : string -> nat;
  backoffDelay : Backoff -> nat -> nat -> nat;
  defaultRetryLimit : nat
}.

(** Modelled from the spec: the status and result of a [StepRecord],
    [status: {pending, succeeded, failed}] with the result or the error. *)
Inductive StepState (V : Type) :=
  | pending
  | succeeded (result : V)
  | failed (error : string).
Arguments pending {V}.
Arguments succeeded {V} result.
Arguments failed {V} error.

(** Modelled from the spec: [StepRecord { name, status, result, attempt,
    startedAt, completedAt }]. *)
Record StepRecord (V : Type) := {
  name : string;
  state : StepState V;
  attempt : nat;
  startedAt : nat;
  completedAt : nat
}.
Arguments name {V} _.
Arguments state {V} _.
Arguments attempt {V} _.
Arguments startedAt {V} _.
Arguments completedAt {V} _.

(** Modelled from the spec: the status of a [TaskRun],
    [{running, completed, failed}]. *)
Module Run.
Inductive Status := running | completed | failed.
End Run.

(** Modelled from the spec: [TaskRun] with its [runId], immutable [params],
    ordered [steps] and [status]. *)
Record TaskRun (P V : Type) := {
  runId : string;
  params : P;
  steps : list (StepRecord V);
  status : Run.Status
}.
Arguments runId {P V} _.
Arguments params {P V} _.
Arguments steps {P V} _.
Arguments status {P V} _.

Section StepExecutor.
Context {W : Type} {RT : Runtime W} {P V : Type}.

Definition appendStep (run : TaskRun P V) (r : StepRecord V) : TaskRun P V :=
  {| runId := runId run; params := params run;
     steps := steps run ++ [r]; status := status run |}.

Definition setStatus (s : Run.Status) (run : TaskRun P V) : TaskRun P V :=
  {| runId := runId run; params := params run;
     steps := steps run; status := s |}.

Definition succeededAs (stepName : string) (r : StepRecord V) : option V :=
  if String.eqb (name r) stepName then
    match state r with
    | succeeded v => Some v
    | _ => None
    end
  else None.

(** Modelled from the spec: the replay check "has this step name succeeded
    already?", answered with the stored result of the latest succeeded record
    of that name. *)
Definition succeededResult (run : TaskRun P V) (stepName : string) : option V :=
  last (omap (succeededAs stepName) (steps run)).

(** The attempts recorded for a step name. *)
Definition attemptsOf (stepName : string) (run : TaskRun P V)
  : list (StepRecord V) :=
  List.filter (fun r => String.eqb (name r) stepName) (steps run).

(** Modelled from the spec: the retry limit of a step,
    [options.retries.limit]. *)
Definition retryLimit (o : option StepOptions) : nat :=
  match o with
  | Some {| retries := Some r |} => limit r
  | _ => defaultRetryLimit
  end.

(** Modelled from the spec: the delay before the retry that follows attempt
    [k], [options.retries.delay] grown per the [backoff] policy. *)
Definition retryDelay (o : option StepOptions) (k : nat) : nat :=
  match o with
  | Some {| retries := Some r |} =>
      backoffDelay (backoff r) (parseDuration (delay r)) k
  | _ => 0
  end.

(** Modelled from the spec: one attempt; [options.timeout], if set, bounds
    it, and a timed-out attempt counts as a failed attempt. *)
Definition attemptOnce (o : option StepOptions) (fn : W -> W * Outcome V)
  (w : W) : W * Outcome V :=
  let '(w', out) := fn w in
  match o with
  | Some {| timeout := Some t |} =>
      if (parseDuration t <? Date_now w' - Date_now w)%nat
      then (w', Raised "timeout")
      else (w', out)
  | _ => (w', out)
  end.

Definition outcomeState (out : Outcome V) : StepState V :=
  match out with
  | Returned v => succeeded v
  | Raised e => failed e
  end.

(** Modelled from the spec: invoke [fn]; every attempt is appended to
    [run.steps]; on failure retry after the delay while the retry limit is
    not exhausted, then raise.  [budget] is the number of retries left and
    [k] the number of the attempt. *)
Fixpoint attempts (budget k : nat) (stepName : string)
  (o : option StepOptions) (fn : W -> W * Outcome V)
  (w : W) (run : TaskRun P V) : W * TaskRun P V * Outcome V :=
  let '(w', out) := attemptOnce o fn w in
  let run' := appendStep run
    {| name := stepName; state := outcomeState out; attempt := k;
       startedAt := Date_now w; completedAt := Date_now w' |} in
  match out with
  | Returned v => (w', run', Returned v)
  | Raised e =>
      match budget with
      | O => (w', run', Raised e)
      | S budget' =>
          attempts budget' (S k) stepName o fn (sleep (retryDelay o k) w') run'
      end
  end.

(** Workflow code: a computation over the platform state and the run record
    that returns or raises. *)
Definition Workflow (A : Type) : Type :=
  W * TaskRun P V -> W * TaskRun P V * Outcome A.

Definition ret {A} (a : A) : Workflow A := fun s => (s, Returned a).

Definition bind {A B} (m : Workflow A) (k : A -> Workflow B) : Workflow B :=
  fun s =>
    let '(s', out) := m s in
    match out with
    | Returned a => k a s'
    | Raised e => (s', Raised e)
    end.

(** [new Date().toISOString()] *)
Definition isoNow : Workflow string :=
  fun s => (s, Returned (toISOString (Date_now (fst s)))).

(** Modelled from the spec: [execute(run, stepName, fn, options)].  A step
    that already has a succeeded record returns the stored result without
    invoking [fn]; otherwise [fn] is attempted. *)
Definition step_do (stepName : string) (o : option StepOptions)
  (fn : W -> W * Outcome V) : Workflow V :=
  fun '(w, run) =>
    match succeededResult run stepName with
    | Some v => (w, run, Returned v)
    | None => attempts (retryLimit o) 1 stepName o fn w run
    end.

(** Modelled from the spec: one invocation of a run.  The run completes
    when its body returns and fails when a step raises. *)
Definition invoke {A} (body : P -> Workflow A) (w : W) (run : TaskRun P V)
  : W * TaskRun P V * Outcome A :=
  let '(w', run', out) := body (params run) (w, setStatus Run.running run) in
  (w',
   setStatus match out with
             | Returned _ => Run.completed
             | Raised _ => Run.failed
             end run',
   out).

End StepExecutor.

Notation "x <- m ;; k" := (bind m (fun x => k))
  (at level 100, m at level 99, k at level 200, right associativity).

(** The call-counting stub of a step function: it behaves as [fn] and counts
    its invocations. *)
Definition counted {W V} (fn : W -> W * Outcome V)
  : W * nat -> W * nat * Outcome V :=
  fun '(w, c) => let '(w', out) := fn w in ((w', S c), out).

Definition counting_runtime {W} (RT : Runtime W) : Runtime (W * nat) :=
  {| Date_now wc := Date_now (fst wc);
     toISOString := toISOString;
     console_log s wc := (console_log s (fst wc), snd wc);
     sleep d wc := (sleep d (fst wc), snd wc);
     parseDuration := parseDuration;
     backoffDelay := backoffDelay;
     defaultRetryLimit := defaultRetryLimit |}.

(** ** ClaimsWorkflow *)

(** The persisted result of a step of [ClaimsWorkflow]. *)
Inductive ClaimsStep :=
  | OfValidation (v : Validation)
  | OfAnalysis (a : RejectionAnalysis)
  | OfStored (s : StoredAnalysis)
  | OfNextActions (n : NextActions).

(** Field reads on a step result; a field the stored object does not have
    reads as [undefined]. *)
Definition get_isValid (r : ClaimsStep) : option bool :=
  match r with OfValidation v => Some (isValid v) | _ => None end.
Definition get_issues (r : ClaimsStep) : option (list string) :=
  match r with OfValidation v => Some (issues v) | _ => None end.
Definition get_automationAvailable (r : ClaimsStep) : option bool :=
  match r with OfAnalysis a => Some (automationAvailable a) | _ => None end.
Definition get_confidenceScore (r : ClaimsStep) : option Q :=
  match r with OfAnalysis a => Some (confidenceScore a) | _ => None end.
Definition get_rootCauses (r : ClaimsStep) : option (list string) :=
  match r with OfAnalysis a => Some (rootCauses a) | _ => None end.
Definition get_recommendations (r : ClaimsStep) : option (list Bilingual) :=
  match r with OfAnalysis a => Some (recommendations a) | _ => None end.
Definition get_actions (r : ClaimsStep) : option (list string) :=
  match r with OfNextActions n => Some (actions n) | _ => None end.
Definition get_requiresHumanReview (r : ClaimsStep) : option bool :=
  match r with OfNextActions n => Some (requiresHumanReview n) | _ => None end.

(** Truthiness of an optional boolean field. *)
Definition truthyb (o : option bool) : bool := default false o.

Record ClaimsAnalysisSummary := {
  sum_confidenceScore : option Q;
  sum_rootCauses : option (list string);
  sum_recommendations : option (list Bilingual)
}.

Inductive ClaimsRunResult :=
  | ValidationFailure (issues : option (list string))
  | Completed (claimId : option string) (analysis : ClaimsAnalysisSummary)
      (nextActions : option (list string))
      (requiresHumanReview : option bool) (processedAt : string).

Section ClaimsWorkflow.
Context {W : Type} {RT : Runtime W}.

Definition ClaimsWorkflow_run (payload : ClaimsParams)
  : Workflow (W := W) (P := ClaimsParams) (V := ClaimsStep) ClaimsRunResult :=
  (* Step 1: Validate claim data *)
  validation <- step_do "validate-claim-data" None
    (fun w => (w, Returned (OfValidation (validate_claim_data payload)))) ;;
  if negb (truthyb (get_isValid validation)) then
    ret (ValidationFailure (get_issues validation))
  else
  (* Step 2: Analyze rejection reason with AI *)
  analysis <- step_do "ai-analyze-rejection"
    (Some {| retries := Some {| limit := 3; delay := "5 seconds";
                                backoff := exponential |};
             timeout := Some "2 minutes" |})
    (fun w => (w, Returned (OfAnalysis
                 (ai_analyze_rejection (rejectionReason payload))))) ;;
  (* Step 3: Store analysis results *)
  _ <- step_do "store-analysis-results" None
    (fun w =>
       let w := console_log
         ("Storing analysis for claim " +:+ default "undefined" (claimId payload)) w in
       (w, Returned (OfStored {| stored := true;
                                 timestamp := toISOString (Date_now w) |}))) ;;
  (* Step 4: Determine next actions *)
  nextActions <- step_do "determine-next-actions" None
    (fun w => (w, Returned (OfNextActions
                 (determine_next_actions
                    (truthyb (get_automationAvailable analysis)))))) ;;
  processedAt <- isoNow ;;
  ret (Completed (claimId payload)
         {| sum_confidenceScore := get_confidenceScore analysis;
            sum_rootCauses := get_rootCauses analysis;
            sum_recommendations := get_recommendations analysis |}
         (get_actions nextActions)
         (get_requiresHumanReview nextActions)
         processedAt).

End ClaimsWorkflow.

End Workflows.

(* ===================================================================== *)
(** * Stateful agents ([backend/linc-agents/src/index.ts]) *)
(* ===================================================================== *)
Module Agents.

(** ** Requests and environment *)

(** The fields the handlers read from a JSON body; a field that is absent
    reads as [undefined]. *)
Record Payload := {
  claimId : option string;
  payerId : option string;
  diagnosisCodes : option (list string);
  procedureCodes : option (list string);
  rejectionReason : option string;
  providerId : option string;
  sampleSize : option Q;
  sbsVersion : option string;
  auditType : option string;
  learnerId : option string;
  targetCertification : option string;
  yearsOfExperience : option Q;
  currentRole : option string
}.

Definition emptyPayload : Payload :=
  {| claimId := None; payerId := None; diagnosisCodes := None;
     procedureCodes := None; rejectionReason := None; providerId := None;
     sampleSize := None; sbsVersion := None; auditType := None;
     learnerId := None; targetCertification := None;
     yearsOfExperience := None; currentRole := None |}.

(** A parsed JSON object: the envelope fields [action] and [payload] the
    orchestrator reads, and the top-level [fields] the other agents read. *)
Record JsonBody := {
  action : option string;
  payload : option Payload;
  fields : Payload
}.

(** [JSON.stringify(payload)] as the body of a forwarded request. *)
Definition bodyOf (p : Payload) : JsonBody :=
  {| action := None; payload := None; fields := p |}.

(** A request; [body = None] when the body is not valid JSON. *)
Record Request := {
  method : string;
  pathname : string;
  body : option JsonBody
}.

(** The optional workflow bindings of [Env]; [create] yields the id of the
    new instance or throws ([None]). *)
Record Env := {
  CLAIMS_WORKFLOW : option (Payload -> option string);
  AUDIT_WORKFLOW : option (Payload -> option string);
  LEARNING_WORKFLOW : option (Payload -> option string)
}.

(** The values [new Date().toISOString()], [crypto.randomUUID()] and
    [Math.random()] return, by the number of the call. *)
Record Oracle := {
  dateAt : nat -> string;
  uuidAt : nat -> string;
  randomAt : nat -> Q
}.

Record Ticks := { dates : nat; uuids : nat; randoms : nat }.

(** ** State interfaces *)
Record AgentState := {
  createdAt : string;
  lastActivity : string;
  requestCount : nat
}.

Record ClaimsState := {
  c_createdAt : string;
  c_lastActivity : string;
  c_requestCount : nat;
  claimsAnalyzed : nat;
  totalSavings : Z;
  pendingClaims : list string
}.

Record ActionStatus := { as_id : string; as_status : string }.

Record AuditState := {
  a_createdAt : string;
  a_lastActivity : string;
  a_requestCount : nat;
  auditsCompleted : nat;
  averageScore : Q;
  a_correctiveActions : list ActionStatus
}.

Record LearningState := {
  l_createdAt : string;
  l_lastActivity : string;
  l_requestCount : nat;
  pathsGenerated : nat;
  activeModules : list string;
  completionRate : Q
}.

(** ** Results *)
Record Analysis := {
  rootCauses : list string;
  recommendations : list Bilingual;
  confidenceScore : Q;
  estimatedSavings : Z;
  automationAvailable : bool;
  suggestedActions : list string;
  workflowInstanceId : option string
}.

Inductive RiskLevel := low | medium | high | critical.

Record CorrectiveAction := {
  actionId : string;
  ca_type : string;
  ca_titleAr : string;
  ca_titleEn : string;
  deadlineDays : nat;
  ca_priority : string
}.

Record AuditResult := {
  auditId : string;
  auditDate : string;
  ar_providerId : string;
  ar_sbsVersion : string;
  ar_auditType : string;
  complianceScore : Q;
  riskLevel : RiskLevel;
  auditOutcome : string;
  ar_sampleSize : Q;
  totalErrors : Z;
  correctiveActions : list CorrectiveAction;
  ar_workflowInstanceId : option string
}.

Inductive Priority := required | recommended | optional.

Record LearningModule := {
  m_id : string;
  titleAr : string;
  titleEn : string;
  hours : nat;
  priority : Priority;
  order : nat
}.

Record SkillAssessment := {
  icd10Coding : Q;
  sbsKnowledge : Q;
  documentation : Q;
  clinicalTerminology : Q
}.

Record SkillGap := { skill : string; currentLevel : Q; targetLevel : Q }.

Record Factor := { factor : string; impact : string }.

Record LearningPathResult := {
  pathId : string;
  lp_learnerId : option string;
  lp_targetCertification : string;
  totalModules : nat;
  totalEstimatedHours : nat;
  recommendedPace : string;
  estimatedCompletionWeeks : Z;
  modules : list LearningModule;
  skillAssessment : SkillAssessment;
  skillGaps : list SkillGap;
  overallProbability : Q;
  factors : list Factor;
  lp_workflowInstanceId : option string;
  generatedAt : string
}.

(** The JSON bodies of the responses.  The constructor stands for the
    fields that are fixed for a kind of response (the agent's name, the
    status text, the list of capabilities, the error text); the summary
    sentences, which only repeat the rounded score, are not carried. *)
Inductive ResponseBody :=
  | MasterHealth (instanceId : string) (state : AgentState) (timestamp : string)
  | NotFoundAt (path : string)
  | NotFound
  | UnknownAction (action : option string)
  | OrchestrationFailed (message : string)
  | Orchestrated (requestId : string) (action : option string)
      (result : ResponseBody) (processedAt : string)
  | ClaimsHealth (instanceId : string) (claimsAnalyzed : nat) (totalSavings : Z)
  | ClaimAnalyzed (analysisId : string) (claimId : option string)
      (analysis : Analysis) (processedAt : string)
  | AuditHealth (instanceId : string) (auditsCompleted : nat) (averageScore : Q)
  | AuditSimulated (r : AuditResult)
  | LearningHealth (instanceId : string) (pathsGenerated : nat)
      (completionRate : Q)
  | PathGenerated (r : LearningPathResult).

Record Response := { status : nat; r_body : ResponseBody }.

(** [jsonResponse(data, status = 200)] *)
Definition jsonResponse (data : ResponseBody) (status : nat) : Response :=
  {| status := status; r_body := data |}.

(** ** The tables of the agents (each has [id TEXT PRIMARY KEY]) *)
Record RequestRow := {
  rq_id : string;
  rq_type : option string;
  rq_payload : option Payload;
  rq_response : option ResponseBody;
  rq_created_at : string
}.

Record ClaimsAnalysisRow := {
  cl_id : string;
  claim_id : option string;
  payer_id : string;
  rejection_reason : string;
  root_causes : list string;
  cl_recommendations : list Bilingual;
  confidence_score : Q;
  cl_created_at : string
}.

Record AuditResultRow := {
  au_id : string;
  provider_id : string;
  sbs_version : string;
  compliance_score : Q;
  risk_level : RiskLevel;
  audit_outcome : string;
  corrective_actions : list CorrectiveAction;
  au_created_at : string
}.

Record LearningPathRow := {
  lp_id : string;
  learner_id : option string;
  target_certification : string;
  lp_modules : list LearningModule;
  skill_gaps : list SkillGap;
  success_probability : Q;
  lp_created_at : string
}.

(** An agent instance: its state and its table. *)
Record Instance (S R : Type) := { agentState : S; table : list R }.
Arguments agentState {S R} _.
Arguments table {S R} _.

Abbreviation MasterInstance := (Instance AgentState RequestRow).
Abbreviation ClaimsInstance := (Instance ClaimsState ClaimsAnalysisRow).
Abbreviation AuditInstance := (Instance AuditState AuditResultRow).
Abbreviation LearningInstance := (Instance LearningState LearningPathRow).

(** ** Handlers: computations over the call counters and the instance that
    return or throw *)
Inductive Res (A : Type) :=
  | Done (a : A)
  | Threw (msg : string).
Arguments Done {A} a.
Arguments Threw {A} msg.

Definition Handler (I A : Type) : Type := Ticks * I -> Ticks * I * Res A.

Definition ret {I A} (a : A) : Handler I A := fun s => (s, Done a).

Definition bind {I A B} (m : Handler I A) (k : A -> Handler I B)
  : Handler I B :=
  fun s =>
    let '(s', r) := m s in
    match r with
    | Done a => k a s'
    | Threw msg => (s', Threw msg)
    end.

Notation "x <- m ;; k" := (bind m (fun x => k))
  (at level 100, m at level 99, k at level 200, right associativity).

Definition throw {I A} (msg : string) : Handler I A := fun s => (s, Threw msg).

(** [try { m } catch (error) { h error.message }] *)
Definition try_catch {I A} (m : Handler I A) (h : string -> Handler I A)
  : Handler I A :=
  fun s =>
    let '(s', r) := m s in
    match r with
    | Done a => (s', Done a)
    | Threw msg => h msg s'
    end.

Definition gets {I A} (f : I -> A) : Handler I A :=
  fun s => (s, Done (f (snd s))).

Definition modify {I} (f : I -> I) : Handler I unit :=
  fun '(t, i) => ((t, f i), Done tt).

Section Effects.
Context (oracle : Oracle).

(** [new Date().toISOString()] *)
Definition newDate {I} : Handler I string :=
  fun '(t, i) =>
    (({| dates := S (dates t); uuids := uuids t; randoms := randoms t |}, i),
     Done (dateAt oracle (dates t))).

(** [crypto.randomUUID()] *)
Definition randomUUID {I} : Handler I string :=
  fun '(t, i) =>
    (({| dates := dates t; uuids := S (uuids t); randoms := randoms t |}, i),
     Done (uuidAt oracle (uuids t))).

(** [Math.random()] *)
Definition Math_random {I} : Handler I Q :=
  fun '(t, i) =>
    (({| dates := dates t; uuids := uuids t; randoms := S (randoms t) |}, i),
     Done (randomAt oracle (randoms t))).

End Effects.

(** [this.state] and [this.setState] *)
Definition getState {S R} : Handler (Instance S R) S := gets agentState.

Definition setState {S R} (st : S) : Handler (Instance S R) unit :=
  modify (fun i => {| agentState := st; table := table i |}).

(** [INSERT INTO t ...]: the primary key must be new. *)
Definition sql_insert {S R} (key : R -> string) (row : R)
  : Handler (Instance S R) unit :=
  fun '(t, i) =>
    if existsb (fun r => String.eqb (key r) (key row)) (table i)
    then ((t, i), Threw "UNIQUE constraint failed")
    else ((t, {| agentState := agentState i; table := table i ++ [row] |}),
          Done tt).

(** [UPDATE t SET ... WHERE id = ...] *)
Definition sql_update {S R} (key : R -> string) (id : string) (f : R -> R)
  : Handler (Instance S R) unit :=
  modify (fun i =>
    {| agentState := agentState i;
       table := map (fun r => if String.eqb (key r) id then f r else r)
                    (table i) |}).

(** [await request.json()] *)
Definition request_json {I} (request : Request) : Handler I JsonBody :=
  match body request with
  | Some b => ret b
  | None => throw "Unexpected token in JSON"
  end.

(** ** CLAIMS LINC AGENT - Claims Analysis & Resolution *)

Definition performAnalysis (rejectionReason : string)
  (diagnosisCodes procedureCodes : list string) : Analysis :=
  let rootCauses : list string := [] in
  let recommendations : list Bilingual := [] in
  let confidenceScore := 0.5%Q in
  let estimatedSavings := 0%Z in
  (* Analyze based on rejection reason patterns *)
  let lowerReason := JS.toLowerCase rejectionReason in
  let '(rootCauses, recommendations, confidenceScore, estimatedSavings) :=
    if JS.includes lowerReason "code" || JS.includes lowerReason "invalid" then
      (rootCauses ++ ["Incorrect or missing diagnosis/procedure codes"],
       recommendations ++ [{| ar := "تحديث رموز ICD-10 أو CPT المطلوبة";
                              en := "Update required ICD-10 or CPT codes" |}],
       0.85%Q, 2500%Z)
    else (rootCauses, recommendations, confidenceScore, estimatedSavings) in
  let '(rootCauses, recommendations, confidenceScore, estimatedSavings) :=
    if JS.includes lowerReason "authorization"
       || JS.includes lowerReason "prior auth" then
      (rootCauses ++ ["Missing prior authorization"],
       recommendations ++ [{| ar := "الحصول على تفويض مسبق من الدافع";
                              en := "Obtain prior authorization from payer" |}],
       0.9%Q, 5000%Z)
    else (rootCauses, recommendations, confidenceScore, estimatedSavings) in
  let '(rootCauses, recommendations, confidenceScore, estimatedSavings) :=
    if JS.includes lowerReason "documentation"
       || JS.includes lowerReason "medical necessity" then
      (rootCauses ++ ["Insufficient clinical documentation"],
       recommendations ++ [{| ar := "تحسين التوثيق السريري بالتفاصيل المطلوبة";
                              en := "Enhance clinical documentation with required details" |}],
       0.8%Q, 3500%Z)
    else (rootCauses, recommendations, confidenceScore, estimatedSavings) in
  let '(rootCauses, recommendations, confidenceScore, estimatedSavings) :=
    if JS.includes lowerReason "timely" || JS.includes lowerReason "deadline" then
      (rootCauses ++ ["Claim submitted after filing deadline"],
       recommendations ++ [{| ar := "مراجعة مواعيد التقديم وتقديم استئناف";
                              en := "Review submission deadlines and file appeal" |}],
       0.7%Q, 1500%Z)
    else (rootCauses, recommendations, confidenceScore, estimatedSavings) in
  (* Default if no patterns matched *)
  let '(rootCauses, recommendations) :=
    if Nat.eqb (length rootCauses) 0 then
      (rootCauses ++ ["Requires manual review"],
       recommendations ++ [{| ar := "مراجعة يدوية مطلوبة من المختص";
                              en := "Manual review required by specialist" |}])
    else (rootCauses, recommendations) in
  {| rootCauses := rootCauses;
     recommendations := recommendations;
     confidenceScore := confidenceScore;
     estimatedSavings := estimatedSavings;
     automationAvailable :=
       (0 <? length rootCauses)%nat
       && negb (existsb (String.eqb "Requires manual review") rootCauses);
     suggestedActions :=
       if (0 <? length recommendations)%nat
       then ["Prepare corrected claim"; "Submit for re-processing"]
       else ["Route to manual review"];
     workflowInstanceId := None |}.

Definition withWorkflowInstanceId (a : Analysis) (id : string) : Analysis :=
  {| rootCauses := rootCauses a; recommendations := recommendations a;
     confidenceScore := confidenceScore a;
     estimatedSavings := estimatedSavings a;
     automationAvailable := automationAvailable a;
     suggestedActions := suggestedActions a;
     workflowInstanceId := Some id |}.

(** The outcome of the guarded [env.X_WORKFLOW.create({ params: payload })];
    a missing binding and a failed [create] both leave the id undefined. *)
Definition triggerWorkflow (binding : option (Payload -> option string))
  (p : Payload) : option string :=
  match binding with
  | Some create => create p
  | None => None
  end.

(** The two [new Date()] of an [initialState]. *)
Definition twoDates (t : Ticks) : Ticks :=
  {| dates := S (S (dates t)); uuids := uuids t; randoms := randoms t |}.

(** [[...new Set(l)]]: [l] without repetitions, first occurrences kept. *)
Definition uniq (l : list string) : list string :=
  fold_left (fun acc x => if existsb (String.eqb x) acc then acc
                          else acc ++ [x]) l [].

Fixpoint insert_by_order (m : LearningModule) (l : list LearningModule)
  : list LearningModule :=
  match l with
  | [] => [m]
  | x :: l' => if (order m <=? order x)%nat then m :: l
               else x :: insert_by_order m l'
  end.

(** [modules.sort((a, b) => a.order - b.order)] (a stable sort). *)
Definition sort_by_order (l : list LearningModule) : list LearningModule :=
  foldr insert_by_order [] l.

(** Run a handler on a part of the state. *)
Definition zoom {I J A} (get : J -> I) (set : I -> J -> J) (m : Handler I A)
  : Handler J A :=
  fun '(t, j) =>
    let '((t', i'), r) := m (t, get j) in
    ((t', set i' j), r).

(** [(await getAgentByName(namespace, name)).fetch(request)]: the instance
    of that name, created with its [initialState] when it does not exist
    yet, handles the request. *)
Definition fetch {S R} (create : Ticks -> Ticks * Instance S R)
  (onRequest : string -> Request -> Handler (Instance S R) Response)
  (name : string) (request : Request)
  : Handler (gmap string (Instance S R)) Response :=
  fun '(t, namespace) =>
    let '(t, inst) := match namespace !! name with
                      | Some i => (t, i)
                      | None => create t
                      end in
    let '((t', inst'), r) := onRequest name request (t, inst) in
    ((t', <[name := inst']> namespace), r).

(** The agent namespaces the orchestrator calls ([env.ClaimsAgent],
    [env.AuditAgent], [env.LearningAgent]). *)
Record Downstream := {
  ClaimsAgent : gmap string ClaimsInstance;
  AuditAgent : gmap string AuditInstance;
  LearningAgent : gmap string LearningInstance
}.

(** All the agent namespaces of the worker. *)
Record Namespaces := {
  MasterAgent : gmap string MasterInstance;
  downstream : Downstream
}.

Section Agents.
Context (oracle : Oracle) (env : Env).

(** [initialState] of a new [ClaimsLincAgent] *)
Definition new_ClaimsLincAgent (t : Ticks) : Ticks * ClaimsInstance :=
  (twoDates t,
   {| agentState :=
        {| c_createdAt := dateAt oracle (dates t);
           c_lastActivity := dateAt oracle (S (dates t));
           c_requestCount := 0; claimsAnalyzed := 0; totalSavings := 0;
           pendingClaims := [] |};
      table := [] |}).

Definition ClaimsLincAgent_analyzeClaim (request : Request)
  : Handler ClaimsInstance Response :=
  json <- request_json request ;;
  let payload := fields json in
  analysisId <- randomUUID oracle ;;
  (* Perform AI analysis *)
  let analysis :=
    performAnalysis (JS.or_else (rejectionReason payload) "")
      (default [] (diagnosisCodes payload))
      (default [] (procedureCodes payload)) in
  (* Store analysis *)
  created_at <- newDate oracle ;;
  _ <- sql_insert cl_id
    {| cl_id := analysisId; claim_id := claimId payload;
       payer_id := JS.or_else (payerId payload) "";
       rejection_reason := JS.or_else (rejectionReason payload) "";
       root_causes := rootCauses analysis;
       cl_recommendations := recommendations analysis;
       confidence_score := confidenceScore analysis;
       cl_created_at := created_at |} ;;
  (* Update state *)
  st <- getState ;;
  _ <- setState
    {| c_createdAt := c_createdAt st; c_lastActivity := c_lastActivity st;
       c_requestCount := c_requestCount st;
       claimsAnalyzed := claimsAnalyzed st + 1;
       totalSavings := (totalSavings st + estimatedSavings analysis)%Z;
       pendingClaims := pendingClaims st |} ;;
  (* Trigger workflow if available *)
  let analysis :=
    match triggerWorkflow (CLAIMS_WORKFLOW env) payload with
    | Some id => withWorkflowInstanceId analysis id
    | None => analysis
    end in
  processedAt <- newDate oracle ;;
  ret (jsonResponse
         (ClaimAnalyzed analysisId (claimId payload) analysis processedAt) 200).

Definition ClaimsLincAgent_onRequest (self : string) (request : Request)
  : Handler ClaimsInstance Response :=
  st <- getState ;;
  now <- newDate oracle ;;
  _ <- setState
    {| c_createdAt := c_createdAt st; c_lastActivity := now;
       c_requestCount := c_requestCount st + 1;
       claimsAnalyzed := claimsAnalyzed st; totalSavings := totalSavings st;
       pendingClaims := pendingClaims st |} ;;
  if String.eqb (pathname request) "/health" then
    st <- getState ;;
    ret (jsonResponse
           (ClaimsHealth self (claimsAnalyzed st) (totalSavings st)) 200)
  else if (String.eqb (pathname request) "/analyze"
           || String.eqb (pathname request) "/api/v1/claims/analyze")
          && String.eqb (method request) "POST" then
    ClaimsLincAgent_analyzeClaim request
  else ret (jsonResponse NotFound 404).

(** ** AUDIT LINC AGENT - CHI Audit Simulation *)

Definition new_AuditLincAgent (t : Ticks) : Ticks * AuditInstance :=
  (twoDates t,
   {| agentState :=
        {| a_createdAt := dateAt oracle (dates t);
           a_lastActivity := dateAt oracle (S (dates t));
           a_requestCount := 0; auditsCompleted := 0; averageScore := 0;
           a_correctiveActions := [] |};
      table := [] |}).

Definition AuditLincAgent_simulateAudit (request : Request)
  : Handler AuditInstance Response :=
  json <- request_json request ;;
  let payload := fields json in
  let sampleSize := default 50%Q (sampleSize payload) in
  let sbsVersion := default "2.0" (sbsVersion payload) in
  let auditType := default "routine" (auditType payload) in
  today <- newDate oracle ;;
  providerId <-
    match providerId payload with
    | Some s => ret s
    | None => throw "Cannot read properties of undefined (reading 'substring')"
    end ;;
  let auditId :=
    "CHI-AUDIT-" +:+ JS.remove_all "-" (JS.split_head "T" today) +:+ "-"
    +:+ JS.toUpperCase (String.substring 0 8 providerId) in
  (* Simulate audit analysis *)
  random <- Math_random oracle ;;
  let errorRate := (random * 0.3)%Q in
  let complianceScore :=
    (inject_Z (JS.Math_round ((1 - errorRate) * 100 * 100)) / 100)%Q in
  let errorCount := JS.Math_round (sampleSize * errorRate) in
  let riskLevel := low in
  let auditOutcome := "COMPLIANT" in
  let '(riskLevel, auditOutcome) :=
    if JS.lt complianceScore 90 then (medium, "MINOR_ISSUES")
    else (riskLevel, auditOutcome) in
  let '(riskLevel, auditOutcome) :=
    if JS.lt complianceScore 75 then (high, "REQUIRES_IMPROVEMENT")
    else (riskLevel, auditOutcome) in
  let '(riskLevel, auditOutcome) :=
    if JS.lt complianceScore 60 then (critical, "NON_COMPLIANT")
    else (riskLevel, auditOutcome) in
  (* Generate corrective actions *)
  let correctiveActions : list CorrectiveAction := [] in
  let correctiveActions :=
    match riskLevel with
    | high | critical =>
        correctiveActions ++
        [{| actionId := "CAP-001"; ca_type := "mandatory_training";
            ca_titleAr := "تدريب إلزامي على معايير الترميز";
            ca_titleEn := "Mandatory Coding Standards Training";
            deadlineDays := 30; ca_priority := "high" |}]
    | _ => correctiveActions
    end in
  let correctiveActions :=
    if JS.lt complianceScore 85 then
      correctiveActions ++
      [{| actionId := "CAP-002"; ca_type := "follow_up_audit";
          ca_titleAr := "مراجعة تدقيقية متابعة";
          ca_titleEn := "Follow-up Compliance Audit";
          deadlineDays := if JS.lt complianceScore 70 then 90 else 180;
          ca_priority := "medium" |}]
    else correctiveActions in
  let correctiveActions :=
    if JS.lt complianceScore 75 then
      correctiveActions ++
      [{| actionId := "CAP-003"; ca_type := "documentation_review";
          ca_titleAr := "مراجعة إجراءات التوثيق";
          ca_titleEn := "Documentation Procedures Review";
          deadlineDays := 45; ca_priority := "high" |}]
    else correctiveActions in
  (* Store results *)
  created_at <- newDate oracle ;;
  _ <- sql_insert au_id
    {| au_id := auditId; provider_id := providerId; sbs_version := sbsVersion;
       compliance_score := complianceScore; risk_level := riskLevel;
       audit_outcome := auditOutcome; corrective_actions := correctiveActions;
       au_created_at := created_at |} ;;
  (* Update state *)
  st <- getState ;;
  let newAuditsCompleted := auditsCompleted st + 1 in
  let newAverageScore :=
    (((averageScore st * inject_Z (Z.of_nat (auditsCompleted st)))
      + complianceScore) / inject_Z (Z.of_nat newAuditsCompleted))%Q in
  _ <- setState
    {| a_createdAt := a_createdAt st; a_lastActivity := a_lastActivity st;
       a_requestCount := a_requestCount st;
       auditsCompleted := newAuditsCompleted;
       averageScore := newAverageScore;
       a_correctiveActions :=
         a_correctiveActions st ++
         map (fun a => {| as_id := actionId a; as_status := "pending" |})
             correctiveActions |} ;;
  (* Trigger workflow if available *)
  let workflowInstanceId := triggerWorkflow (AUDIT_WORKFLOW env) payload in
  auditDate <- newDate oracle ;;
  ret (jsonResponse
         (AuditSimulated
            {| auditId := auditId; auditDate := auditDate;
               ar_providerId := providerId; ar_sbsVersion := sbsVersion;
               ar_auditType := auditType; complianceScore := complianceScore;
               riskLevel := riskLevel; auditOutcome := auditOutcome;
               ar_sampleSize := sampleSize; totalErrors := errorCount;
               correctiveActions := correctiveActions;
               ar_workflowInstanceId := workflowInstanceId |}) 200).

Definition AuditLincAgent_onRequest (self : string) (request : Request)
  : Handler AuditInstance Response :=
  st <- getState ;;
  now <- newDate oracle ;;
  _ <- setState
    {| a_createdAt := a_createdAt st; a_lastActivity := now;
       a_requestCount := a_requestCount st + 1;
       auditsCompleted := auditsCompleted st; averageScore := averageScore st;
       a_correctiveActions := a_correctiveActions st |} ;;
  if String.eqb (pathname request) "/health" then
    st <- getState ;;
    ret (jsonResponse
           (AuditHealth self (auditsCompleted st) (averageScore st)) 200)
  else if (String.eqb (pathname request) "/simulate"
           || String.eqb (pathname request) "/api/audit/simulate")
          && String.eqb (method request) "POST" then
    AuditLincAgent_simulateAudit request
  else ret (jsonResponse NotFound 404).

(** ** LEARNING LINC AGENT - Learning Path Generation *)

Definition new_LearningLincAgent (t : Ticks) : Ticks * LearningInstance :=
  (twoDates t,
   {| agentState :=
        {| l_createdAt := dateAt oracle (dates t);
           l_lastActivity := dateAt oracle (S (dates t));
           l_requestCount := 0; pathsGenerated := 0; activeModules := [];
           completionRate := 0 |};
      table := [] |}).

(** [Math.min(0.95, 0.6 + (yearsOfExperience * 0.05))] *)
Definition successProbability (yearsOfExperience : Q) : Q :=
  let baseProbability := (0.6 + (yearsOfExperience * 0.05))%Q in
  JS.Math_min 0.95 baseProbability.

Definition LearningLincAgent_generateLearningPath (request : Request)
  : Handler LearningInstance Response :=
  json <- request_json request ;;
  let payload := fields json in
  let yearsOfExperience := default 1%Q (yearsOfExperience payload) in
  let currentRole := default "Medical Coder" (currentRole payload) in
  pathId <- randomUUID oracle ;;
  (* Calculate skill levels based on experience *)
  let baseLevel := (50 + yearsOfExperience * 5)%Q in
  let skillAssessment :=
    {| icd10Coding := JS.Math_min 100 (baseLevel + 10);
       sbsKnowledge := JS.Math_min 100 baseLevel;
       documentation := JS.Math_min 100 (baseLevel + 20);
       clinicalTerminology := JS.Math_min 100 (baseLevel + 15) |} in
  (* Generate personalized modules *)
  let modules :=
    [ {| m_id := "M001"; titleAr := "أساسيات ICD-10-AM";
         titleEn := "ICD-10-AM Fundamentals"; hours := 8;
         priority := required; order := 1 |};
      {| m_id := "M002"; titleAr := "نظام الفوترة السعودي (SBS)";
         titleEn := "Saudi Billing System (SBS)"; hours := 12;
         priority := required; order := 2 |};
      {| m_id := "M003"; titleAr := "معايير التوثيق السريري";
         titleEn := "Clinical Documentation Standards"; hours := 6;
         priority := required; order := 3 |} ] in
  let modules :=
    if JS.lt yearsOfExperience 2 then
      modules ++
      [ {| m_id := "M004"; titleAr := "أساسيات الترميز الطبي";
           titleEn := "Medical Coding Basics"; hours := 10;
           priority := required; order := 4 |};
        {| m_id := "M005"; titleAr := "المصطلحات الطبية";
           titleEn := "Medical Terminology"; hours := 8;
           priority := required; order := 5 |} ]
    else
      modules ++
      [ {| m_id := "M006"; titleAr := "ترميز الإجراءات المتقدمة";
           titleEn := "Advanced Procedure Coding"; hours := 8;
           priority := recommended; order := 4 |};
        {| m_id := "M007"; titleAr := "إجراءات التدقيق";
           titleEn := "Audit Procedures"; hours := 6;
           priority := recommended; order := 5 |} ] in
  targetCertification <-
    match targetCertification payload with
    | Some s => ret s
    | None => throw "Cannot read properties of undefined (reading 'toUpperCase')"
    end ;;
  let modules :=
    if JS.includes (JS.toUpperCase targetCertification) "CCP" then
      modules ++
      [ {| m_id := "M008"; titleAr := "الإعداد لشهادة CCP";
           titleEn := "CCP Certification Prep"; hours := 15;
           priority := required; order := 6 |} ]
    else modules in
  (* Calculate totals *)
  let totalHours := fold_left (fun sum m => sum + hours m) modules 0 in
  let hoursPerWeek := 4%Z in
  let estimatedWeeks :=
    JS.Math_ceil (inject_Z (Z.of_nat totalHours) / inject_Z hoursPerWeek) in
  (* Success probability *)
  let successProbability := successProbability yearsOfExperience in
  (* Skill gaps *)
  let skillGaps :=
    List.filter (fun g => JS.lt (currentLevel g) (targetLevel g))
      [ {| skill := "ICD-10 Coding";
           currentLevel := icd10Coding skillAssessment; targetLevel := 90 |};
        {| skill := "SBS Knowledge";
           currentLevel := sbsKnowledge skillAssessment; targetLevel := 85 |};
        {| skill := "Documentation";
           currentLevel := documentation skillAssessment; targetLevel := 95 |};
        {| skill := "Clinical Terminology";
           currentLevel := clinicalTerminology skillAssessment;
           targetLevel := 85 |} ] in
  (* Store path *)
  created_at <- newDate oracle ;;
  _ <- sql_insert lp_id
    {| lp_id := pathId; learner_id := learnerId payload;
       target_certification := targetCertification; lp_modules := modules;
       skill_gaps := skillGaps; success_probability := successProbability;
       lp_created_at := created_at |} ;;
  (* Update state *)
  st <- getState ;;
  _ <- setState
    {| l_createdAt := l_createdAt st; l_lastActivity := l_lastActivity st;
       l_requestCount := l_requestCount st;
       pathsGenerated := pathsGenerated st + 1;
       activeModules := uniq (activeModules st ++ map m_id modules);
       completionRate := completionRate st |} ;;
  (* Trigger workflow if available *)
  let workflowInstanceId := triggerWorkflow (LEARNING_WORKFLOW env) payload in
  generatedAt <- newDate oracle ;;
  ret (jsonResponse
         (PathGenerated
            {| pathId := pathId; lp_learnerId := learnerId payload;
               lp_targetCertification := targetCertification;
               totalModules := length modules;
               totalEstimatedHours := totalHours;
               recommendedPace := "4 hours/week";
               estimatedCompletionWeeks := estimatedWeeks;
               modules := sort_by_order modules;
               skillAssessment := skillAssessment;
               skillGaps := skillGaps;
               overallProbability := JS.round2 successProbability;
               factors :=
                 [ {| factor := "Experience";
                      impact := if JS.lt 2 yearsOfExperience
                                then "positive" else "neutral" |};
                   {| factor := "Current Role";
                      impact :=
                        if JS.includes (JS.toLowerCase currentRole) "coder"
                        then "positive" else "neutral" |} ];
               lp_workflowInstanceId := workflowInstanceId;
               generatedAt := generatedAt |}) 200).

Definition LearningLincAgent_onRequest (self : string) (request : Request)
  : Handler LearningInstance Response :=
  st <- getState ;;
  now <- newDate oracle ;;
  _ <- setState
    {| l_createdAt := l_createdAt st; l_lastActivity := now;
       l_requestCount := l_requestCount st + 1;
       pathsGenerated := pathsGenerated st;
       activeModules := activeModules st;
       completionRate := completionRate st |} ;;
  if String.eqb (pathname request) "/health" then
    st <- getState ;;
    ret (jsonResponse
           (LearningHealth self (pathsGenerated st) (completionRate st)) 200)
  else if (String.eqb (pathname request) "/path"
           || String.eqb (pathname request) "/api/learning/path")
          && String.eqb (method request) "POST" then
    LearningLincAgent_generateLearningPath request
  else ret (jsonResponse NotFound 404).

(** ** MASTER LINC AGENT - Orchestration Hub *)

Definition new_MasterLincAgent (t : Ticks) : Ticks * MasterInstance :=
  (twoDates t,
   {| agentState :=
        {| createdAt := dateAt oracle (dates t);
           lastActivity := dateAt oracle (S (dates t));
           requestCount := 0 |};
      table := [] |}).

(** The orchestrator works on its own instance and on the namespaces of the
    agents it calls. *)
Definition this {A} (m : Handler MasterInstance A)
  : Handler (MasterInstance * Downstream) A :=
  zoom fst (fun i j => (i, snd j)) m.

Definition inClaimsAgent {A} (m : Handler (gmap string ClaimsInstance) A)
  : Handler (MasterInstance * Downstream) A :=
  zoom (fun j => ClaimsAgent (snd j))
       (fun ns j => (fst j, {| ClaimsAgent := ns;
                               AuditAgent := AuditAgent (snd j);
                               LearningAgent := LearningAgent (snd j) |})) m.

Definition inAuditAgent {A} (m : Handler (gmap string AuditInstance) A)
  : Handler (MasterInstance * Downstream) A :=
  zoom (fun j => AuditAgent (snd j))
       (fun ns j => (fst j, {| ClaimsAgent := ClaimsAgent (snd j);
                               AuditAgent := ns;
                               LearningAgent := LearningAgent (snd j) |})) m.

Definition inLearningAgent {A} (m : Handler (gmap string LearningInstance) A)
  : Handler (MasterInstance * Downstream) A :=
  zoom (fun j => LearningAgent (snd j))
       (fun ns j => (fst j, {| ClaimsAgent := ClaimsAgent (snd j);
                               AuditAgent := AuditAgent (snd j);
                               LearningAgent := ns |})) m.

(** Reading a property of [payload] throws when [payload] is undefined. *)
Definition payloadOf {I} (payload : option Payload) (prop : string)
  : Handler I Payload :=
  match payload with
  | Some p => ret p
  | None =>
      throw ("Cannot read properties of undefined (reading '" +:+ prop +:+ "')")
  end.

Definition postTo (path : string) (p : Payload) : Request :=
  {| method := "POST"; pathname := path; body := Some (bodyOf p) |}.

Definition MasterLincAgent_handleOrchestrate (request : Request)
  : Handler (MasterInstance * Downstream) Response :=
  try_catch
    (json <- request_json request ;;
     let action := action json in
     let payload := payload json in
     (* Log request *)
     requestId <- randomUUID oracle ;;
     created_at <- newDate oracle ;;
     _ <- this (sql_insert rq_id
       {| rq_id := requestId; rq_type := action; rq_payload := payload;
          rq_response := None; rq_created_at := created_at |}) ;;
     (* [None] stands for the [return] of the [default] case. *)
     result <-
       (if bool_decide (action = Some "analyze_claim") then
          (* Route to Claims Agent *)
          p <- payloadOf payload "claimId" ;;
          response <- inClaimsAgent
            (fetch new_ClaimsLincAgent ClaimsLincAgent_onRequest
               ("claims-" +:+ JS.or_else (claimId p) "default")
               (postTo "/analyze" p)) ;;
          ret (Some (r_body response))
        else if bool_decide (action = Some "run_audit") then
          (* Route to Audit Agent *)
          p <- payloadOf payload "providerId" ;;
          response <- inAuditAgent
            (fetch new_AuditLincAgent AuditLincAgent_onRequest
               ("audit-" +:+ JS.or_else (providerId p) "default")
               (postTo "/simulate" p)) ;;
          ret (Some (r_body response))
        else if bool_decide (action = Some "generate_learning_path") then
          (* Route to Learning Agent *)
          p <- payloadOf payload "learnerId" ;;
          response <- inLearningAgent
            (fetch new_LearningLincAgent LearningLincAgent_onRequest
               ("learning-" +:+ JS.or_else (learnerId p) "default")
               (postTo "/path" p)) ;;
          ret (Some (r_body response))
        else ret None) ;;
     match result with
     | None => ret (jsonResponse (UnknownAction action) 400)
     | Some result =>
         (* Update request with response *)
         _ <- this (sql_update rq_id requestId (fun r =>
           {| rq_id := rq_id r; rq_type := rq_type r;
              rq_payload := rq_payload r; rq_response := Some result;
              rq_created_at := rq_created_at r |})) ;;
         processedAt <- newDate oracle ;;
         ret (jsonResponse
                (Orchestrated requestId action result processedAt) 200)
     end)
    (fun message => ret (jsonResponse (OrchestrationFailed message) 500)).

Definition MasterLincAgent_onRequest (self : string) (request : Request)
  : Handler (MasterInstance * Downstream) Response :=
  st <- this getState ;;
  now <- newDate oracle ;;
  _ <- this (setState
    {| createdAt := createdAt st; lastActivity := now;
       requestCount := requestCount st + 1 |}) ;;
  (* Health check *)
  if String.eqb (pathname request) "/health"
     || String.eqb (pathname request) "/" then
    st <- this getState ;;
    timestamp <- newDate oracle ;;
    ret (jsonResponse (MasterHealth self st timestamp) 200)
  (* Orchestration endpoint *)
  else if String.eqb (pathname request) "/orchestrate"
          && String.eqb (method request) "POST" then
    MasterLincAgent_handleOrchestrate request
  else ret (jsonResponse (NotFoundAt (pathname request)) 404).

(** [(await getAgentByName(env.MasterAgent, name)).fetch(request)] *)
Definition fetchMaster (name : string) (request : Request)
  : Handler Namespaces Response :=
  fun '(t, ns) =>
    let '(t, inst) := match MasterAgent ns !! name with
                      | Some i => (t, i)
                      | None => new_MasterLincAgent t
                      end in
    let '((t', (inst', down')), r) :=
      MasterLincAgent_onRequest name request (t, (inst, downstream ns)) in
    ((t', {| MasterAgent := <[name := inst']> (MasterAgent ns);
             downstream := down' |}), r).

Definition inDownstream {A} (get : Downstream -> A)
  (set : A -> Downstream -> Downstream) {B} (m : Handler A B)
  : Handler Namespaces B :=
  zoom (fun ns => get (downstream ns))
       (fun a ns => {| MasterAgent := MasterAgent ns;
                       downstream := set a (downstream ns) |}) m.

Definition fetchClaims (name : string) (request : Request)
  : Handler Namespaces Response :=
  inDownstream ClaimsAgent
    (fun a d => {| ClaimsAgent := a; AuditAgent := AuditAgent d;
                   LearningAgent := LearningAgent d |})
    (fetch new_ClaimsLincAgent ClaimsLincAgent_onRequest name request).

Definition fetchAudit (name : string) (request : Request)
  : Handler Namespaces Response :=
  inDownstream AuditAgent
    (fun a d => {| ClaimsAgent := ClaimsAgent d; AuditAgent := a;
                   LearningAgent := LearningAgent d |})
    (fetch new_AuditLincAgent AuditLincAgent_onRequest name request).

Definition fetchLearning (name : string) (request : Request)
  : Handler Namespaces Response :=
  inDownstream LearningAgent
    (fun a d => {| ClaimsAgent := ClaimsAgent d; AuditAgent := AuditAgent d;
                   LearningAgent := a |})
    (fetch new_LearningLincAgent LearningLincAgent_onRequest name request).

(** ** MAIN WORKER - HTTP Router: the API routes *)

Definition forward (path : string) (b : JsonBody) : Request :=
  {| method := "POST"; pathname := path; body := Some b |}.

(** [app.post('/api/v1/orchestrate', ...)] *)
Definition post_api_v1_orchestrate (req : Request)
  : Handler Namespaces Response :=
  b <- request_json req ;;
  fetchMaster "master-orchestrator" (forward "/orchestrate" b).

(** The instance key a route derives from the body, [body.field || 'default']. *)
Definition agentId (field : option string) : string :=
  JS.or_else field "default".

(** [app.post('/api/v1/claims/analyze', ...)] *)
Definition post_api_v1_claims_analyze (req : Request)
  : Handler Namespaces Response :=
  b <- request_json req ;;
  let agentId := agentId (claimId (fields b)) in
  fetchClaims ("claims-" +:+ agentId) (forward "/analyze" b).

(** [app.post('/api/audit/simulate', ...)] *)
Definition post_api_audit_simulate (req : Request)
  : Handler Namespaces Response :=
  b <- request_json req ;;
  let agentId := agentId (providerId (fields b)) in
  fetchAudit ("audit-" +:+ agentId) (forward "/simulate" b).

(** [app.post('/api/learning/path', ...)] *)
Definition post_api_learning_path (req : Request)
  : Handler Namespaces Response :=
  b <- request_json req ;;
  let agentId := agentId (learnerId (fields b)) in
  fetchLearning ("learning-" +:+ agentId) (forward "/path" b).

End Agents.

End Agents.

(* ===================================================================== *)
(** * Further steps of the workflows ([setup.sh], the workflows worker) *)
(* ===================================================================== *)
Module WorkflowSteps.
Import Workflows.

(** ** AuditWorkflow, step 2: [gather-sample-claims]

    [Date_now i] and [Math_random i] are the answers to the calls the step
    makes, in the order in which it makes them: one [Date.now()] and two
    [Math.random()] per turn of the loop.  The loop
    [for (let i = 0; i < sampleSize; i++)] makes one turn for each natural
    number below [sampleSize]. *)
Record SampleData := { claims : list SampleClaim; totalSampled : Q }.

Definition gather_sample_claims (Date_now : nat -> Z) (Math_random : nat -> Q)
  (sampleSize : Q) : SampleData :=
  let claims :=
    map (fun i =>
           {| s_claimId := "CLM-" +:+ pretty (Date_now i) +:+ "-" +:+ pretty i;
              hasErrors := JS.lt 0.85 (Math_random (2 * i));
              errorType := if JS.lt 0.5 (Math_random (2 * i + 1))
                           then "coding" else "documentation" |})
        (seq 0 (Z.to_nat (Qceiling sampleSize))) in
  {| claims := claims; totalSampled := sampleSize |}.

(** ** AuditWorkflow, step 4: [generate-corrective-actions] *)
Record Action := {
  actionId : string;
  a_type : string;
  titleAr : string;
  titleEn : string;
  deadlineDays : nat
}.

Definition generate_corrective_actions (complianceAnalysis : ComplianceAnalysis)
  : list Action :=
  let actions : list Action := [] in
  let actions :=
    match riskLevel complianceAnalysis with
    | high | critical =>
        actions ++
        [{| actionId := "CAP-001"; a_type := "mandatory_training";
            titleAr := "تدريب إلزامي على معايير الترميز";
            titleEn := "Mandatory Coding Standards Training";
            deadlineDays := 30 |}]
    | _ => actions
    end in
  let actions :=
    if JS.lt (complianceScore complianceAnalysis) 85 then
      actions ++
      [{| actionId := "CAP-002"; a_type := "follow_up_audit";
          titleAr := "مراجعة تدقيقية متابعة";
          titleEn := "Follow-up Compliance Audit";
          deadlineDays :=
            if JS.lt (complianceScore complianceAnalysis) 70
            then 90 else 180 |}]
    else actions in
  actions.

(** ** LearningWorkflow, step 1: [assess-current-skills] *)
Record SkillLevels := {
  icd10Coding : Q;
  sbsKnowledge : Q;
  documentation : Q;
  clinicalTerminology : Q
}.

Definition assess_current_skills (yearsOfExperience : Q) : SkillLevels :=
  let baseLevel := (50 + yearsOfExperience * 5)%Q in
  {| icd10Coding := JS.Math_min 100 (baseLevel + 10);
     sbsKnowledge := JS.Math_min 100 baseLevel;
     documentation := JS.Math_min 100 (baseLevel + 20);
     clinicalTerminology := JS.Math_min 100 (baseLevel + 15) |}.

(** ** LearningWorkflow, step 2: [generate-learning-modules] *)
Inductive Priority := required | recommended | optional.

Record LearningModule := {
  id : string;
  m_titleAr : string;
  m_titleEn : string;
  hours : nat;
  priority : Priority
}.

Definition generate_learning_modules (yearsOfExperience : Q)
  (targetCertification : string) : list LearningModule :=
  let moduleList :=
    [ {| id := "M001"; m_titleAr := "أساسيات ICD-10-AM";
         m_titleEn := "ICD-10-AM Fundamentals"; hours := 8;
         priority := required |};
      {| id := "M002"; m_titleAr := "نظام الفوترة السعودي (SBS)";
         m_titleEn := "Saudi Billing System (SBS)"; hours := 12;
         priority := required |};
      {| id := "M003"; m_titleAr := "معايير التوثيق السريري";
         m_titleEn := "Clinical Documentation Standards"; hours := 6;
         priority := required |} ] in
  let moduleList :=
    if JS.lt yearsOfExperience 2 then
      moduleList ++
      [ {| id := "M004"; m_titleAr := "أساسيات الترميز الطبي";
           m_titleEn := "Medical Coding Basics"; hours := 10;
           priority := required |};
        {| id := "M005"; m_titleAr := "المصطلحات الطبية";
           m_titleEn := "Medical Terminology"; hours := 8;
           priority := required |} ]
    else
      moduleList ++
      [ {| id := "M006"; m_titleAr := "ترميز الإجراءات المتقدمة";
           m_titleEn := "Advanced Procedure Coding"; hours := 8;
           priority := recommended |};
        {| id := "M007"; m_titleAr := "إجراءات التدقيق";
           m_titleEn := "Audit Procedures"; hours := 6;
           priority := recommended |} ] in
  let moduleList :=
    if JS.includes targetCertification "CCP" then
      moduleList ++
      [ {| id := "M008"; m_titleAr := "الإعداد لشهادة CCP";
           m_titleEn := "CCP Certification Prep"; hours := 15;
           priority := required |} ]
    else moduleList in
  moduleList.

(** ** LearningWorkflow, step 4: [create-schedule] *)
Record Schedule := {
  totalModules : nat;
  totalEstimatedHours : nat;
  recommendedPace : string;
  estimatedCompletionWeeks : Z
}.

Definition create_schedule (modules : list LearningModule) : Schedule :=
  let totalHours := fold_left (fun sum m => sum + hours m) modules 0 in
  let hoursPerWeek := 4 in
  let estimatedWeeks :=
    JS.Math_ceil (inject_Z (Z.of_nat totalHours)
                  / inject_Z (Z.of_nat hoursPerWeek)) in
  {| totalModules := length modules;
     totalEstimatedHours := totalHours;
     recommendedPace := pretty hoursPerWeek +:+ " hours/week";
     estimatedCompletionWeeks := estimatedWeeks |}.

(** ** The parameters the HTTP handler starts the workflows with
    ([fetch], [/api/audit/simulate] and [/api/learning/path]) *)
Definition number_or_else (o : option Q) (d : Q) : Q :=
  match o with
  | Some x => if Qeq_bool x 0 then d else x
  | None => d
  end.

Record AuditParams := {
  providerId : string;
  sampleSize : Q;
  sbsVersion : string;
  auditType : string
}.

Record LearningParams := {
  learnerId : string;
  targetCertification : string;
  yearsOfExperience : Q;
  currentRole : string
}.

Definition auditParams (params : Agents.Payload) : AuditParams :=
  {| providerId := JS.or_else (Agents.providerId params) "PROVIDER-001";
     sampleSize := number_or_else (Agents.sampleSize params) 50;
     sbsVersion := JS.or_else (Agents.sbsVersion params) "2.0";
     auditType := JS.or_else (Agents.auditType params) "routine" |}.

Definition learningParams (params : Agents.Payload) : LearningParams :=
  {| learnerId := JS.or_else (Agents.learnerId params) "LEARNER-001";
     targetCertification :=
       JS.or_else (Agents.targetCertification params) "CCP-KSA";
     yearsOfExperience := number_or_else (Agents.yearsOfExperience params) 1;
     currentRole := JS.or_else (Agents.currentRole params) "Medical Coder" |}.

End WorkflowSteps.

(* ===================================================================== *)
(** * JavaScript numbers as IEEE 754 doubles *)
(* ===================================================================== *)
(** The scoring steps divide and round, and there the doubles of
    JavaScript and the rationals part: this module gives the primitives on
    Rocq's binary64 numbers ([PrimFloat]), whose operations round to nearest,
    ties to even, as JavaScript's do. *)
Module Double.

(** A whole number as a double (exact below [2^53]). *)
Definition ofZ (z : Z) : float :=
  if (z <? 0)%Z then PrimFloat.opp (PrimFloat.of_uint63 (Uint63.of_Z (- z)))
  else PrimFloat.of_uint63 (Uint63.of_Z z).

Definition ofNat (n : nat) : float := ofZ (Z.of_nat n).

(** The number a double stands for; [None] for [NaN] and the infinities. *)
Definition value (x : float) : option Q :=
  match Prim2SF x with
  | S754_zero _ => Some 0%Q
  | S754_finite s m e =>
      let m := if s then Z.neg m else Z.pos m in
      Some (if (0 <=? e)%Z then inject_Z (Z.shiftl m e)
            else Qmake m (Pos.shiftl 1 (Z.to_N (- e))))
  | _ => None
  end.

(** [a <= b] as numbers. *)
Definition le (a b : float) : Prop :=
  match value a, value b with
  | Some p, Some q => (p <= q)%Q
  | _, _ => False
  end.

(** [a < b], [a === b] *)
Definition lt (a b : float) : bool := PrimFloat.ltb a b.
Definition eq (a b : float) : bool := PrimFloat.eqb a b.

(** [Math.min], [Math.max]: [NaN] when an argument is; of two zeros the
    negative one is the smaller. *)
Definition Math_min (a b : float) : float :=
  if PrimFloat.is_nan a || PrimFloat.is_nan b then PrimFloat.nan
  else if PrimFloat.ltb a b then a
  else if PrimFloat.ltb b a then b
  else if PrimFloat.get_sign a then a else b.

Definition Math_max (a b : float) : float :=
  if PrimFloat.is_nan a || PrimFloat.is_nan b then PrimFloat.nan
  else if PrimFloat.ltb a b then b
  else if PrimFloat.ltb b a then a
  else if PrimFloat.get_sign a then b else a.

(** The integer nearest to a double that has a fractional part, halves
    going up: [floor (x + 1/2)], computed on the mantissa and the exponent
    of [x = m * 2^e], [e < 0]. *)
Definition nearest (m : Z) (e : Z) : Z :=
  Z.shiftr (Z.shiftl m 1 + Z.shiftl 1 (- e)) (1 - e).

(** [Math.round]: a double without a fractional part ([e >= 0], the zeros),
    [NaN] and the infinities are returned as they are; a negative number
    that rounds to zero gives [-0]. *)
Definition Math_round (x : float) : float :=
  match Prim2SF x with
  | S754_finite s m e =>
      if (0 <=? e)%Z then x
      else
        let k := nearest (if s then Z.neg m else Z.pos m) e in
        if s && (k =? 0)%Z then PrimFloat.neg_zero else ofZ k
  | _ => x
  end.

(** The idiom [Math.round(x * 100) / 100]. *)
Definition round2 (x : float) : float :=
  PrimFloat.div (Math_round (PrimFloat.mul x 100%float)) 100%float.

End Double.

(* ===================================================================== *)
(** * The scoring steps in doubles *)
(* ===================================================================== *)
(** The steps of the workflows whose result depends on the rounding of the
    doubles ([setup.sh]), and the probability of the learning agent
    ([index.ts]).  The exact readings of [Workflows] and [WorkflowSteps]
    agree with them on the whole numbers the properties of those modules
    are about. *)
Module Scoring.
Import Workflows.
Local Open Scope float_scope.

(** ** AuditWorkflow, step 3: [analyze-compliance] *)
Record ComplianceAnalysis := {
  complianceScore : float;
  riskLevel : RiskLevel;
  auditOutcome : string;
  errorCount : nat;
  sampleSize : float
}.

(** [Math.max(0, Math.min(100, ((sampleSize - errorCount) / sampleSize) * 100))] *)
Definition clampedScore (sampleSize errorCount : float) : float :=
  let baseScore := ((sampleSize - errorCount) / sampleSize) * 100 in
  Double.Math_max 0 (Double.Math_min 100 baseScore).

Definition analyze_compliance (sampleSize : float) (claims : list SampleClaim)
  : ComplianceAnalysis :=
  let errorCount := length (List.filter hasErrors claims) in
  let complianceScore := clampedScore sampleSize (Double.ofNat errorCount) in
  let riskLevel := low in
  let auditOutcome := "COMPLIANT"%string in
  let '(riskLevel, auditOutcome) :=
    if Double.lt complianceScore 90 then (medium, "MINOR_ISSUES"%string)
    else (riskLevel, auditOutcome) in
  let '(riskLevel, auditOutcome) :=
    if Double.lt complianceScore 75 then (high, "REQUIRES_IMPROVEMENT"%string)
    else (riskLevel, auditOutcome) in
  let '(riskLevel, auditOutcome) :=
    if Double.lt complianceScore 60 then (critical, "NON_COMPLIANT"%string)
    else (riskLevel, auditOutcome) in
  {| complianceScore := Double.round2 complianceScore;
     riskLevel := riskLevel;
     auditOutcome := auditOutcome;
     errorCount := errorCount;
     sampleSize := sampleSize |}.

(** ** AuditWorkflow, step 4: [generate-corrective-actions] *)
Definition generate_corrective_actions (complianceAnalysis : ComplianceAnalysis)
  : list WorkflowSteps.Action :=
  let actions : list WorkflowSteps.Action := [] in
  let actions :=
    match riskLevel complianceAnalysis with
    | high | critical =>
        actions ++
        [{| WorkflowSteps.actionId := "CAP-001";
            WorkflowSteps.a_type := "mandatory_training";
            WorkflowSteps.titleAr := "تدريب إلزامي على معايير الترميز";
            WorkflowSteps.titleEn := "Mandatory Coding Standards Training";
            WorkflowSteps.deadlineDays := 30 |}]
    | _ => actions
    end in
  let actions :=
    if Double.lt (complianceScore complianceAnalysis) 85 then
      actions ++
      [{| WorkflowSteps.actionId := "CAP-002";
          WorkflowSteps.a_type := "follow_up_audit";
          WorkflowSteps.titleAr := "مراجعة تدقيقية متابعة";
          WorkflowSteps.titleEn := "Follow-up Compliance Audit";
          WorkflowSteps.deadlineDays :=
            if Double.lt (complianceScore complianceAnalysis) 70
            then 90%nat else 180%nat |}]
    else actions in
  actions.

(** ** LearningWorkflow, step 1: [assess-current-skills] *)
Record SkillLevels := {
  icd10Coding : float;
  sbsKnowledge : float;
  documentation : float;
  clinicalTerminology : float
}.

Definition assess_current_skills (yearsOfExperience : float) : SkillLevels :=
  let baseLevel := 50 + yearsOfExperience * 5 in
  {| icd10Coding := Double.Math_min 100 (baseLevel + 10);
     sbsKnowledge := Double.Math_min 100 baseLevel;
     documentation := Double.Math_min 100 (baseLevel + 20);
     clinicalTerminology := Double.Math_min 100 (baseLevel + 15) |}.

(** ** LearningWorkflow, step 3: [calculate-success-probability] *)
Record Prediction := { overallProbability : float; factors : list Factor }.

Definition adjustedProbability (yearsOfExperience : float) : float :=
  let baseProbability := 0.6 + yearsOfExperience * 0.05 in
  Double.Math_min 0.95 baseProbability.

Definition calculate_success_probability
  (yearsOfExperience : float) (currentRole : string) : Prediction :=
  {| overallProbability := Double.round2 (adjustedProbability yearsOfExperience);
     factors :=
       [ {| factor := "Experience";
            impact := if Double.lt 2 yearsOfExperience
                      then "positive" else "neutral" |};
         {| factor := "Current Role";
            impact := if JS.includes (JS.toLowerCase currentRole) "coder"
                      then "positive" else "neutral" |} ] |}.

(** ** [LearningLincAgent.generateLearningPath], the success probability *)
Definition successProbability (yearsOfExperience : float) : float :=
  let baseProbability := 0.6 + (yearsOfExperience * 0.05) in
  Double.Math_min 0.95 baseProbability.

End Scoring.

(* ===================================================================== *)
(** * Vocabulary of the properties *)
(* ===================================================================== *)

(** [wp m Q s]: running the handler [m] from [s] ends in a state and a
    result that satisfy [Q]. *)
Definition wp {I A} (m : Agents.Handler I A)
  (Q : Agents.Ticks * I -> Agents.Res A -> Prop)
  (s : Agents.Ticks * I) : Prop :=
  Q (fst (m s)) (snd (m s)).

Section ScoringVocabulary.
Import Workflows.

(** The scenario of the specification: 50 sampled claims, 8 of them in
    error. *)
Definition sample_50_8 : list SampleClaim :=
  map (fun i => {| s_claimId := "CLM"; hasErrors := (i <? 8)%nat;
                   errorType := "coding" |}) (seq 0 50).

(** The text matches none of the keyword categories of [performAnalysis]
    (code error, authorization, documentation, timeliness). *)
Definition matchesNoCategory (rejectionReason : string) : Prop :=
  let lowerReason := JS.toLowerCase rejectionReason in
  (JS.includes lowerReason "code" || JS.includes lowerReason "invalid") = false /\
  (JS.includes lowerReason "authorization"
   || JS.includes lowerReason "prior auth") = false /\
  (JS.includes lowerReason "documentation"
   || JS.includes lowerReason "medical necessity") = false /\
  (JS.includes lowerReason "timely" || JS.includes lowerReason "deadline") = false.

End ScoringVocabulary.

Section CountersVocabulary.
Import Agents.

Definition master_le (i i' : MasterInstance) : Prop :=
  requestCount (agentState i) <= requestCount (agentState i').

Definition claims_le (i i' : ClaimsInstance) : Prop :=
  c_requestCount (agentState i) <= c_requestCount (agentState i') /\
  claimsAnalyzed (agentState i) <= claimsAnalyzed (agentState i').

Definition audit_le (i i' : AuditInstance) : Prop :=
  a_requestCount (agentState i) <= a_requestCount (agentState i') /\
  auditsCompleted (agentState i) <= auditsCompleted (agentState i').

Definition learning_le (i i' : LearningInstance) : Prop :=
  l_requestCount (agentState i) <= l_requestCount (agentState i') /\
  pathsGenerated (agentState i) <= pathsGenerated (agentState i').

(** Every instance of a namespace is still there, with counters that are at
    least what they were. *)
Definition each {I} (R : I -> I -> Prop) (ns ns' : gmap string I) : Prop :=
  forall name i, ns !! name = Some i ->
    exists i', ns' !! name = Some i' /\ R i i'.

Definition downstream_le (d d' : Downstream) : Prop :=
  each claims_le (ClaimsAgent d) (ClaimsAgent d') /\
  each audit_le (AuditAgent d) (AuditAgent d') /\
  each learning_le (LearningAgent d) (LearningAgent d').

Definition counters_le (ns ns' : Namespaces) : Prop :=
  each master_le (MasterAgent ns) (MasterAgent ns') /\
  downstream_le (downstream ns) (downstream ns').

End CountersVocabulary.

(** A fixed environment for the scenarios: a clock that stands still,
    request ids numbered by the call, no workflow bindings. *)
Definition oracle0 : Agents.Oracle :=
  {| Agents.dateAt := fun _ => "2025-01-01T00:00:00.000Z";
     Agents.uuidAt := fun n => String (ascii_of_nat (48 + n)) "";
     Agents.randomAt := fun _ => (1 # 10)%Q |}.

Definition env0 : Agents.Env :=
  {| Agents.CLAIMS_WORKFLOW := None; Agents.AUDIT_WORKFLOW := None;
     Agents.LEARNING_WORKFLOW := None |}.

Definition ticks0 : Agents.Ticks :=
  {| Agents.dates := 0; Agents.uuids := 0; Agents.randoms := 0 |}.

Definition noAgents : Agents.Downstream :=
  {| Agents.ClaimsAgent := ∅; Agents.AuditAgent := ∅;
     Agents.LearningAgent := ∅ |}.

Definition noInstances : Agents.Namespaces :=
  {| Agents.MasterAgent := ∅; Agents.downstream := noAgents |}.

(** A hub that has not handled any request yet. *)
Definition freshMaster : Agents.MasterInstance :=
  {| Agents.agentState :=
       {| Agents.createdAt := "2025-01-01T00:00:00.000Z";
          Agents.lastActivity := "2025-01-01T00:00:00.000Z";
          Agents.requestCount := 0 |};
     Agents.table := [] |}.

(** [POST /orchestrate] with the body [{action: "foo", payload: {}}]. *)
Definition fooRequest : Agents.Request :=
  {| Agents.method := "POST"; Agents.pathname := "/orchestrate";
     Agents.body := Some {| Agents.action := Some "foo";
                            Agents.payload := Some Agents.emptyPayload;
                            Agents.fields := Agents.emptyPayload |} |}.

(** The [ClaimsLincAgent] instance that requests without [claimId] reach. *)
Definition defaultClaims (ns : Agents.Namespaces) : option Agents.ClaimsInstance :=
  Agents.ClaimsAgent (Agents.downstream ns) !! "claims-default".

(** Its [claimsAnalyzed]; an instance that does not exist yet is in its
    initial state. *)
Definition analyzedByDefault (ns : Agents.Namespaces) : nat :=
  match defaultClaims ns with
  | Some i => Agents.claimsAnalyzed (Agents.agentState i)
  | None => 0
  end.

(** The ids of the rows in its table. *)
Definition idsOfDefault (ns : Agents.Namespaces) : list string :=
  match defaultClaims ns with
  | Some i => map Agents.cl_id (Agents.table i)
  | None => []
  end.

(** [POST /api/v1/claims/analyze] with a body that has no [claimId]. *)
Definition unscopedRequest (reason : string) : Agents.Request :=
  {| Agents.method := "POST"; Agents.pathname := "/api/v1/claims/analyze";
     Agents.body := Some
       {| Agents.action := None; Agents.payload := None;
          Agents.fields :=
            {| Agents.claimId := None; Agents.payerId := Some "PAYER-1";
               Agents.diagnosisCodes := Some ["J45.909"];
               Agents.procedureCodes := None;
               Agents.rejectionReason := Some reason;
               Agents.providerId := None; Agents.sampleSize := None;
               Agents.sbsVersion := None; Agents.auditType := None;
               Agents.learnerId := None; Agents.targetCertification := None;
               Agents.yearsOfExperience := None;
               Agents.currentRole := None |} |} |}.

Section RunVocabulary.
Import Workflows.
Context {W : Type} {P V : Type}.

(** The run [run] with the records [new] appended to its steps. *)
Definition withSteps (run : TaskRun P V) (new : list (StepRecord V)) : TaskRun P V :=
  {| runId := runId run; params := params run;
     steps := steps run ++ new; status := status run |}.

(** [keeps stepName v m]: running [m] on a run in which [stepName] has
    succeeded with [v] leaves that result in place and records no further
    attempt of that step. *)
Definition keeps (stepName : string) (v : V) {A}
  (m : Workflow (W := W) (P := P) (V := V) A) : Prop :=
  forall w run, succeededResult run stepName = Some v ->
    succeededResult (snd (fst (m (w, run)))) stepName = Some v /\
    attemptsOf stepName (snd (fst (m (w, run)))) = attemptsOf stepName run.

End RunVocabulary.

(** A platform for the scenarios: the state is the clock, a suspension
    advances it, every duration is read as 5, the delay does not grow, and a
    step without options is not retried. *)
Definition runtime0 : Workflows.Runtime nat :=
  {| Workflows.Date_now := fun w => w;
     Workflows.toISOString := fun _ => "2025-01-01T00:00:00.000Z";
     Workflows.console_log := fun _ w => w;
     Workflows.sleep := fun d w => w + d;
     Workflows.parseDuration := fun _ => 5;
     Workflows.backoffDelay := fun _ d _ => d;
     Workflows.defaultRetryLimit := 0 |}.

(** A step function that fails on every attempt. *)
Definition alwaysRaises {V} : nat -> nat * Workflows.Outcome V :=
  fun w => (w + 1, Workflows.Raised "upstream unavailable").

Definition claimParams : Workflows.ClaimsParams :=
  {| Workflows.claimId := Some "CLM-1"; Workflows.payerId := Some "PAYER-1";
     Workflows.diagnosisCodes := Some ["J45.909"];
     Workflows.procedureCodes := Some [];
     Workflows.rejectionReason := Some "invalid code";
     Workflows.priority := None |}.

Definition newRun : Workflows.TaskRun Workflows.ClaimsParams Workflows.ClaimsStep :=
  {| Workflows.runId := "run-1"; Workflows.params := claimParams;
     Workflows.steps := []; Workflows.status := Workflows.Run.running |}.

(** The analysis a first invocation of the run has stored. *)
Definition storedAnalysis : Workflows.ClaimsStep :=
  Workflows.OfAnalysis
    {| Workflows.confidenceScore := 0.85%Q;
       Workflows.rootCauses := ["Incorrect or missing diagnosis/procedure codes"];
       Workflows.recommendations :=
         [{| ar := "تحديث رموز ICD-10 أو CPT";
             en := "Update ICD-10 or CPT codes" |}];
       Workflows.automationAvailable := true |}.

(** A run interrupted after its second step. *)
Definition interruptedRun
  : Workflows.TaskRun Workflows.ClaimsParams Workflows.ClaimsStep :=
  {| Workflows.runId := "run-1"; Workflows.params := claimParams;
     Workflows.steps :=
       [ {| Workflows.name := "validate-claim-data";
            Workflows.state := Workflows.succeeded
              (Workflows.OfValidation
                 (Workflows.validate_claim_data claimParams));
            Workflows.attempt := 1; Workflows.startedAt := 0;
            Workflows.completedAt := 0 |};
         {| Workflows.name := "ai-analyze-rejection";
            Workflows.state := Workflows.failed "timeout";
            Workflows.attempt := 1; Workflows.startedAt := 0;
            Workflows.completedAt := 200 |};
         {| Workflows.name := "ai-analyze-rejection";
            Workflows.state := Workflows.succeeded storedAnalysis;
            Workflows.attempt := 2; Workflows.startedAt := 205;
            Workflows.completedAt := 206 |} ];
     Workflows.status := Workflows.Run.running |}.

(** ** Vocabulary of the further properties *)

(** The keyword categories of [performAnalysis], in the order in which it
    tests them. *)
Definition isCodeError (rejectionReason : string) : bool :=
  let lowerReason := JS.toLowerCase rejectionReason in
  JS.includes lowerReason "code" || JS.includes lowerReason "invalid".

Definition isAuthorization (rejectionReason : string) : bool :=
  let lowerReason := JS.toLowerCase rejectionReason in
  JS.includes lowerReason "authorization" || JS.includes lowerReason "prior auth".

Definition isDocumentation (rejectionReason : string) : bool :=
  let lowerReason := JS.toLowerCase rejectionReason in
  JS.includes lowerReason "documentation"
  || JS.includes lowerReason "medical necessity".

Definition isTimeliness (rejectionReason : string) : bool :=
  let lowerReason := JS.toLowerCase rejectionReason in
  JS.includes lowerReason "timely" || JS.includes lowerReason "deadline".

Section AgentInvariants.
Import Agents.

(** The rows an agent has stored are as many as its counter says. *)
Definition claims_rows (i : ClaimsInstance) : Prop :=
  claimsAnalyzed (agentState i) = length (table i).

Definition audit_rows (i : AuditInstance) : Prop :=
  auditsCompleted (agentState i) = length (table i).

Definition learning_rows (i : LearningInstance) : Prop :=
  pathsGenerated (agentState i) = length (table i).

(** The hub has logged at most one row per request. *)
Definition master_rows (i : MasterInstance) : Prop :=
  length (table i) <= requestCount (agentState i).

Definition downstream_rows (d : Downstream) : Prop :=
  map_Forall (fun _ => claims_rows) (ClaimsAgent d) /\
  map_Forall (fun _ => audit_rows) (AuditAgent d) /\
  map_Forall (fun _ => learning_rows) (LearningAgent d).

Definition rows_match_counters (ns : Namespaces) : Prop :=
  map_Forall (fun _ => master_rows) (MasterAgent ns) /\
  downstream_rows (downstream ns).

End AgentInvariants.

(** The id [simulateAudit] gives to an audit of [providerId] made at the
    time [today]. *)
Definition auditIdFor (today providerId : string) : string :=
  "CHI-AUDIT-" +:+ JS.remove_all "-" (JS.split_head "T" today) +:+ "-"
  +:+ JS.toUpperCase (String.substring 0 8 providerId).

(** An [AuditLincAgent] that has not handled any request yet. *)
Definition freshAudit : Agents.AuditInstance :=
  {| Agents.agentState :=
       {| Agents.a_createdAt := "2025-01-01T00:00:00.000Z";
          Agents.a_lastActivity := "2025-01-01T00:00:00.000Z";
          Agents.a_requestCount := 0; Agents.auditsCompleted := 0;
          Agents.averageScore := 0; Agents.a_correctiveActions := [] |};
     Agents.table := [] |}.

(** A body with no field but the given ones. *)
Definition auditBody (providerId : option string) : Agents.JsonBody :=
  Agents.bodyOf
    {| Agents.claimId := None; Agents.payerId := None;
       Agents.diagnosisCodes := None; Agents.procedureCodes := None;
       Agents.rejectionReason := None; Agents.providerId := providerId;
       Agents.sampleSize := None; Agents.sbsVersion := None;
       Agents.auditType := None; Agents.learnerId := None;
       Agents.targetCertification := None;
       Agents.yearsOfExperience := None; Agents.currentRole := None |}.

(** [POST /simulate] for a provider. *)
Definition simulateRequest (providerId : option string) : Agents.Request :=
  {| Agents.method := "POST"; Agents.pathname := "/simulate";
     Agents.body := Some (auditBody providerId) |}.

(** The requests an agent analyses: a [POST] to one of its two paths. *)
Definition claimsRoute (request : Agents.Request) : bool :=
  (String.eqb (Agents.pathname request) "/analyze"
   || String.eqb (Agents.pathname request) "/api/v1/claims/analyze")
  && String.eqb (Agents.method request) "POST".

Definition auditRoute (request : Agents.Request) : bool :=
  (String.eqb (Agents.pathname request) "/simulate"
   || String.eqb (Agents.pathname request) "/api/audit/simulate")
  && String.eqb (Agents.method request) "POST".

Definition learningRoute (request : Agents.Request) : bool :=
  (String.eqb (Agents.pathname request) "/path"
   || String.eqb (Agents.pathname request) "/api/learning/path")
  && String.eqb (Agents.method request) "POST".

(** [GET /health] *)
Definition healthRequest : Agents.Request :=
  {| Agents.method := "GET"; Agents.pathname := "/health";
     Agents.body := None |}.

(** A [LearningLincAgent] that has not handled any request yet. *)
Definition freshLearning : Agents.LearningInstance :=
  {| Agents.agentState :=
       {| Agents.l_createdAt := "2025-01-01T00:00:00.000Z";
          Agents.l_lastActivity := "2025-01-01T00:00:00.000Z";
          Agents.l_requestCount := 0; Agents.pathsGenerated := 0;
          Agents.activeModules := []; Agents.completionRate := 0 |};
     Agents.table := [] |}.

(** The body of a request for a learning path. *)
Definition pathBody (certification : string) (years : option Q)
  : Agents.JsonBody :=
  Agents.bodyOf
    {| Agents.claimId := None; Agents.payerId := None;
       Agents.diagnosisCodes := None; Agents.procedureCodes := None;
       Agents.rejectionReason := None; Agents.providerId := None;
       Agents.sampleSize := None; Agents.sbsVersion := None;
       Agents.auditType := None; Agents.learnerId := Some "L-1";
       Agents.targetCertification := Some certification;
       Agents.yearsOfExperience := years;
       Agents.currentRole := None |}.

(** [POST /path] for a learner. *)
Definition pathRequest (certification : string) (years : option Q)
  : Agents.Request :=
  {| Agents.method := "POST"; Agents.pathname := "/path";
     Agents.body := Some (pathBody certification years) |}.

(** The analysis [analyzeClaim] returns for a payload: that of
    [performAnalysis], with the id of the workflow instance when one was
    started. *)
Definition analysisFor (env : Agents.Env) (payload : Agents.Payload)
  : Agents.Analysis :=
  let analysis :=
    Agents.performAnalysis (JS.or_else (Agents.rejectionReason payload) "")
      (default [] (Agents.diagnosisCodes payload))
      (default [] (Agents.procedureCodes payload)) in
  match Agents.triggerWorkflow (Agents.CLAIMS_WORKFLOW env) payload with
  | Some id => Agents.withWorkflowInstanceId analysis id
  | None => analysis
  end.

(** The claims instance a name denotes: the stored one, or a new one. *)
Definition claimsInstanceAt (oracle : Agents.Oracle) (t : Agents.Ticks)
  (ns : gmap string Agents.ClaimsInstance) (name : string)
  : Agents.ClaimsInstance :=
  default (snd (Agents.new_ClaimsLincAgent oracle t)) (ns !! name).

(** A payload with a claim id and a rejection reason. *)
Definition claimPayload (claimId : option string) (reason : string)
  : Agents.Payload :=
  {| Agents.claimId := claimId; Agents.payerId := Some "PAYER-1";
     Agents.diagnosisCodes := Some ["J45.909"];
     Agents.procedureCodes := None;
     Agents.rejectionReason := Some reason;
     Agents.providerId := None; Agents.sampleSize := None;
     Agents.sbsVersion := None; Agents.auditType := None;
     Agents.learnerId := None; Agents.targetCertification := None;
     Agents.yearsOfExperience := None; Agents.currentRole := None |}.

(** [POST /orchestrate] with an action and a payload. *)
Definition orchestrateBody (action : string) (payload : option Agents.Payload)
  : Agents.JsonBody :=
  {| Agents.action := Some action; Agents.payload := payload;
     Agents.fields := Agents.emptyPayload |}.

Definition orchestrateRequest (action : string)
  (payload : option Agents.Payload) : Agents.Request :=
  {| Agents.method := "POST"; Agents.pathname := "/orchestrate";
     Agents.body := Some (orchestrateBody action payload) |}.

(** ** Vocabulary of the properties of the doubles *)

(** [upto fuel from P]: the [fuel] integers from [from] on all pass [P]. *)
Fixpoint upto (fuel : nat) (from : Z) (P : Z -> bool) : bool :=
  match fuel with
  | O => true
  | S fuel => if P from then upto fuel (from + 1) P else false
  end.

(** [within lo hi P]: the integers from [lo] to [hi] all pass [P]. *)
Definition within (lo hi : Z) (P : Z -> bool) : bool :=
  upto (Z.to_nat (hi - lo + 1)) lo P.

(** The double written [k / 100]: the one nearest to [k] hundredths. *)
Definition hundredths (k : Z) : float :=
  PrimFloat.div (Double.ofZ k) 100%float.

(** The integer [Math.round] turns a positive double into, when the double
    has a fractional part ([e < 0]). *)
Definition rounded (x : float) : option Z :=
  match Prim2SF x with
  | S754_finite false m e =>
      if (e <? 0)%Z then Some (Double.nearest (Z.pos m) e) else None
  | _ => None
  end.

(** What the score [analyze-compliance] returns is checked against, for a
    sample of [n] claims of which [e] are in error.  The score returned is
    [k] hundredths, within a half of [10000 * (n - e) / n]; the tests on the
    score go as the exact score [100 * (n - e) / n] says, those on the
    returned score as [k] says; and the clamp leaves the score as it is. *)
Definition compliance_checked_at (n e k : Z) (c r : float) : bool :=
  Double.eq r (hundredths k)
  && (2 * Z.abs (k * n - 10000 * (n - e)) <=? n)%Z
  && Bool.eqb (Double.lt c 60%float) (100 * (n - e) <? 60 * n)%Z
  && Bool.eqb (Double.lt c 75%float) (100 * (n - e) <? 75 * n)%Z
  && Bool.eqb (Double.lt c 90%float) (100 * (n - e) <? 90 * n)%Z
  && Bool.eqb (Double.lt r 85%float) (k <? 8500)%Z
  && Bool.eqb (Double.lt r 70%float) (k <? 7000)%Z
  && Double.eq c
       (PrimFloat.mul (PrimFloat.div (PrimFloat.sub (Double.ofZ n) (Double.ofZ e))
                                     (Double.ofZ n)) 100%float).

Definition compliance_checked (n e : Z) : bool :=
  let c := Scoring.clampedScore (Double.ofZ n) (Double.ofZ e) in
  match rounded (PrimFloat.mul c 100%float) with
  | Some k => compliance_checked_at n e k c (hundredths k)
  | None => compliance_checked_at n e 0 c (Double.round2 c)
  end.

(** The double written [k / 1000]: the one nearest to [k] thousandths. *)
Definition thousandths (k : Z) : float :=
  PrimFloat.div (Double.ofZ k) 1000%float.









(** What the skill levels of [k / 1000] years of experience are checked
    against: they lie between 50 and 100 in the order SBS, ICD-10,
    terminology, documentation; documentation is at the cap exactly from
    six years on, SBS exactly from ten years on. *)
Definition skills_checked (k : Z) : bool :=
  let s := Scoring.assess_current_skills (thousandths k) in
  PrimFloat.leb 50%float (Scoring.sbsKnowledge s)
  && PrimFloat.leb (Scoring.sbsKnowledge s) (Scoring.icd10Coding s)
  && PrimFloat.leb (Scoring.icd10Coding s) (Scoring.clinicalTerminology s)
  && PrimFloat.leb (Scoring.clinicalTerminology s) (Scoring.documentation s)
  && PrimFloat.leb (Scoring.documentation s) 100%float
  && Bool.eqb (Double.eq (Scoring.documentation s) 100%float) (6000 <=? k)%Z
  && Bool.eqb (Double.eq (Scoring.sbsKnowledge s) 100%float) (10000 <=? k)%Z.

(** For whole years, up to ten, the SBS level is [50 + 5 * years]. *)
Definition whole_years_checked (n : Z) : bool :=
  Double.eq
    (Scoring.sbsKnowledge (Scoring.assess_current_skills (thousandths (1000 * n))))
    (Double.ofZ (50 + 5 * n)).

(* ===================================================================== *)
(** * Properties *)
(* ===================================================================== *)

(** ** Numbers *)
Section Numbers.
Local Open Scope Q_scope.

Lemma lt_true (a b : Q) : JS.lt a b = true <-> a < b.
Proof.
  unfold JS.lt. rewrite negb_true_iff, <- not_true_iff_false, Qle_bool_iff.
  split; [apply Qnot_le_lt | apply Qlt_not_le].
Qed.

Lemma lt_false (a b : Q) : JS.lt a b = false <-> b <= a.
Proof.
  unfold JS.lt. rewrite negb_false_iff. apply Qle_bool_iff.
Qed.

Lemma clamp_id (x : Q) : 0 <= x -> x <= 100 ->
  JS.Math_max 0 (JS.Math_min 100 x) == x.
Proof.
  intros H0 H100. unfold JS.Math_max, JS.Math_min.
  rewrite (Q.min_r 100 x H100). apply Q.max_r. exact H0.
Qed.

Lemma round2_comp (x y : Q) : x == y -> JS.round2 x == JS.round2 y.
Proof.
  intros H. unfold JS.round2, JS.Math_round. rewrite H. reflexivity.
Qed.

Lemma round2_le (x y : Q) : x <= y -> JS.round2 x <= JS.round2 y.
Proof.
  intros H. unfold JS.round2, JS.Math_round.
  apply Qmult_le_compat_r; [| discriminate].
  rewrite <- Zle_Qle. apply Qfloor_resp_le. lra.
Qed.

(** A number of whole hundredths is its own rounding. *)
Lemma round2_exact (x : Q) (n : Z) : x * 100 == inject_Z n -> JS.round2 x == x.
Proof.
  intros H. unfold JS.round2, JS.Math_round.
  assert (Hf : Qfloor (x * 100 + (1 # 2)) = n).
  { symmetry. apply Z.le_antisymm.
    - rewrite <- (Qfloor_Z n) at 1. apply Qfloor_resp_le. rewrite H. lra.
    - apply Z.lt_succ_r. unfold Z.succ. rewrite Zlt_Qlt.
      eapply Qle_lt_trans; [apply Qfloor_le |].
      rewrite H. rewrite inject_Z_plus. change (inject_Z 1) with 1. lra. }
  rewrite Hf, <- H. field.
Qed.

(** Rounding to hundredths moves a number by at most half a hundredth. *)
Lemma round2_near (x : Q) :
  x - (1 # 200) < JS.round2 x /\ JS.round2 x <= x + (1 # 200).
Proof.
  unfold JS.round2, JS.Math_round.
  pose proof (Qfloor_le (x * 100 + (1 # 2))) as Hle.
  pose proof (Qlt_floor (x * 100 + (1 # 2))) as Hlt.
  rewrite inject_Z_plus in Hlt. change (inject_Z 1) with 1 in Hlt.
  set (f := inject_Z (Qfloor (x * 100 + (1 # 2)))) in *.
  split.
  - apply Qlt_shift_div_l; [reflexivity | lra].
  - apply Qle_shift_div_r; [reflexivity | lra].
Qed.

End Numbers.

Ltac lt_hyps :=
  repeat match goal with
         | H : JS.lt _ _ = true |- _ => apply lt_true in H
         | H : JS.lt _ _ = false |- _ => apply lt_false in H
         end.

(** ** Scoring functions of the workflows *)
Section Scoring.
Import Workflows.
Local Open Scope Q_scope.

Lemma score_range (sampleSize errors : Q) :
  0 < sampleSize -> 0 <= errors -> errors <= sampleSize ->
  0 <= (sampleSize - errors) / sampleSize * 100 <= 100.
Proof.
  intros Hs H0 He.
  assert (H1 : 0 <= (sampleSize - errors) / sampleSize).
  { apply Qle_shift_div_l; [exact Hs | lra]. }
  assert (H2 : (sampleSize - errors) / sampleSize <= 1).
  { apply Qle_shift_div_r; [exact Hs | lra]. }
  set (q := (sampleSize - errors) / sampleSize) in *. lra.
Qed.

Lemma errors_nonneg (n : nat) : 0 <= inject_Z (Z.of_nat n).
Proof. change 0 with (inject_Z 0). rewrite <- Zle_Qle. lia. Qed.

End Scoring.

(** The conjuncts of a check that succeeded. *)
Ltac checked H :=
  repeat match type of H with
         | (_ && _)%bool = true =>
             let H' := fresh "Hc" in
             apply andb_prop in H as [H H']
         end.

(** ** Checking a range of integers *)
Lemma upto_spec (fuel : nat) (from : Z) (P : Z -> bool) :
  upto fuel from P = true ->
  forall z, (from <= z < from + Z.of_nat fuel)%Z -> P z = true.
Proof.
  revert from. induction fuel as [| fuel IH]; intros from H z Hz; [lia |].
  cbn [upto] in H. destruct (P from) eqn:HP; [| discriminate].
  destruct (Z.eq_dec z from) as [-> | Hne]; [exact HP |].
  apply (IH (from + 1)%Z H). lia.
Qed.

Lemma within_spec (lo hi : Z) (P : Z -> bool) :
  within lo hi P = true -> forall z, (lo <= z <= hi)%Z -> P z = true.
Proof.
  unfold within. intros H z Hz. apply (upto_spec _ _ _ H). lia.
Qed.

(** ** Rounding *)
Lemma Math_round_rounded (x : float) (k : Z) :
  rounded x = Some k -> Double.Math_round x = Double.ofZ k.
Proof.
  unfold rounded, Double.Math_round.
  destruct (Prim2SF x) as [| | | [|] m e]; try discriminate.
  destruct (e <? 0)%Z eqn:He; [| discriminate].
  intros [= <-]. apply Z.ltb_lt in He.
  destruct (0 <=? e)%Z eqn:He'; [apply Z.leb_le in He'; lia |].
  reflexivity.
Qed.

Lemma round2_rounded (x : float) (k : Z) :
  rounded (PrimFloat.mul x 100%float) = Some k ->
  Double.round2 x = hundredths k.
Proof.
  intros H. unfold Double.round2, hundredths.
  rewrite (Math_round_rounded _ _ H). reflexivity.
Qed.

Section ExactScores.
Local Open Scope Q_scope.

(** The exact score of a sample, against a threshold. *)
Lemma score_lt (n e t : Z) : (0 < n)%Z ->
  (inject_Z n - inject_Z e) / inject_Z n * 100 < inject_Z t <->
  (100 * (n - e) < t * n)%Z.
Proof.
  intros Hn.
  assert (HN : 0 < inject_Z n) by (change 0 with (inject_Z 0); rewrite <- Zlt_Qlt; exact Hn).
  assert (Hs : (inject_Z n - inject_Z e) / inject_Z n * 100 * inject_Z n
               == inject_Z (100 * (n - e))).
  { unfold Zminus. rewrite inject_Z_mult, inject_Z_plus, inject_Z_opp.
    change (inject_Z 100) with 100. field. intros H. rewrite H in HN.
    exact (Qlt_irrefl _ HN). }
  rewrite <- (Qmult_lt_r _ _ (inject_Z n) HN), Hs, <- inject_Z_mult.
  rewrite Zlt_Qlt. reflexivity.
Qed.

Lemma score_near (n e k : Z) : (0 < n)%Z ->
  (2 * Z.abs (k * n - 10000 * (n - e)) <= n)%Z ->
  Qabs (inject_Z k / 100 - (inject_Z n - inject_Z e) / inject_Z n * 100)
  <= 1 # 200.
Proof.
  intros Hn Hk.
  assert (HN : 0 < inject_Z n) by (change 0 with (inject_Z 0); rewrite <- Zlt_Qlt; exact Hn).
  assert (Hd : (inject_Z k / 100 - (inject_Z n - inject_Z e) / inject_Z n * 100)
               * (200 * inject_Z n)
               == inject_Z (2 * (k * n - 10000 * (n - e)))).
  { unfold Zminus.
    repeat (rewrite ?inject_Z_mult, ?inject_Z_plus, ?inject_Z_opp).
    change (inject_Z 2) with 2. change (inject_Z 10000) with 10000.
    field. intros H. rewrite H in HN. exact (Qlt_irrefl _ HN). }
  assert (H200 : 0 < 200 * inject_Z n) by lra.
  apply Qabs_Qle_condition. split.
  - apply (Qmult_le_r _ _ _ H200). rewrite Hd.
    assert (E : - (1 # 200) * (200 * inject_Z n) == inject_Z (- n))
      by (rewrite inject_Z_opp; field).
    rewrite E.
    rewrite <- Zle_Qle. lia.
  - apply (Qmult_le_r _ _ _ H200). rewrite Hd.
    assert (E : (1 # 200) * (200 * inject_Z n) == inject_Z n) by field.
    rewrite E.
    rewrite <- Zle_Qle. lia.
Qed.

End ExactScores.

(** ** Compliance scoring in doubles *)
Section ComplianceInDoubles.
Import Workflows Scoring.
Local Open Scope Q_scope.

Lemma compliance_range_checked (n e : Z) :
  (1 <= n <= 1000)%Z -> (0 <= e <= n)%Z -> compliance_checked n e = true.
Proof.
  assert (H : within 1 1000
                (fun n => within 0 n (fun e => compliance_checked n e)) = true)
    by (vm_compute; reflexivity).
  intros Hn He.
  pose proof (within_spec _ _ _ H n Hn) as H1. cbv beta in H1.
  exact (within_spec _ _ _ H1 e He).
Qed.

Lemma compliance_at (n e : nat) :
  (1 <= n <= 1000)%nat -> (e <= n)%nat ->
  let c := clampedScore (Double.ofNat n) (Double.ofNat e) in
  exists k : Z,
    compliance_checked_at (Z.of_nat n) (Z.of_nat e) k c (Double.round2 c)
    = true.
Proof.
  intros Hn He c.
  pose proof (compliance_range_checked (Z.of_nat n) (Z.of_nat e)
                ltac:(lia) ltac:(lia)) as H2.
  unfold compliance_checked in H2.
  change (clampedScore (Double.ofZ (Z.of_nat n)) (Double.ofZ (Z.of_nat e)))
    with c in H2.
  destruct (rounded (PrimFloat.mul c 100%float)) as [k |] eqn:Hk.
  - exists k. rewrite (round2_rounded c k Hk). exact H2.
  - exists 0%Z. exact H2.
Qed.



End ComplianceInDoubles.



(** On a tie the doubles may round down: 160 claims with 63 in error score
    60.625 exactly, and the result carries 60.62. *)
Lemma compliance_score_on_a_tie :
  Double.round2 (Scoring.clampedScore 160%float 63%float) = 60.62%float /\
  ((160 - 63) / 160 * 100 == 60625 # 1000)%Q.
Proof. split; vm_compute; reflexivity. Qed.

(** ** The success probability in doubles *)
Section ProbabilityInDoubles.
Import Workflows Scoring.
Local Open Scope Q_scope.


Lemma le_trans (a b c : float) : Double.le a b -> Double.le b c -> Double.le a c.
Proof.
  unfold Double.le.
  destruct (Double.value a), (Double.value b), (Double.value c); try tauto.
  apply Qle_trans.
Qed.











End ProbabilityInDoubles.



(** ** Rejection analysis *)
Section RejectionAnalysis.

(** The agent's analysis of a text that matches no category is the
    "manual review" fallback with confidence 0.5. *)
Lemma performAnalysis_fallback (rejectionReason : string)
  (diagnosisCodes procedureCodes : list string) :
  matchesNoCategory rejectionReason ->
  let a := Agents.performAnalysis rejectionReason diagnosisCodes procedureCodes in
  Agents.rootCauses a = ["Requires manual review"] /\
  length (Agents.recommendations a) = 1 /\
  Agents.confidenceScore a = 0.5%Q /\
  Agents.automationAvailable a = false.
Proof.
  intros (H1 & H2 & H3 & H4). unfold Agents.performAnalysis.
  rewrite H1, H2, H3, H4. cbn. repeat split.
Qed.

(** C3: the analysis step of [ClaimsWorkflow] on a rejection reason that
    matches no category.  The step returns the single "manual review" root
    cause with one recommendation, but with confidence 0.85 and automation
    available, where the agent's [performAnalysis] gives 0.5 on the same
    text. *)
Theorem workflow_fallback_confidence :
  let reason := "service not covered by plan" in
  let a := Workflows.ai_analyze_rejection (Some reason) in
  matchesNoCategory reason /\
  Workflows.rootCauses a = ["Requires manual review"] /\
  length (Workflows.recommendations a) = 1 /\
  Workflows.confidenceScore a = 0.85%Q /\
  Workflows.automationAvailable a = true /\
  Agents.confidenceScore (Agents.performAnalysis reason [] []) = 0.5%Q.
Proof. cbv zeta. unfold matchesNoCategory. repeat split. Qed.

(** The 0.5 branch of the workflow step is never taken: whatever the
    rejection reason, the step reports confidence 0.85. *)
Lemma workflow_confidence_constant (rejectionReason : option string) :
  Workflows.confidenceScore (Workflows.ai_analyze_rejection rejectionReason)
  = 0.85%Q.
Proof.
  unfold Workflows.ai_analyze_rejection.
  destruct (JS.truthy rejectionReason); [| reflexivity].
  destruct (JS.includes _ "code"), (JS.includes _ "authorization"),
    (JS.includes _ "documentation"); reflexivity.
Qed.

(** C8.  For the rejection reason "missing prior authorization",
    [performAnalysis] returns the root cause "Missing prior authorization"
    (and no other), one recommendation with an Arabic and an English text,
    confidence 0.9, and [automationAvailable = true]. *)
Theorem prior_authorization_scenario (diagnosisCodes procedureCodes : list string) :
  let a := Agents.performAnalysis "missing prior authorization"
             diagnosisCodes procedureCodes in
  In "Missing prior authorization" (Agents.rootCauses a) /\
  Agents.rootCauses a = ["Missing prior authorization"] /\
  Agents.confidenceScore a = 0.9%Q /\
  Agents.recommendations a =
    [{| ar := "الحصول على تفويض مسبق من الدافع";
        en := "Obtain prior authorization from payer" |}] /\
  length (Agents.recommendations a) = 1 /\
  Agents.automationAvailable a = true.
Proof. cbv zeta. repeat split. left. reflexivity. Qed.

(** C10.  Whatever the rejection reason and the code lists,
    [performAnalysis] returns at least one root cause and as many
    recommendations as root causes. *)
Theorem analysis_never_empty (rejectionReason : string)
  (diagnosisCodes procedureCodes : list string) :
  let a := Agents.performAnalysis rejectionReason diagnosisCodes procedureCodes in
  1 <= length (Agents.rootCauses a) /\
  length (Agents.recommendations a) = length (Agents.rootCauses a) /\
  Agents.rootCauses a <> [] /\ Agents.recommendations a <> [].
Proof.
  cbv zeta. unfold Agents.performAnalysis.
  set (l := JS.toLowerCase rejectionReason).
  destruct (JS.includes l "code" || JS.includes l "invalid"),
    (JS.includes l "authorization" || JS.includes l "prior auth"),
    (JS.includes l "documentation" || JS.includes l "medical necessity"),
    (JS.includes l "timely" || JS.includes l "deadline");
    cbn; repeat split; solve [lia | discriminate].
Qed.

End RejectionAnalysis.

(** ** Reasoning about handlers *)
Module HandlerLogic.
Import Agents.

Lemma wp_run {I A} (m : Handler I A) Q s s' r :
  m s = (s', r) -> wp m Q s -> Q s' r.
Proof. unfold wp. intros ->. auto. Qed.

Lemma wp_conseq {I A} (m : Handler I A) (Q1 Q2 : Ticks * I -> Res A -> Prop) s :
  wp m Q1 s -> (forall s' r, Q1 s' r -> Q2 s' r) -> wp m Q2 s.
Proof. unfold wp. auto. Qed.

Lemma wp_ret {I A} (a : A) (Q : Ticks * I -> Res A -> Prop) s :
  Q s (Done a) -> wp (ret a) Q s.
Proof. auto. Qed.

Lemma wp_throw {I A} msg (Q : Ticks * I -> Res A -> Prop) s :
  Q s (Threw msg) -> wp (throw msg) Q s.
Proof. auto. Qed.

Lemma wp_bind {I A B} (m : Handler I A) (k : A -> Handler I B) Q s :
  wp m (fun s' r => match r with
                    | Done a => wp (k a) Q s'
                    | Threw msg => Q s' (Threw msg)
                    end) s ->
  wp (bind m k) Q s.
Proof. unfold wp, bind. destruct (m s) as [s' [a | msg]]; auto. Qed.

Lemma wp_try_catch {I A} (m : Handler I A) (h : string -> Handler I A) Q s :
  wp m (fun s' r => match r with
                    | Done a => Q s' (Done a)
                    | Threw msg => wp (h msg) Q s'
                    end) s ->
  wp (try_catch m h) Q s.
Proof. unfold wp, try_catch. destruct (m s) as [s' [a | msg]]; auto. Qed.

Lemma wp_gets {I A} (f : I -> A) (Q : Ticks * I -> Res A -> Prop) s :
  Q s (Done (f (snd s))) -> wp (gets f) Q s.
Proof. auto. Qed.

Lemma wp_getState {S R} (Q : Ticks * Instance S R -> Res S -> Prop) s :
  Q s (Done (agentState (snd s))) -> wp getState Q s.
Proof. auto. Qed.

Lemma wp_modify {I} (f : I -> I) (Q : Ticks * I -> Res unit -> Prop) t i :
  Q (t, f i) (Done tt) -> wp (modify f) Q (t, i).
Proof. auto. Qed.

Lemma wp_setState {S R} (st : S)
  (Q : Ticks * Instance S R -> Res unit -> Prop) t i :
  Q (t, {| agentState := st; table := table i |}) (Done tt) ->
  wp (setState st) Q (t, i).
Proof. auto. Qed.

Lemma wp_newDate {I} oracle (Q : Ticks * I -> Res string -> Prop) t i :
  Q ({| dates := S (dates t); uuids := uuids t; randoms := randoms t |}, i)
    (Done (dateAt oracle (dates t))) ->
  wp (newDate oracle) Q (t, i).
Proof. auto. Qed.

Lemma wp_randomUUID {I} oracle (Q : Ticks * I -> Res string -> Prop) t i :
  Q ({| dates := dates t; uuids := S (uuids t); randoms := randoms t |}, i)
    (Done (uuidAt oracle (uuids t))) ->
  wp (randomUUID oracle) Q (t, i).
Proof. auto. Qed.

Lemma wp_Math_random {I} oracle (Q : Ticks * I -> Res Q -> Prop) t i :
  Q ({| dates := dates t; uuids := uuids t; randoms := S (randoms t) |}, i)
    (Done (randomAt oracle (randoms t))) ->
  wp (Math_random oracle) Q (t, i).
Proof. auto. Qed.

Lemma wp_request_json {I} request (Q : Ticks * I -> Res JsonBody -> Prop) s :
  match body request with
  | Some b => Q s (Done b)
  | None => Q s (Threw "Unexpected token in JSON")
  end ->
  wp (request_json request) Q s.
Proof. unfold request_json. destruct (body request); auto. Qed.

Lemma wp_sql_insert {S R} (key : R -> string) (row : R)
  (Q : Ticks * Instance S R -> Res unit -> Prop) t i :
  (existsb (fun r => String.eqb (key r) (key row)) (table i) = true ->
   Q (t, i) (Threw "UNIQUE constraint failed")) ->
  (existsb (fun r => String.eqb (key r) (key row)) (table i) = false ->
   Q (t, {| agentState := agentState i; table := table i ++ [row] |})
     (Done tt)) ->
  wp (sql_insert key row) Q (t, i).
Proof.
  unfold wp, sql_insert. destruct (existsb _ _); auto.
Qed.

Lemma wp_sql_update {S R} (key : R -> string) id (f : R -> R)
  (Q : Ticks * Instance S R -> Res unit -> Prop) t i :
  Q (t, {| agentState := agentState i;
           table := map (fun r => if String.eqb (key r) id then f r else r)
                        (table i) |}) (Done tt) ->
  wp (sql_update key id f) Q (t, i).
Proof. auto. Qed.

Lemma wp_zoom {I J A} (get : J -> I) (set : I -> J -> J) (m : Handler I A)
  (Q : Ticks * J -> Res A -> Prop) t j :
  wp m (fun s' r => Q (fst s', set (snd s') j) r) (t, get j) ->
  wp (zoom get set m) Q (t, j).
Proof.
  unfold wp, zoom. destruct (m (t, get j)) as [[t' i'] r]. auto.
Qed.

Lemma wp_fetch {S R} (create : Ticks -> Ticks * Instance S R) onRequest
  name request (Q : Ticks * gmap string (Instance S R) -> Res Response -> Prop)
  t (namespace : gmap string (Instance S R)) :
  wp (onRequest name request)
     (fun s' r => Q (fst s', <[name := snd s']> namespace) r)
     (match namespace !! name with
      | Some i => (t, i)
      | None => create t
      end) ->
  wp (fetch create onRequest name request) Q (t, namespace).
Proof.
  unfold wp, fetch.
  destruct (match namespace !! name with Some i => _ | None => _ end)
    as [t0 inst].
  destruct (onRequest name request (t0, inst)) as [[t' inst'] r]. auto.
Qed.

(** One step of symbolic execution of a handler. *)
Ltac wp_step :=
  lazymatch goal with
  | |- wp (bind _ _) _ _ => apply wp_bind
  | |- wp (ret _) _ _ => apply wp_ret
  | |- wp (throw _) _ _ => apply wp_throw
  | |- wp (try_catch _ _) _ _ => apply wp_try_catch
  | |- wp getState _ _ => apply wp_getState
  | |- wp (gets _) _ _ => apply wp_gets
  | |- wp (setState _) _ _ => apply wp_setState
  | |- wp (modify _) _ _ => apply wp_modify
  | |- wp (newDate _) _ _ => apply wp_newDate
  | |- wp (randomUUID _) _ _ => apply wp_randomUUID
  | |- wp (Math_random _) _ _ => apply wp_Math_random
  | |- wp (sql_update _ _ _) _ _ => apply wp_sql_update
  | |- wp (zoom _ _ _) _ _ => apply wp_zoom
  | |- wp (this _) _ _ => apply wp_zoom
  | |- wp (inClaimsAgent _) _ _ => apply wp_zoom
  | |- wp (inAuditAgent _) _ _ => apply wp_zoom
  | |- wp (inLearningAgent _) _ _ => apply wp_zoom
  | |- wp (inDownstream _ _ _) _ _ => apply wp_zoom
  | |- wp (payloadOf _ _) _ _ => unfold payloadOf
  end; cbn beta iota delta [fst snd].

(** Symbolic execution as far as it goes, splitting on the tests and on the
    results the handler branches on. *)
Ltac wp_auto :=
  repeat first
    [ wp_step
    | apply wp_request_json
    | apply wp_sql_insert; intros ?
    | lazymatch goal with
      | |- wp (if ?b then _ else _) _ _ => destruct b
      | |- wp (match ?x with _ => _ end) _ _ => destruct x
      | |- match ?x with _ => _ end => destruct x
      end; cbn beta iota zeta ].

End HandlerLogic.

(** ** Monotonic counters *)
Section Counters.
Import Agents HandlerLogic.
Context (oracle : Oracle) (env : Env).

Lemma each_refl {I} (R : I -> I -> Prop) ns :
  (forall i, R i i) -> each R ns ns.
Proof. intros HR name i Hi. eauto. Qed.

Lemma each_trans {I} (R : I -> I -> Prop) ns1 ns2 ns3 :
  (forall a b c, R a b -> R b c -> R a c) ->
  each R ns1 ns2 -> each R ns2 ns3 -> each R ns1 ns3.
Proof.
  intros HR H12 H23 name i Hi.
  destruct (H12 name i Hi) as (i2 & Hi2 & R12).
  destruct (H23 name i2 Hi2) as (i3 & Hi3 & R23). eauto.
Qed.

Lemma claims_le_refl i : claims_le i i.
Proof. unfold claims_le. lia. Qed.

Lemma audit_le_refl i : audit_le i i.
Proof. unfold audit_le. lia. Qed.

Lemma learning_le_refl i : learning_le i i.
Proof. unfold learning_le. lia. Qed.

Lemma downstream_le_refl d : downstream_le d d.
Proof.
  repeat split; apply each_refl;
    auto using claims_le_refl, audit_le_refl, learning_le_refl.
Qed.

Lemma each_insert {I} (R : I -> I -> Prop) (ns : gmap string I) name i' :
  (forall i, R i i) ->
  (forall i, ns !! name = Some i -> R i i') ->
  each R ns (<[name := i']> ns).
Proof.
  intros Hrefl Hname n i Hi. destruct (decide (name = n)) as [-> | Hne].
  - exists i'. rewrite lookup_insert_eq. auto.
  - exists i. rewrite lookup_insert_ne by exact Hne. auto.
Qed.

(** A fetch keeps the relation on the namespace when the handler keeps it
    on the instance. *)
Lemma fetch_each {S R} (rel : Instance S R -> Instance S R -> Prop)
  (create : Ticks -> Ticks * Instance S R) onRequest name request t ns :
  (forall i, rel i i) ->
  (forall t i, wp (onRequest name request) (fun s' _ => rel i (snd s')) (t, i)) ->
  wp (fetch create onRequest name request) (fun s' _ => each rel ns (snd s'))
     (t, ns).
Proof.
  intros Hrefl Hreq. apply wp_fetch.
  destruct (ns !! name) as [i |] eqn:Hi.
  - eapply wp_conseq; [apply Hreq |]. intros s' r Hrel. cbn in *.
    apply each_insert; [exact Hrefl |]. intros i0 Hi0.
    replace i0 with i by congruence. exact Hrel.
  - destruct (create t) as [t0 i0].
    eapply wp_conseq; [apply (Hreq t0 i0) |]. intros s' r Hrel. cbn in *.
    apply each_insert; [exact Hrefl |]. intros i1 Hi1. congruence.
Qed.

Lemma ClaimsLincAgent_counters self request t i :
  wp (ClaimsLincAgent_onRequest oracle env self request)
     (fun s' _ => claims_le i (snd s')) (t, i).
Proof.
  unfold ClaimsLincAgent_onRequest, ClaimsLincAgent_analyzeClaim.
  wp_auto; unfold claims_le; cbn; lia.
Qed.

Lemma AuditLincAgent_counters self request t i :
  wp (AuditLincAgent_onRequest oracle env self request)
     (fun s' _ => audit_le i (snd s')) (t, i).
Proof.
  unfold AuditLincAgent_onRequest, AuditLincAgent_simulateAudit.
  wp_auto; unfold audit_le; cbn; lia.
Qed.

Lemma LearningLincAgent_counters self request t i :
  wp (LearningLincAgent_onRequest oracle env self request)
     (fun s' _ => learning_le i (snd s')) (t, i).
Proof.
  unfold LearningLincAgent_onRequest, LearningLincAgent_generateLearningPath.
  wp_auto; unfold learning_le; cbn; lia.
Qed.

Lemma MasterLincAgent_counters self request t i d :
  wp (MasterLincAgent_onRequest oracle env self request)
     (fun s' _ => master_le i (fst (snd s')) /\
                  downstream_le d (snd (snd s'))) (t, (i, d)).
Proof.
  unfold MasterLincAgent_onRequest, MasterLincAgent_handleOrchestrate.
  wp_auto.
  all: try (eapply wp_conseq;
            [ first [ apply fetch_each;
                      [apply claims_le_refl
                      | intros; apply ClaimsLincAgent_counters]
                    | apply fetch_each;
                      [apply audit_le_refl
                      | intros; apply AuditLincAgent_counters]
                    | apply fetch_each;
                      [apply learning_le_refl
                      | intros; apply LearningLincAgent_counters] ]
            | intros s' r Hle; cbn beta iota delta [fst snd] in *; wp_auto ]).
  all: (split; [unfold master_le; cbn; lia |]).
  all: unfold downstream_le; cbn; repeat split;
    first [ assumption
          | apply each_refl;
            auto using claims_le_refl, audit_le_refl, learning_le_refl ].
Qed.

Lemma fetchMaster_counters name request t ns :
  wp (fetchMaster oracle env name request)
     (fun s' _ => counters_le ns (snd s')) (t, ns).
Proof.
  unfold wp, fetchMaster.
  destruct (MasterAgent ns !! name) as [i |] eqn:Hi.
  - pose proof (MasterLincAgent_counters name request t i (downstream ns)) as H.
    unfold wp in H.
    destruct (MasterLincAgent_onRequest _ _ _ _ _) as [[t' [i' d']] r].
    cbn in *. destruct H as [Hm Hd]. split; [| exact Hd]. cbn.
    apply each_insert; [unfold master_le; lia |].
    intros i0 Hi0. replace i0 with i by congruence. exact Hm.
  - destruct (new_MasterLincAgent oracle t) as [t0 i0].
    pose proof (MasterLincAgent_counters name request t0 i0 (downstream ns)) as H.
    unfold wp in H.
    destruct (MasterLincAgent_onRequest _ _ _ _ _) as [[t' [i' d']] r].
    cbn in *. destruct H as [Hm Hd]. split; [| exact Hd]. cbn.
    apply each_insert; [unfold master_le; lia |].
    intros i1 Hi1. congruence.
Qed.

Lemma counters_le_downstream ns (d' : Downstream) :
  downstream_le (downstream ns) d' ->
  counters_le ns {| MasterAgent := MasterAgent ns; downstream := d' |}.
Proof.
  intros Hd. split; [| exact Hd]. apply each_refl. unfold master_le. lia.
Qed.

Lemma fetchClaims_counters name request t ns :
  wp (fetchClaims oracle env name request)
     (fun s' _ => counters_le ns (snd s')) (t, ns).
Proof.
  unfold fetchClaims. wp_step.
  eapply wp_conseq;
    [apply fetch_each;
     [apply claims_le_refl | intros; apply ClaimsLincAgent_counters] |].
  intros s' r Hle. apply counters_le_downstream.
  split; [exact Hle |].
  split; apply each_refl; auto using audit_le_refl, learning_le_refl.
Qed.

Lemma fetchAudit_counters name request t ns :
  wp (fetchAudit oracle env name request)
     (fun s' _ => counters_le ns (snd s')) (t, ns).
Proof.
  unfold fetchAudit. wp_step.
  eapply wp_conseq;
    [apply fetch_each;
     [apply audit_le_refl | intros; apply AuditLincAgent_counters] |].
  intros s' r Hle. apply counters_le_downstream.
  split; [apply each_refl, claims_le_refl |].
  split; [exact Hle | apply each_refl, learning_le_refl].
Qed.

Lemma fetchLearning_counters name request t ns :
  wp (fetchLearning oracle env name request)
     (fun s' _ => counters_le ns (snd s')) (t, ns).
Proof.
  unfold fetchLearning. wp_step.
  eapply wp_conseq;
    [apply fetch_each;
     [apply learning_le_refl | intros; apply LearningLincAgent_counters] |].
  intros s' r Hle. apply counters_le_downstream.
  split; [apply each_refl, claims_le_refl |].
  split; [apply each_refl, audit_le_refl | exact Hle].
Qed.

(** C9.  Whatever request an agent of whatever kind handles, every
    instance that existed before still exists afterwards, and none of its
    counters has decreased: [requestCount] for all kinds, [claimsAnalyzed],
    [auditsCompleted] and [pathsGenerated] for the kind that has it.  This
    covers the instance that handles the request and, for the orchestrator,
    the instances it calls. *)
Theorem counters_never_decrease (name : string) (request : Request)
  (t : Ticks) (ns : Namespaces) :
  counters_le ns (snd (fst (fetchMaster oracle env name request (t, ns)))) /\
  counters_le ns (snd (fst (fetchClaims oracle env name request (t, ns)))) /\
  counters_le ns (snd (fst (fetchAudit oracle env name request (t, ns)))) /\
  counters_le ns (snd (fst (fetchLearning oracle env name request (t, ns)))).
Proof.
  split; [exact (fetchMaster_counters name request t ns) |].
  split; [exact (fetchClaims_counters name request t ns) |].
  split; [exact (fetchAudit_counters name request t ns) |].
  exact (fetchLearning_counters name request t ns).
Qed.

(** Handling a request always counts it, also when the handler throws. *)
Lemma ClaimsLincAgent_counts self request t i :
  wp (ClaimsLincAgent_onRequest oracle env self request)
     (fun s' _ => c_requestCount (agentState (snd s'))
                  = c_requestCount (agentState i) + 1) (t, i).
Proof.
  unfold ClaimsLincAgent_onRequest, ClaimsLincAgent_analyzeClaim.
  wp_auto; reflexivity.
Qed.

Lemma AuditLincAgent_counts self request t i :
  wp (AuditLincAgent_onRequest oracle env self request)
     (fun s' _ => a_requestCount (agentState (snd s'))
                  = a_requestCount (agentState i) + 1) (t, i).
Proof.
  unfold AuditLincAgent_onRequest, AuditLincAgent_simulateAudit.
  wp_auto; reflexivity.
Qed.

Lemma LearningLincAgent_counts self request t i :
  wp (LearningLincAgent_onRequest oracle env self request)
     (fun s' _ => l_requestCount (agentState (snd s'))
                  = l_requestCount (agentState i) + 1) (t, i).
Proof.
  unfold LearningLincAgent_onRequest, LearningLincAgent_generateLearningPath.
  wp_auto; reflexivity.
Qed.

(** So a call to an agent is visible in its namespace: a fetch never leaves
    the namespace as it was. *)
Lemma fetch_leaves_a_trace {S R} (count : Instance S R -> nat)
  (create : Ticks -> Ticks * Instance S R) onRequest name request t
  (ns : gmap string (Instance S R)) :
  (forall t i, wp (onRequest name request)
                  (fun s' _ => count (snd s') = count i + 1) (t, i)) ->
  snd (fst (fetch create onRequest name request (t, ns))) <> ns.
Proof.
  intros Hcount.
  change (wp (fetch create onRequest name request)
             (fun s' _ => snd s' <> ns) (t, ns)).
  apply wp_fetch. destruct (ns !! name) as [i |] eqn:Hi.
  - eapply wp_conseq; [apply Hcount |]. intros s' r Hc Heq. cbn in *.
    assert (Hl : ns !! name = Some (snd s'))
      by (rewrite <- Heq at 1; apply lookup_insert_eq).
    rewrite Hi in Hl. injection Hl as Hl. rewrite <- Hl in Hc. lia.
  - destruct (create t) as [t0 i0].
    eapply wp_conseq; [apply (Hcount t0 i0) |]. intros s' r _ Heq. cbn in *.
    assert (Hl : ns !! name = Some (snd s'))
      by (rewrite <- Heq at 1; apply lookup_insert_eq).
    congruence.
Qed.

Lemma agent_calls_leave_a_trace name request t :
  (forall ns, snd (fst (fetch (new_ClaimsLincAgent oracle)
                          (ClaimsLincAgent_onRequest oracle env)
                          name request (t, ns))) <> ns) /\
  (forall ns, snd (fst (fetch (new_AuditLincAgent oracle)
                          (AuditLincAgent_onRequest oracle env)
                          name request (t, ns))) <> ns) /\
  (forall ns, snd (fst (fetch (new_LearningLincAgent oracle)
                          (LearningLincAgent_onRequest oracle env)
                          name request (t, ns))) <> ns).
Proof.
  repeat split; intros ns.
  - apply (fetch_leaves_a_trace (fun i => c_requestCount (agentState i))).
    intros. apply ClaimsLincAgent_counts.
  - apply (fetch_leaves_a_trace (fun i => a_requestCount (agentState i))).
    intros. apply AuditLincAgent_counts.
  - apply (fetch_leaves_a_trace (fun i => l_requestCount (agentState i))).
    intros. apply LearningLincAgent_counts.
Qed.

End Counters.

(** ** The orchestration hub and the routes *)

Section Hub.
Import Agents HandlerLogic.
Context (oracle : Oracle) (env : Env).

Lemma wp_eq {I A} (m : Handler I A) s e :
  wp m (fun s' r => (s', r) = e) s -> m s = e.
Proof. unfold wp. destruct (m s). auto. Qed.

(** C2 (as amended).  When the hub receives [POST /orchestrate] with an
    action outside [analyze_claim], [run_audit], [generate_learning_path]
    (and the generated request id is new to its log), it answers 400
    "Unknown action" and calls no other agent: the namespaces of the other
    agents are unchanged, where a call would have left a trace
    ([agent_calls_leave_a_trace]).  Its own state is updated as for every request
    ([requestCount] incremented, [lastActivity] set), and the request is
    appended to its log, with no response recorded. *)
Theorem unknown_action (self : string) (request : Request) (b : JsonBody)
  (t : Ticks) (i : MasterInstance) (d : Downstream) :
  pathname request = "/orchestrate" -> method request = "POST" ->
  body request = Some b ->
  action b <> Some "analyze_claim" -> action b <> Some "run_audit" ->
  action b <> Some "generate_learning_path" ->
  existsb (fun r => String.eqb (rq_id r) (uuidAt oracle (uuids t))) (table i)
  = false ->
  MasterLincAgent_onRequest oracle env self request (t, (i, d)) =
  (({| dates := S (S (dates t)); uuids := S (uuids t); randoms := randoms t |},
    ({| agentState :=
          {| createdAt := createdAt (agentState i);
             lastActivity := dateAt oracle (dates t);
             requestCount := requestCount (agentState i) + 1 |};
        table := table i ++
          [{| rq_id := uuidAt oracle (uuids t); rq_type := action b;
              rq_payload := payload b; rq_response := None;
              rq_created_at := dateAt oracle (S (dates t)) |}] |}, d)),
   Done (jsonResponse (UnknownAction (action b)) 400)).
Proof.
  intros Hpath Hmethod Hbody Ha1 Ha2 Ha3 Hfresh. apply wp_eq.
  unfold MasterLincAgent_onRequest, MasterLincAgent_handleOrchestrate.
  rewrite Hpath, Hmethod.
  repeat first
    [ wp_step
    | progress simpl (String.eqb _ _); cbn [orb andb]
    | apply wp_request_json; rewrite Hbody
    | apply wp_sql_insert; cbn [table rq_id uuids]; [congruence | intros _]
    | rewrite bool_decide_eq_false_2 by assumption ].
  reflexivity.
Qed.

End Hub.

Lemma unknown_action_foo :
  exists t' i',
    Agents.MasterLincAgent_onRequest oracle0 env0 "master-orchestrator"
      fooRequest (ticks0, (freshMaster, noAgents))
    = ((t', (i', noAgents)),
       Agents.Done (Agents.jsonResponse (Agents.UnknownAction (Some "foo")) 400)).
Proof.
  eexists _, _.
  apply (unknown_action oracle0 env0 "master-orchestrator" fooRequest
           {| Agents.action := Some "foo";
              Agents.payload := Some Agents.emptyPayload;
              Agents.fields := Agents.emptyPayload |}
           ticks0 freshMaster noAgents);
    first [reflexivity | discriminate].
Defined.

(** C2 as stated fails: on [{action: "foo", payload: {}}] the hub answers
    400 and calls no agent, but its [requestCount] goes from 0 to 1 and its
    log from empty to one row. *)
Lemma unknown_action_mutates_state :
  let '((_, (i', d')), r) :=
    Agents.MasterLincAgent_onRequest oracle0 env0 "master-orchestrator"
      fooRequest (ticks0, (freshMaster, noAgents)) in
  r = Agents.Done (Agents.jsonResponse (Agents.UnknownAction (Some "foo")) 400) /\
  d' = noAgents /\
  Agents.requestCount (Agents.agentState freshMaster) = 0 /\
  Agents.requestCount (Agents.agentState i') = 1 /\
  length (Agents.table freshMaster) = 0 /\
  length (Agents.table i') = 1 /\
  ~ (Agents.agentState i' = Agents.agentState freshMaster /\
     Agents.table i' = Agents.table freshMaster).
Proof.
  cbv beta iota zeta delta -[noAgents].
  repeat split. intros [H _]. discriminate H.
Qed.

(** ** The default instance key *)

Section DefaultKey.
Import Agents HandlerLogic.
Context (oracle : Oracle) (env : Env).

Lemma existsb_ids {R} (key : R -> string) (id : string) (l : list R) :
  existsb (fun r => String.eqb (key r) id) l
  = existsb (fun k => String.eqb k id) (map key l).
Proof. induction l as [| r l IH]; cbn; [reflexivity | rewrite IH; reflexivity]. Qed.

(** One analysis on an instance whose table does not have the new id. *)
Lemma analyze_once (self : string) (request : Request) (b : JsonBody)
  (t : Ticks) (i : ClaimsInstance) :
  pathname request = "/analyze" -> method request = "POST" ->
  body request = Some b ->
  existsb (fun k => String.eqb k (uuidAt oracle (uuids t)))
          (map cl_id (table i)) = false ->
  wp (ClaimsLincAgent_onRequest oracle env self request)
     (fun s' r =>
        (exists a, r = Done a /\ status a = 200) /\
        uuids (fst s') = S (uuids t) /\
        claimsAnalyzed (agentState (snd s'))
        = claimsAnalyzed (agentState i) + 1 /\
        c_requestCount (agentState (snd s'))
        = c_requestCount (agentState i) + 1 /\
        map cl_id (table (snd s'))
        = map cl_id (table i) ++ [uuidAt oracle (uuids t)])
     (t, i).
Proof.
  intros Hpath Hmethod Hbody Hfresh.
  unfold ClaimsLincAgent_onRequest, ClaimsLincAgent_analyzeClaim.
  rewrite Hpath, Hmethod.
  repeat first
    [ wp_step
    | progress simpl (String.eqb _ _); cbn [orb andb]
    | apply wp_request_json; rewrite Hbody
    | apply wp_sql_insert; cbn [table cl_id uuids];
      [rewrite existsb_ids; congruence | intros _] ].
  cbn. rewrite map_app. repeat split. eexists. split; reflexivity.
Qed.

(** One request on the route, with a body that has no [claimId]. *)
Lemma unscoped_request (req : Request) (b : JsonBody) (t : Ticks)
  (ns : Namespaces) :
  body req = Some b -> claimId (fields b) = None ->
  existsb (fun k => String.eqb k (uuidAt oracle (uuids t))) (idsOfDefault ns)
  = false ->
  wp (post_api_v1_claims_analyze oracle env req)
     (fun s' r =>
        (exists a, r = Done a /\ status a = 200) /\
        uuids (fst s') = S (uuids t) /\
        analyzedByDefault (snd s') = analyzedByDefault ns + 1 /\
        idsOfDefault (snd s') = idsOfDefault ns ++ [uuidAt oracle (uuids t)] /\
        MasterAgent (snd s') = MasterAgent ns /\
        AuditAgent (downstream (snd s')) = AuditAgent (downstream ns) /\
        LearningAgent (downstream (snd s')) = LearningAgent (downstream ns) /\
        forall name, name <> "claims-default" ->
          ClaimsAgent (downstream (snd s')) !! name
          = ClaimsAgent (downstream ns) !! name)
     (t, ns).
Proof.
  intros Hbody Hid Hfresh.
  unfold post_api_v1_claims_analyze. wp_step.
  apply wp_request_json. rewrite Hbody. cbn beta iota zeta.
  rewrite Hid. unfold agentId. cbn [JS.or_else].
  change ("claims-" +:+ "default") with "claims-default".
  unfold fetchClaims. wp_step. apply wp_fetch. cbn beta.
  unfold idsOfDefault, analyzedByDefault, defaultClaims in *.
  destruct (ClaimsAgent (downstream ns) !! "claims-default") as [i |] eqn:Hi.
  - eapply wp_conseq; [apply (analyze_once _ _ b); auto |].
    intros [t' i'] r (Hr & Hu & Hc & _ & Hids). cbn in *.
    rewrite lookup_insert_eq.
    repeat split; auto. intros name Hne. apply lookup_insert_ne. congruence.
  - eapply wp_conseq; [apply (analyze_once _ _ b); auto |].
    intros [t' i'] r (Hr & Hu & Hc & _ & Hids). cbn in *.
    rewrite lookup_insert_eq.
    repeat split; auto. intros name Hne. apply lookup_insert_ne. congruence.
Qed.

(** C7.  A claims-analysis request whose body has no [claimId] gets the
    instance key ["default"].  Two such requests handled one after the other
    reach the same instance, [claims-default], and each adds one to its
    [claimsAnalyzed]; from the initial state the counter goes 0, 1, 2.  No
    other instance is touched.  (The analysis ids the two requests draw are
    new to the table of the instance and differ from each other.) *)
Theorem default_instance_key (req1 req2 : Request) (b1 b2 : JsonBody)
  (t : Ticks) (ns : Namespaces) :
  body req1 = Some b1 -> claimId (fields b1) = None ->
  body req2 = Some b2 -> claimId (fields b2) = None ->
  existsb (fun k => String.eqb k (uuidAt oracle (uuids t))) (idsOfDefault ns)
  = false ->
  existsb (fun k => String.eqb k (uuidAt oracle (S (uuids t)))) (idsOfDefault ns)
  = false ->
  uuidAt oracle (uuids t) <> uuidAt oracle (S (uuids t)) ->
  agentId (claimId (fields b1)) = "default" /\
  agentId (claimId (fields b2)) = "default" /\
  let '((t1, ns1), r1) := post_api_v1_claims_analyze oracle env req1 (t, ns) in
  let '((t2, ns2), r2) := post_api_v1_claims_analyze oracle env req2 (t1, ns1) in
  (exists a, r1 = Done a /\ status a = 200) /\
  (exists a, r2 = Done a /\ status a = 200) /\
  (defaultClaims ns = None -> analyzedByDefault ns = 0) /\
  analyzedByDefault ns1 = analyzedByDefault ns + 1 /\
  analyzedByDefault ns2 = analyzedByDefault ns + 2 /\
  is_Some (defaultClaims ns1) /\
  is_Some (defaultClaims ns2) /\
  (forall name, name <> "claims-default" ->
     ClaimsAgent (downstream ns2) !! name = ClaimsAgent (downstream ns) !! name).
Proof.
  intros Hb1 Hid1 Hb2 Hid2 Hf1 Hf2 Hne.
  rewrite Hid1, Hid2. split; [reflexivity |]. split; [reflexivity |].
  pose proof (unscoped_request req1 b1 t ns Hb1 Hid1 Hf1) as H1.
  unfold wp in H1.
  destruct (post_api_v1_claims_analyze oracle env req1 (t, ns))
    as [[t1 ns1] r1].
  cbn [fst snd] in H1.
  destruct H1 as (Hr1 & Hu1 & Hc1 & Hids1 & _ & _ & _ & Hothers1).
  assert (Hf2' : existsb (fun k => String.eqb k (uuidAt oracle (uuids t1)))
                         (idsOfDefault ns1) = false).
  { rewrite Hids1, Hu1, existsb_app, Hf2. cbn.
    rewrite orb_false_r. apply String.eqb_neq. exact Hne. }
  pose proof (unscoped_request req2 b2 t1 ns1 Hb2 Hid2 Hf2') as H2.
  unfold wp in H2.
  destruct (post_api_v1_claims_analyze oracle env req2 (t1, ns1))
    as [[t2 ns2] r2].
  cbn [fst snd] in H2.
  destruct H2 as (Hr2 & _ & Hc2 & Hids2 & _ & _ & _ & Hothers2).
  split; [exact Hr1 |]. split; [exact Hr2 |].
  split; [unfold analyzedByDefault; intros ->; reflexivity |].
  split; [exact Hc1 |]. split; [lia |].
  assert (Hsome : forall n, idsOfDefault n <> [] -> is_Some (defaultClaims n)).
  { intros n. unfold idsOfDefault. destruct (defaultClaims n); [eauto | congruence]. }
  split; [apply Hsome; rewrite Hids1; destruct (idsOfDefault ns); discriminate |].
  split; [apply Hsome; rewrite Hids2; destruct (idsOfDefault ns1); discriminate |].
  intros name Hname. rewrite Hothers2, Hothers1; auto.
Qed.

End DefaultKey.

(** The scenario of the specification: two requests without [claimId], the
    first ones the worker receives. *)
Lemma default_instance_key_scenario :
  let '((t1, ns1), _) :=
    Agents.post_api_v1_claims_analyze oracle0 env0
      (unscopedRequest "invalid code") (ticks0, noInstances) in
  let '((t2, ns2), _) :=
    Agents.post_api_v1_claims_analyze oracle0 env0
      (unscopedRequest "missing prior authorization") (t1, ns1) in
  analyzedByDefault noInstances = 0 /\
  analyzedByDefault ns1 = 1 /\ analyzedByDefault ns2 = 2.
Proof.
  pose proof (default_instance_key oracle0 env0
                (unscopedRequest "invalid code")
                (unscopedRequest "missing prior authorization")
                _ _ ticks0 noInstances
                eq_refl eq_refl eq_refl eq_refl eq_refl eq_refl) as H.
  destruct H as (_ & _ & H); [discriminate |].
  destruct (Agents.post_api_v1_claims_analyze oracle0 env0
              (unscopedRequest "invalid code") (ticks0, noInstances))
    as [[t1 ns1] r1].
  destruct (Agents.post_api_v1_claims_analyze oracle0 env0
              (unscopedRequest "missing prior authorization") (t1, ns1))
    as [[t2 ns2] r2].
  destruct H as (_ & _ & H0 & H1 & H2 & _).
  rewrite H1, H2, H0; [repeat split | reflexivity].
Defined.

(** ** The Step Executor *)
Section Executor.
Import Workflows.
Context {W : Type} {RT : Runtime W} {P V : Type}.

Implicit Types (run : TaskRun P V) (fn : W -> W * Outcome V).

Lemma withSteps_nil run : withSteps run [] = run.
Proof. destruct run. unfold withSteps. cbn. rewrite app_nil_r. reflexivity. Qed.

Lemma withSteps_app run l1 l2 :
  withSteps (withSteps run l1) l2 = withSteps run (l1 ++ l2).
Proof. unfold withSteps. cbn. rewrite app_assoc. reflexivity. Qed.

Lemma appendStep_withSteps run r : appendStep run r = withSteps run [r].
Proof. reflexivity. Qed.

(** Whatever happens, the attempts of a step only append records that
    carry its name. *)
Lemma attempts_append budget : forall k stepName o fn w run,
  exists new,
    snd (fst (attempts budget k stepName o fn w run)) = withSteps run new /\
    Forall (fun r => name r = stepName) new.
Proof.
  induction budget as [| budget IH]; intros k stepName o fn w run; cbn.
  - destruct (attemptOnce o fn w) as [w' [v | e]]; cbn;
      eexists; (split; [apply appendStep_withSteps |]); repeat constructor.
  - destruct (attemptOnce o fn w) as [w' [v | e]]; cbn.
    + eexists; (split; [apply appendStep_withSteps |]); repeat constructor.
    + edestruct IH as (new & -> & Hnew).
      rewrite appendStep_withSteps, withSteps_app.
      eexists. split; [reflexivity |]. constructor; [reflexivity | exact Hnew].
Qed.

Lemma succeededAs_other stepName (r : StepRecord V) :
  name r <> stepName -> succeededAs stepName r = None.
Proof.
  intros Hne. unfold succeededAs.
  destruct (String.eqb_spec (name r) stepName); [contradiction | reflexivity].
Qed.

Lemma succeededResult_other run stepName other new :
  other <> stepName ->
  Forall (fun r => name r = other) new ->
  succeededResult (withSteps run new) stepName = succeededResult run stepName.
Proof.
  intros Hne Hnew. unfold succeededResult, withSteps. cbn.
  rewrite omap_app.
  replace (omap (succeededAs stepName) new) with (@nil V);
    [rewrite app_nil_r; reflexivity |].
  induction Hnew as [| r new Hr _ IH]; cbn; [reflexivity |].
  rewrite succeededAs_other by congruence. exact IH.
Qed.

Lemma attemptsOf_other run stepName other new :
  other <> stepName ->
  Forall (fun r => name r = other) new ->
  attemptsOf stepName (withSteps run new) = attemptsOf stepName run.
Proof.
  intros Hne Hnew. unfold attemptsOf, withSteps. cbn.
  rewrite List.filter_app.
  replace (List.filter (fun r => String.eqb (name r) stepName) new)
    with (@nil (StepRecord V)); [rewrite app_nil_r; reflexivity |].
  induction Hnew as [| r new Hr _ IH]; cbn; [reflexivity |].
  destruct (String.eqb_spec (name r) stepName); [congruence | exact IH].
Qed.

Lemma keeps_ret stepName (v : V) {A} (a : A) :
  keeps (W := W) (P := P) stepName v (ret a).
Proof. intros w run H. cbn. auto. Qed.

Lemma keeps_isoNow stepName (v : V) :
  keeps (W := W) (P := P) stepName v isoNow.
Proof. intros w run H. cbn. auto. Qed.

Lemma keeps_bind stepName (v : V) {A B}
  (m : Workflow (W := W) (P := P) (V := V) A)
  (k : A -> Workflow (W := W) (P := P) (V := V) B) :
  keeps stepName v m -> (forall a, keeps stepName v (k a)) ->
  keeps stepName v (bind m k).
Proof.
  intros Hm Hk w run H. unfold bind.
  specialize (Hm w run H).
  destruct (m (w, run)) as [[w1 run1] [a | e]]; cbn in *; [| exact Hm].
  destruct Hm as [H1 H1'].
  destruct (Hk a w1 run1 H1) as [H2 H2']. split; congruence.
Qed.

Lemma keeps_step_do stepName (v : V) other o fn :
  keeps (W := W) (P := P) stepName v (step_do other o fn).
Proof.
  intros w run H. unfold step_do.
  destruct (String.eqb_spec other stepName) as [-> | Hne].
  - rewrite H. cbn. auto.
  - destruct (succeededResult run other); [cbn; auto |].
    destruct (attempts_append (retryLimit o) 1 other o fn w run)
      as (new & -> & Hnew).
    rewrite (succeededResult_other run stepName other new Hne Hnew),
      (attemptsOf_other run stepName other new Hne Hnew). auto.
Qed.

Lemma attemptOnce_counted_fails o fn w calls :
  (exists e, snd (fn w) = Raised e) ->
  exists w1 e,
    attemptOnce (RT := counting_runtime RT) o (counted fn) (w, calls)
    = ((w1, S calls), Raised e).
Proof.
  intros [e He]. unfold attemptOnce, counted.
  destruct (fn w) as [w1 out]. cbn in He. subst out.
  destruct o as [[r [tm |]] |]; [destruct (_ <? _)%nat | |]; eauto.
Qed.

(** A step that fails on every attempt exhausts its retries: with [budget]
    retries left it is invoked [budget + 1] times, as its call-counting stub
    shows, and every attempt is recorded as failed. *)
Lemma attempts_exhaust fn : (forall w, exists e, snd (fn w) = Raised e) ->
  forall budget k stepName o w calls run,
  exists w' e new,
    attempts (RT := counting_runtime RT) budget k stepName o (counted fn)
      (w, calls) run
    = ((w', calls + S budget), withSteps run new, Raised e) /\
    Forall (fun r => name r = stepName /\ exists e, state r = failed e) new /\
    map attempt new = seq k (S budget).
Proof.
  intros Hfails. induction budget as [| budget IH];
    intros k stepName o w calls run;
    destruct (attemptOnce_counted_fails o fn w calls (Hfails w))
      as (w1 & e & Hone);
    cbn [attempts]; rewrite Hone; cbn [outcomeState].
  - exists w1, e. eexists [_]. rewrite appendStep_withSteps.
    replace (calls + 1) with (S calls) by lia.
    split; [reflexivity |]. split; [| reflexivity].
    repeat constructor. cbn. eauto.
  - rewrite appendStep_withSteps.
    match goal with
    | |- context [attempts budget (S k) stepName o (counted fn) ?s ?r] =>
        change s with (fst s, S calls);
        destruct (IH (S k) stepName o (fst s) (S calls) r)
          as (w' & e' & new & Heq & Hnew & Hatt)
    end.
    rewrite Heq, withSteps_app.
    exists w', e'. eexists (_ :: new).
    replace (calls + S (S budget)) with (S calls + S budget) by lia.
    split; [reflexivity |].
    split; [| cbn [map attempt]; rewrite Hatt; reflexivity].
    constructor; [| exact Hnew]. cbn. eauto.
Qed.

End Executor.

(** ** Replay and retries of the workflows *)

Section Replay.
Import Workflows.

Lemma ClaimsWorkflow_keeps {W} {RT : Runtime W} stepName v payload :
  keeps stepName v (ClaimsWorkflow_run (W := W) payload).
Proof.
  unfold ClaimsWorkflow_run.
  apply keeps_bind; [apply keeps_step_do |]. intros validation.
  destruct (negb _); [apply keeps_ret |].
  repeat (apply keeps_bind;
          [first [apply keeps_step_do | apply keeps_isoNow] | intros ?]).
  apply keeps_ret.
Qed.

(** C5.  Once a step has a succeeded record in a run, the executor
    returns the stored result for it without invoking the step function
    (its call-counting stub does not move, and neither the platform state nor
    the run record changes); and invoking [ClaimsWorkflow] again on such a
    run leaves the recorded result of that step as it is and records no
    further attempt of it. *)
Theorem idempotent_replay {W} (RT : Runtime W) (stepName : string)
  (v : ClaimsStep) (w : W) (run : TaskRun ClaimsParams ClaimsStep) :
  succeededResult run stepName = Some v ->
  (forall o (fn : W -> W * Outcome ClaimsStep) (calls : nat),
     step_do (RT := counting_runtime RT) stepName o (counted fn)
       ((w, calls), run)
     = ((w, calls), run, Returned v)) /\
  succeededResult (snd (fst (invoke ClaimsWorkflow_run w run))) stepName
  = Some v /\
  attemptsOf stepName (snd (fst (invoke ClaimsWorkflow_run w run)))
  = attemptsOf stepName run.
Proof.
  intros H. split.
  - intros o fn calls. unfold step_do. rewrite H. reflexivity.
  - unfold invoke.
    pose proof (ClaimsWorkflow_keeps stepName v (params run) w
                  (setStatus Run.running run) H) as Hk.
    destruct (ClaimsWorkflow_run (params run) (w, setStatus Run.running run))
      as [[w' run'] out].
    exact Hk.
Qed.

Lemma idempotent_replay_scenario :
  succeededResult
    (snd (fst (invoke (ClaimsWorkflow_run (RT := runtime0)) 300 interruptedRun)))
    "ai-analyze-rejection" = Some storedAnalysis /\
  length (attemptsOf "ai-analyze-rejection"
            (snd (fst (invoke (ClaimsWorkflow_run (RT := runtime0)) 300
                         interruptedRun)))) = 2.
Proof.
  destruct (idempotent_replay runtime0 "ai-analyze-rejection" storedAnalysis
              300 interruptedRun eq_refl) as (_ & Hres & Hatt).
  split; [exact Hres | rewrite Hatt; reflexivity].
Defined.

(** C6.  A step function that fails on every attempt, run by the
    executor with [retries.limit = N] for a step that has not succeeded yet,
    is invoked exactly [N + 1] times (its call-counting stub goes from
    [calls] to [calls + N + 1]); each of the [N + 1] attempts, numbered from
    1, is recorded as failed, the step raises, and the run that contains the
    step is failed, whatever it would have done next. *)
Theorem retry_exhaustion {W} (RT : Runtime W) {P V A} (stepName : string)
  (N : nat) (delay : string) (backoff : Backoff) (timeout : option string)
  (fn : W -> W * Outcome V)
  (rest : P -> V -> Workflow (W := W * nat) (P := P) (V := V) A)
  (w : W) (calls : nat) (run : TaskRun P V) :
  (forall w, exists e, snd (fn w) = Raised e) ->
  succeededResult run stepName = None ->
  exists w' e new,
    invoke
      (fun p =>
         result <- step_do (RT := counting_runtime RT) stepName
           (Some {| retries := Some {| limit := N; delay := delay;
                                       backoff := backoff |};
                    timeout := timeout |})
           (counted fn) ;;
         rest p result)
      (w, calls) run
    = ((w', calls + (N + 1)),
       {| runId := runId run; params := params run;
          steps := steps run ++ new; status := Run.failed |},
       Raised e) /\
    length new = N + 1 /\
    Forall (fun r => name r = stepName /\ exists e, state r = failed e) new /\
    map attempt new = seq 1 (N + 1).
Proof.
  intros Hfails Hnone. unfold invoke, bind, step_do.
  change (succeededResult (setStatus Run.running run) stepName)
    with (succeededResult run stepName).
  rewrite Hnone. cbn [retryLimit retries limit].
  destruct (attempts_exhaust (RT := RT) fn Hfails N 1 stepName
              (Some {| retries := Some {| limit := N; delay := delay;
                                          backoff := backoff |};
                       timeout := timeout |})
              w calls (setStatus Run.running run))
    as (w' & e & new & Heq & Hnew & Hatt).
  rewrite Heq. exists w', e, new.
  replace (N + 1) with (S N) by lia.
  split; [reflexivity |].
  split; [| split; assumption].
  rewrite <- (length_map attempt), Hatt. apply length_seq.
Qed.

Lemma retry_exhaustion_scenario :
  exists w' run' e,
    invoke
      (fun _ =>
         result <- step_do (RT := counting_runtime runtime0)
           "ai-analyze-rejection"
           (Some {| retries := Some {| limit := 3; delay := "5 seconds";
                                       backoff := exponential |};
                    timeout := Some "2 minutes" |})
           (counted alwaysRaises) ;;
         ret result)
      (0, 0) newRun
    = ((w', 4), run', Raised e) /\
    status run' = Run.failed /\ length (steps run') = 4.
Proof.
  destruct (retry_exhaustion runtime0 "ai-analyze-rejection" 3 "5 seconds"
              exponential (Some "2 minutes") alwaysRaises (fun _ => ret)
              0 0 newRun)
    as (w' & e & new & Heq & Hlen & _).
  - intros w. eexists. reflexivity.
  - reflexivity.
  - exists w'. eexists. exists e. split; [exact Heq |].
    split; [reflexivity | exact Hlen].
Defined.

(** A complete replay is silent: when the four steps of [ClaimsWorkflow]
    have succeeded, invoking the run again changes neither the platform
    state nor the recorded steps, and the run completes. *)
Lemma complete_replay_is_silent {W} (RT : Runtime W) (w : W)
  (run : TaskRun ClaimsParams ClaimsStep) v1 v2 v3 v4 :
  succeededResult run "validate-claim-data" = Some v1 ->
  succeededResult run "ai-analyze-rejection" = Some v2 ->
  succeededResult run "store-analysis-results" = Some v3 ->
  succeededResult run "determine-next-actions" = Some v4 ->
  exists out,
    invoke ClaimsWorkflow_run w run
    = (w, setStatus Run.completed run, Returned out).
Proof.
  intros H1 H2 H3 H4.
  assert (Hs : forall stepName,
             succeededResult (setStatus Run.running run) stepName
             = succeededResult run stepName) by reflexivity.
  unfold invoke, ClaimsWorkflow_run, bind, step_do.
  rewrite Hs, H1. cbn beta iota.
  destruct (negb _); [eexists; reflexivity |].
  rewrite Hs, H2. cbn beta iota. rewrite Hs, H3. cbn beta iota.
  rewrite Hs, H4. eexists. reflexivity.
Qed.

End Replay.

(* ===================================================================== *)
(** * Further properties of the agents *)
(* ===================================================================== *)

(** ** [performAnalysis] *)
Section AnalysisShape.
Import Agents.

(** X1.  The root causes are those of the matched categories, in the order code
    error, authorization, documentation, timeliness, and the confidence and
    the estimated savings are those of the last category that matched, not
    the largest ones. *)
Theorem last_category_wins (rejectionReason : string)
  (diagnosisCodes procedureCodes : list string) :
  let a := performAnalysis rejectionReason diagnosisCodes procedureCodes in
  let matched :=
    (if isCodeError rejectionReason
     then ["Incorrect or missing diagnosis/procedure codes"] else []) ++
    (if isAuthorization rejectionReason
     then ["Missing prior authorization"] else []) ++
    (if isDocumentation rejectionReason
     then ["Insufficient clinical documentation"] else []) ++
    (if isTimeliness rejectionReason
     then ["Claim submitted after filing deadline"] else []) in
  rootCauses a = (if matched is [] then ["Requires manual review"] else matched) /\
  (confidenceScore a, estimatedSavings a) =
    (if isTimeliness rejectionReason then (0.7%Q, 1500%Z)
     else if isDocumentation rejectionReason then (0.8%Q, 3500%Z)
     else if isAuthorization rejectionReason then (0.9%Q, 5000%Z)
     else if isCodeError rejectionReason then (0.85%Q, 2500%Z)
     else (0.5%Q, 0%Z)) /\
  (0 <= estimatedSavings a)%Z.
Proof.
  cbv zeta.
  unfold performAnalysis, isCodeError, isAuthorization, isDocumentation,
    isTimeliness.
  set (l := JS.toLowerCase rejectionReason).
  destruct (JS.includes l "code" || JS.includes l "invalid"),
    (JS.includes l "authorization" || JS.includes l "prior auth"),
    (JS.includes l "documentation" || JS.includes l "medical necessity"),
    (JS.includes l "timely" || JS.includes l "deadline");
    cbn; repeat split; lia.
Qed.

(** X2.  Automation is reported as available exactly when some category
    matched, and the suggested actions are always the two of a corrected
    claim: "Route to manual review" is never suggested, not even for the
    manual-review fallback. *)
Theorem automation_iff_matched (rejectionReason : string)
  (diagnosisCodes procedureCodes : list string) :
  let a := performAnalysis rejectionReason diagnosisCodes procedureCodes in
  automationAvailable a =
    isCodeError rejectionReason || isAuthorization rejectionReason
    || isDocumentation rejectionReason || isTimeliness rejectionReason /\
  (automationAvailable a = false <->
   rootCauses a = ["Requires manual review"]) /\
  suggestedActions a = ["Prepare corrected claim"; "Submit for re-processing"] /\
  workflowInstanceId a = None.
Proof.
  cbv zeta.
  unfold performAnalysis, isCodeError, isAuthorization, isDocumentation,
    isTimeliness.
  set (l := JS.toLowerCase rejectionReason).
  destruct (JS.includes l "code" || JS.includes l "invalid"),
    (JS.includes l "authorization" || JS.includes l "prior auth"),
    (JS.includes l "documentation" || JS.includes l "medical necessity"),
    (JS.includes l "timely" || JS.includes l "deadline");
    cbn; repeat split; intros; congruence.
Qed.

End AnalysisShape.

(** Symbolic execution that remembers which way each test went. *)
Ltac wp_case :=
  lazymatch goal with
  | |- wp (if ?b then _ else _) _ _ => destruct b eqn:?
  | |- wp (match ?x with _ => _ end) _ _ =>
      lazymatch x with
      | if ?b then _ else _ => destruct b eqn:?
      | _ => destruct x eqn:?
      end
  | |- match ?x with _ => _ end => destruct x eqn:?
  end; cbn beta iota zeta.

Ltac wp_cases :=
  repeat first
    [ HandlerLogic.wp_step
    | apply HandlerLogic.wp_request_json
    | apply HandlerLogic.wp_sql_insert; intros ?
    | wp_case ].

(** ** Rows and counters *)
Section RowsAndCounters.
Import Agents HandlerLogic.
Context (oracle : Oracle) (env : Env).

Lemma fetch_all {S R} (P : Instance S R -> Prop)
  (create : Ticks -> Ticks * Instance S R) onRequest name request t
  (ns : gmap string (Instance S R)) :
  (forall t, P (snd (create t))) ->
  (forall t i, P i ->
     wp (onRequest name request) (fun s' _ => P (snd s')) (t, i)) ->
  map_Forall (fun _ => P) ns ->
  wp (fetch create onRequest name request)
     (fun s' _ => map_Forall (fun _ => P) (snd s')) (t, ns).
Proof.
  intros Hnew Hreq Hall. apply wp_fetch.
  destruct (ns !! name) as [i |] eqn:Hi.
  - eapply wp_conseq; [apply Hreq, (Hall name i Hi) |].
    intros s' r HP. cbn in *. apply map_Forall_insert_2; assumption.
  - specialize (Hnew t). destruct (create t) as [t0 i0].
    eapply wp_conseq; [apply (Hreq t0 i0 Hnew) |].
    intros s' r HP. cbn in *. apply map_Forall_insert_2; assumption.
Qed.

Ltac rows :=
  cbn; repeat (rewrite ?length_map, ?length_app; cbn); lia.

Lemma ClaimsLincAgent_rows self request t i :
  claims_rows i ->
  wp (ClaimsLincAgent_onRequest oracle env self request)
     (fun s' _ => claims_rows (snd s')) (t, i).
Proof.
  unfold claims_rows. intros H.
  unfold ClaimsLincAgent_onRequest, ClaimsLincAgent_analyzeClaim.
  wp_auto; rows.
Qed.

Lemma AuditLincAgent_rows self request t i :
  audit_rows i ->
  wp (AuditLincAgent_onRequest oracle env self request)
     (fun s' _ => audit_rows (snd s')) (t, i).
Proof.
  unfold audit_rows. intros H.
  unfold AuditLincAgent_onRequest, AuditLincAgent_simulateAudit.
  wp_auto; rows.
Qed.

Lemma LearningLincAgent_rows self request t i :
  learning_rows i ->
  wp (LearningLincAgent_onRequest oracle env self request)
     (fun s' _ => learning_rows (snd s')) (t, i).
Proof.
  unfold learning_rows. intros H.
  unfold LearningLincAgent_onRequest, LearningLincAgent_generateLearningPath.
  wp_auto; rows.
Qed.

Lemma MasterLincAgent_rows self request t i d :
  master_rows i -> downstream_rows d ->
  wp (MasterLincAgent_onRequest oracle env self request)
     (fun s' _ => master_rows (fst (snd s')) /\
                  downstream_rows (snd (snd s'))) (t, (i, d)).
Proof.
  unfold master_rows. intros Hi (Hc & Ha & Hl).
  unfold MasterLincAgent_onRequest, MasterLincAgent_handleOrchestrate.
  wp_auto.
  all: try (eapply wp_conseq;
            [ first [ apply (fetch_all claims_rows);
                      [ intros; hnf; reflexivity
                      | intros; apply ClaimsLincAgent_rows; assumption
                      | exact Hc ]
                    | apply (fetch_all audit_rows);
                      [ intros; hnf; reflexivity
                      | intros; apply AuditLincAgent_rows; assumption
                      | exact Ha ]
                    | apply (fetch_all learning_rows);
                      [ intros; hnf; reflexivity
                      | intros; apply LearningLincAgent_rows; assumption
                      | exact Hl ] ]
            | intros s' r Hall; cbn beta iota delta [fst snd] in *; wp_auto ]).
  all: (split; [rows |]).
  all: unfold downstream_rows; cbn; repeat split; assumption.
Qed.

Lemma rows_downstream ns (d' : Downstream) :
  map_Forall (fun _ => master_rows) (MasterAgent ns) ->
  downstream_rows d' ->
  rows_match_counters {| MasterAgent := MasterAgent ns; downstream := d' |}.
Proof. intros Hm Hd. split; assumption. Qed.

Lemma fetchMaster_rows name request t ns :
  rows_match_counters ns ->
  wp (fetchMaster oracle env name request)
     (fun s' _ => rows_match_counters (snd s')) (t, ns).
Proof.
  intros [Hm Hd]. unfold wp, fetchMaster.
  assert (Hi : master_rows
                 (snd (match MasterAgent ns !! name with
                       | Some i => (t, i)
                       | None => new_MasterLincAgent oracle t
                       end))).
  { destruct (MasterAgent ns !! name) as [i |] eqn:Hi.
    - exact (Hm name i Hi).
    - unfold master_rows. cbn. lia. }
  destruct (match MasterAgent ns !! name with
            | Some i => (t, i)
            | None => new_MasterLincAgent oracle t
            end) as [t0 i0].
  pose proof (MasterLincAgent_rows name request t0 i0 (downstream ns) Hi Hd)
    as H.
  unfold wp in H.
  destruct (MasterLincAgent_onRequest _ _ _ _ _) as [[t' [i' d']] r].
  cbn in *. destruct H as [Hi' Hd']. split; [| exact Hd']. cbn.
  apply map_Forall_insert_2; assumption.
Qed.

Lemma fetchClaims_rows name request t ns :
  rows_match_counters ns ->
  wp (fetchClaims oracle env name request)
     (fun s' _ => rows_match_counters (snd s')) (t, ns).
Proof.
  intros (Hm & Hc & Ha & Hl). unfold fetchClaims. wp_step.
  eapply wp_conseq;
    [apply (fetch_all claims_rows);
     [ intros; hnf; reflexivity
     | intros; apply ClaimsLincAgent_rows; assumption | exact Hc ] |].
  intros s' r Hall. apply rows_downstream; [exact Hm |].
  repeat split; assumption.
Qed.

Lemma fetchAudit_rows name request t ns :
  rows_match_counters ns ->
  wp (fetchAudit oracle env name request)
     (fun s' _ => rows_match_counters (snd s')) (t, ns).
Proof.
  intros (Hm & Hc & Ha & Hl). unfold fetchAudit. wp_step.
  eapply wp_conseq;
    [apply (fetch_all audit_rows);
     [ intros; hnf; reflexivity
     | intros; apply AuditLincAgent_rows; assumption | exact Ha ] |].
  intros s' r Hall. apply rows_downstream; [exact Hm |].
  repeat split; assumption.
Qed.

Lemma fetchLearning_rows name request t ns :
  rows_match_counters ns ->
  wp (fetchLearning oracle env name request)
     (fun s' _ => rows_match_counters (snd s')) (t, ns).
Proof.
  intros (Hm & Hc & Ha & Hl). unfold fetchLearning. wp_step.
  eapply wp_conseq;
    [apply (fetch_all learning_rows);
     [ intros; hnf; reflexivity
     | intros; apply LearningLincAgent_rows; assumption | exact Hl ] |].
  intros s' r Hall. apply rows_downstream; [exact Hm |].
  repeat split; assumption.
Qed.

(** X3.  In every agent the counter and the table move together: if each claims,
    audit and learning instance has stored exactly as many rows as its
    [claimsAnalyzed], [auditsCompleted] or [pathsGenerated] says, and the
    hub no more rows than its [requestCount], then this still holds after
    any request to any agent, whether the request succeeds or throws. *)
Theorem counters_count_rows (name : string) (request : Request)
  (t : Ticks) (ns : Namespaces) :
  rows_match_counters ns ->
  rows_match_counters
    (snd (fst (fetchMaster oracle env name request (t, ns)))) /\
  rows_match_counters
    (snd (fst (fetchClaims oracle env name request (t, ns)))) /\
  rows_match_counters
    (snd (fst (fetchAudit oracle env name request (t, ns)))) /\
  rows_match_counters
    (snd (fst (fetchLearning oracle env name request (t, ns)))).
Proof.
  intros H.
  split; [exact (fetchMaster_rows name request t ns H) |].
  split; [exact (fetchClaims_rows name request t ns H) |].
  split; [exact (fetchAudit_rows name request t ns H) |].
  exact (fetchLearning_rows name request t ns H).
Qed.

End RowsAndCounters.

Lemma no_rows_no_counts : rows_match_counters noInstances.
Proof.
  repeat split; apply map_Forall_empty.
Qed.

Lemma counters_count_rows_scenario :
  rows_match_counters noInstances /\
  rows_match_counters
    (snd (fst (Agents.fetchClaims oracle0 env0 "claims-CLM-1"
                 (Agents.postTo "/analyze" (claimPayload (Some "CLM-1")
                                              "Invalid code"))
                 (ticks0, noInstances)))).
Proof.
  split; [exact no_rows_no_counts |].
  apply (counters_count_rows oracle0 env0 "claims-CLM-1"
           (Agents.postTo "/analyze" (claimPayload (Some "CLM-1")
                                        "Invalid code"))
           ticks0 noInstances no_rows_no_counts).
Defined.

(** ** The simulated audit *)
Section SimulatedAudit.
Import Agents HandlerLogic.
Context (oracle : Oracle) (env : Env).
Local Open Scope Q_scope.

Lemma simulated_score_range (random : Q) :
  0 <= random -> random < 1 ->
  70 <= JS.round2 ((1 - random * 0.3) * 100) <= 100.
Proof.
  intros H0 H1. split.
  - apply (Qle_trans _ (JS.round2 70)); [vm_compute; discriminate |].
    apply round2_le. lra.
  - apply (Qle_trans _ (JS.round2 100)); [| vm_compute; discriminate].
    apply round2_le. lra.
Qed.

Lemma simulated_audit_range_wp self request t i :
  0 <= randomAt oracle (randoms t) -> randomAt oracle (randoms t) < 1 ->
  wp (AuditLincAgent_onRequest oracle env self request)
     (fun _ r => forall st a,
        r = Done {| status := st; r_body := AuditSimulated a |} ->
        (70 <= complianceScore a /\ complianceScore a <= 100) /\
        riskLevel a <> critical /\ auditOutcome a <> "NON_COMPLIANT" /\
        (riskLevel a = low <-> 90 <= complianceScore a) /\
        (riskLevel a = high <-> complianceScore a < 75) /\
        map (fun c => (actionId c, deadlineDays c)) (correctiveActions a) =
          (if JS.lt (complianceScore a) 75
           then [("CAP-001", 30%nat); ("CAP-002", 180%nat); ("CAP-003", 45%nat)]
           else if JS.lt (complianceScore a) 85 then [("CAP-002", 180%nat)]
           else []))
     (t, i).
Proof.
  intros H0 H1.
  pose proof (simulated_score_range _ H0 H1) as Hrange.
  unfold AuditLincAgent_onRequest, AuditLincAgent_simulateAudit.
  wp_cases; intros st a Heq; try discriminate Heq.
  all: injection Heq as _ <-;
    cbn [complianceScore riskLevel auditOutcome correctiveActions randoms] in *;
    change (inject_Z (JS.Math_round ((1 - ?r * 0.3) * 100 * 100)) / 100)
      with (JS.round2 ((1 - r * 0.3) * 100)) in *;
    set (score := JS.round2 _) in *; clearbody score; lt_hyps;
    destruct (JS.lt score 85) eqn:?, (JS.lt score 75) eqn:?,
      (JS.lt score 70) eqn:?; lt_hyps;
    try (exfalso; lra);
    repeat split; intros; first [lra | discriminate | reflexivity].
Qed.

(** X4.  With [Math.random()] in [0,1), a simulated audit scores between 70 and
    100: its risk level is never critical and its outcome never
    NON_COMPLIANT; the level is high exactly below 75 and low exactly from 90
    on; below 75 the three corrective actions CAP-001, CAP-002, CAP-003 come
    together, from 75 to below 85 CAP-002 alone, from 85 on none; and the
    follow-up audit is always due in 180 days. *)
Theorem simulated_audit_range (self : string) (request : Request) (t : Ticks)
  (i : AuditInstance) s' (st : nat) (a : AuditResult) :
  0 <= randomAt oracle (randoms t) -> randomAt oracle (randoms t) < 1 ->
  AuditLincAgent_onRequest oracle env self request (t, i)
  = (s', Done {| status := st; r_body := AuditSimulated a |}) ->
  (70 <= complianceScore a /\ complianceScore a <= 100) /\
  riskLevel a <> critical /\ auditOutcome a <> "NON_COMPLIANT" /\
  (riskLevel a = low <-> 90 <= complianceScore a) /\
  (riskLevel a = high <-> complianceScore a < 75) /\
  map (fun c => (actionId c, deadlineDays c)) (correctiveActions a) =
    (if JS.lt (complianceScore a) 75
     then [("CAP-001", 30%nat); ("CAP-002", 180%nat); ("CAP-003", 45%nat)]
     else if JS.lt (complianceScore a) 85 then [("CAP-002", 180%nat)]
     else []).
Proof.
  intros H0 H1 Hrun.
  exact (wp_run _ _ _ _ _ Hrun (simulated_audit_range_wp self request t i H0 H1)
           st a eq_refl).
Qed.

End SimulatedAudit.

Lemma simulated_audit_range_scenario :
  exists a,
    snd (Agents.AuditLincAgent_onRequest oracle0 env0 "audit-PROV-1"
           (simulateRequest (Some "prov-1234567")) (ticks0, freshAudit))
    = Agents.Done {| Agents.status := 200;
                     Agents.r_body := Agents.AuditSimulated a |} /\
    (Agents.complianceScore a == 97)%Q /\ Agents.riskLevel a = Agents.low /\
    Agents.auditId a = "CHI-AUDIT-20250101-PROV-123".
Proof.
  eexists. split; [vm_compute; reflexivity |].
  split; [reflexivity |].
  split; [| reflexivity].
  eapply (simulated_audit_range oracle0 env0 "audit-PROV-1"
            (simulateRequest (Some "prov-1234567")) ticks0 freshAudit).
  - discriminate.
  - reflexivity.
  - vm_compute. reflexivity.
  - vm_compute. discriminate.
Defined.

(** ** The audits an instance has stored *)
Section StoredAudits.
Import Agents HandlerLogic.
Context (oracle : Oracle) (env : Env).
Local Open Scope Q_scope.

Lemma first_mean (average score : Q) :
  (average * inject_Z (Z.of_nat 0) + score) / inject_Z (Z.of_nat (0 + 1))
  == score.
Proof.
  change (inject_Z (Z.of_nat 0)) with 0.
  change (inject_Z (Z.of_nat (0 + 1))) with 1. field.
Qed.

Lemma audit_actions_wp self request t i :
  wp (AuditLincAgent_onRequest oracle env self request)
     (fun s' r => forall st a,
        r = Done {| status := st; r_body := AuditSimulated a |} ->
        let old := agentState i in
        let new := agentState (snd s') in
        auditsCompleted new = (auditsCompleted old + 1)%nat /\
        (auditsCompleted old = 0%nat ->
         averageScore new == complianceScore a) /\
        a_correctiveActions new =
          a_correctiveActions old ++
          map (fun c => {| as_id := actionId c; as_status := "pending" |})
              (correctiveActions a))
     (t, i).
Proof.
  unfold AuditLincAgent_onRequest, AuditLincAgent_simulateAudit.
  wp_auto; intros st a Heq; try discriminate Heq.
  all: injection Heq as _ <-;
    cbn [complianceScore correctiveActions agentState snd auditsCompleted
         averageScore a_correctiveActions];
    repeat split; intros H0; rewrite H0; apply first_mean.
Qed.

(** X5.  After a simulated audit, [auditsCompleted] has grown by one and the
    corrective actions of the audit are appended to those of the instance,
    each as pending, after the earlier ones; the score of the first audit of
    an instance is its average. *)
Theorem audit_actions_are_pending (self : string) (request : Request)
  (t : Ticks) (i : AuditInstance) t' i' (st : nat) (a : AuditResult) :
  AuditLincAgent_onRequest oracle env self request (t, i)
  = ((t', i'), Done {| status := st; r_body := AuditSimulated a |}) ->
  auditsCompleted (agentState i') = (auditsCompleted (agentState i) + 1)%nat /\
  (auditsCompleted (agentState i) = 0%nat ->
   averageScore (agentState i') == complianceScore a) /\
  a_correctiveActions (agentState i') =
    a_correctiveActions (agentState i) ++
    map (fun c => {| as_id := actionId c; as_status := "pending" |})
        (correctiveActions a).
Proof.
  intros Hrun.
  exact (wp_run _ _ _ _ _ Hrun (audit_actions_wp self request t i)
           st a eq_refl).
Qed.

End StoredAudits.

Lemma audit_actions_are_pending_scenario :
  exists t' i' a,
    Agents.AuditLincAgent_onRequest oracle0 env0 "audit-PROV-1"
      (simulateRequest (Some "prov-1234567")) (ticks0, freshAudit)
    = ((t', i'),
       Agents.Done {| Agents.status := 200;
                      Agents.r_body := Agents.AuditSimulated a |}) /\
    Agents.auditsCompleted (Agents.agentState i') = 1 /\
    (Agents.averageScore (Agents.agentState i') == Agents.complianceScore a)%Q /\
    Agents.a_correctiveActions (Agents.agentState i') = [].
Proof.
  eassert (Hrun : Agents.AuditLincAgent_onRequest oracle0 env0 "audit-PROV-1"
                    (simulateRequest (Some "prov-1234567")) (ticks0, freshAudit)
                  = ((_, _), Agents.Done {| Agents.status := _;
                                            Agents.r_body :=
                                              Agents.AuditSimulated _ |}))
    by (vm_compute; reflexivity).
  destruct (audit_actions_are_pending oracle0 env0 "audit-PROV-1"
              (simulateRequest (Some "prov-1234567")) ticks0 freshAudit
              _ _ _ _ Hrun) as (Hn & Havg & Hact).
  eexists _, _, _. split; [exact Hrun |].
  split; [exact Hn |]. split; [exact (Havg eq_refl) | exact Hact].
Defined.

(** ** Two audits of a provider on one day *)
Section SameDay.
Import Agents HandlerLogic.
Context (oracle : Oracle) (env : Env).

Lemma existsb_last {R} (key : R -> string) (row : R) (l : list R) :
  existsb (fun r => String.eqb (key r) (key row)) (l ++ [row]) = true.
Proof.
  rewrite existsb_app. cbn. rewrite String.eqb_refl. cbn.
  apply orb_true_r.
Qed.

(** A completed audit leaves its row behind. *)
Lemma simulate_stores self request b p t i :
  pathname request = "/simulate" -> method request = "POST" ->
  body request = Some b -> providerId (fields b) = Some p ->
  wp (AuditLincAgent_onRequest oracle env self request)
     (fun s' r => forall a, r = Done a ->
        dates (fst s') = 4 + dates t /\
        existsb (fun row => String.eqb (au_id row)
                   (auditIdFor (dateAt oracle (S (dates t))) p))
                (table (snd s')) = true)
     (t, i).
Proof.
  intros Hpath Hmethod Hbody Hp.
  unfold AuditLincAgent_onRequest, AuditLincAgent_simulateAudit.
  rewrite Hpath, Hmethod.
  repeat first
    [ wp_step
    | progress simpl (String.eqb _ _); cbn [orb andb]
    | apply wp_request_json; rewrite Hbody
    | rewrite Hp
    | apply wp_sql_insert; intros ?
    | wp_case ];
    intros a Heq; try discriminate Heq.
  all: split; [reflexivity |]; cbn [snd table dates];
    match goal with
    | |- existsb _ (_ ++ [?row]) = true => apply (existsb_last au_id row)
    end.
Qed.

(** A request that computes an id the table already has. *)
Lemma simulate_collides self request b p t i :
  pathname request = "/simulate" -> method request = "POST" ->
  body request = Some b -> providerId (fields b) = Some p ->
  existsb (fun row => String.eqb (au_id row)
             (auditIdFor (dateAt oracle (S (dates t))) p)) (table i) = true ->
  wp (AuditLincAgent_onRequest oracle env self request)
     (fun s' r =>
        r = Threw "UNIQUE constraint failed" /\
        table (snd s') = table i /\
        auditsCompleted (agentState (snd s')) = auditsCompleted (agentState i) /\
        averageScore (agentState (snd s')) = averageScore (agentState i) /\
        a_correctiveActions (agentState (snd s'))
        = a_correctiveActions (agentState i) /\
        a_requestCount (agentState (snd s'))
        = a_requestCount (agentState i) + 1)
     (t, i).
Proof.
  intros Hpath Hmethod Hbody Hp Hrow.
  unfold AuditLincAgent_onRequest, AuditLincAgent_simulateAudit.
  rewrite Hpath, Hmethod.
  repeat first
    [ wp_step
    | progress simpl (String.eqb _ _); cbn [orb andb]
    | apply wp_request_json; rewrite Hbody
    | rewrite Hp
    | apply wp_sql_insert; cbn [table au_id dates];
      [intros _ | intros Hfresh; exfalso;
                  unfold auditIdFor in Hrow; congruence]
    | wp_case ].
  all: repeat split.
Qed.

(** X6.  The id of an audit is made of the day and of the first eight characters
    of the provider id, and it is the primary key of [audit_results]: when a
    provider's instance has completed an audit and a second request for the
    same provider arrives on the same day, the second one fails on the
    insertion; it is counted as a request, and the audits completed, the
    average, the corrective actions and the stored rows stay as the first
    audit left them. *)
Theorem second_audit_same_day (self : string) (req1 req2 : Request)
  (b1 b2 : JsonBody) (p : string) (t : Ticks) (i : AuditInstance)
  (s1 : Ticks * AuditInstance) (a1 : Response) :
  pathname req1 = "/simulate" -> method req1 = "POST" ->
  body req1 = Some b1 -> providerId (fields b1) = Some p ->
  pathname req2 = "/simulate" -> method req2 = "POST" ->
  body req2 = Some b2 -> providerId (fields b2) = Some p ->
  JS.split_head "T" (dateAt oracle (1 + dates t))
  = JS.split_head "T" (dateAt oracle (5 + dates t)) ->
  AuditLincAgent_onRequest oracle env self req1 (t, i) = (s1, Done a1) ->
  exists s2 message,
    AuditLincAgent_onRequest oracle env self req2 s1 = (s2, Threw message) /\
    table (snd s2) = table (snd s1) /\
    auditsCompleted (agentState (snd s2))
    = auditsCompleted (agentState (snd s1)) /\
    averageScore (agentState (snd s2)) = averageScore (agentState (snd s1)) /\
    a_correctiveActions (agentState (snd s2))
    = a_correctiveActions (agentState (snd s1)) /\
    a_requestCount (agentState (snd s2))
    = a_requestCount (agentState (snd s1)) + 1.
Proof.
  intros Hp1 Hm1 Hb1 Hpr1 Hp2 Hm2 Hb2 Hpr2 Hday Hrun.
  destruct (wp_run _ _ _ _ _ Hrun
              (simulate_stores self req1 b1 p t i Hp1 Hm1 Hb1 Hpr1) a1 eq_refl)
    as [Hdates Hrow].
  destruct s1 as [t1 i1]. cbn [fst snd] in *.
  assert (Hrow' : existsb (fun row => String.eqb (au_id row)
                    (auditIdFor (dateAt oracle (S (dates t1))) p)) (table i1)
                  = true).
  { unfold auditIdFor in *. rewrite Hdates.
    change (S (4 + dates t)) with (5 + dates t). rewrite <- Hday. exact Hrow. }
  pose proof (simulate_collides self req2 b2 p t1 i1 Hp2 Hm2 Hb2 Hpr2 Hrow')
    as H2.
  unfold wp in H2.
  destruct (AuditLincAgent_onRequest oracle env self req2 (t1, i1))
    as [s2 r2].
  cbn [fst snd] in H2. destruct H2 as (-> & H2).
  exists s2, "UNIQUE constraint failed". split; [reflexivity | exact H2].
Qed.

End SameDay.

Lemma second_audit_same_day_scenario :
  exists s1 a1 s2 message,
    Agents.AuditLincAgent_onRequest oracle0 env0 "audit-prov-1"
      (simulateRequest (Some "prov-1")) (ticks0, freshAudit)
    = (s1, Agents.Done a1) /\
    Agents.AuditLincAgent_onRequest oracle0 env0 "audit-prov-1"
      (simulateRequest (Some "prov-1")) s1
    = (s2, Agents.Threw message) /\
    Agents.auditsCompleted (Agents.agentState (snd s2)) = 1 /\
    Agents.a_requestCount (Agents.agentState (snd s2)) = 2.
Proof.
  eassert (Hrun1 : Agents.AuditLincAgent_onRequest oracle0 env0 "audit-prov-1"
                     (simulateRequest (Some "prov-1")) (ticks0, freshAudit)
                   = (_, Agents.Done _)) by (vm_compute; reflexivity).
  destruct (second_audit_same_day oracle0 env0 "audit-prov-1"
              (simulateRequest (Some "prov-1")) (simulateRequest (Some "prov-1"))
              (auditBody (Some "prov-1")) (auditBody (Some "prov-1"))
              "prov-1" ticks0 freshAudit _ _
              eq_refl eq_refl eq_refl eq_refl eq_refl eq_refl eq_refl eq_refl
              eq_refl Hrun1)
    as (s2 & message & Hrun2 & _ & Hc & _ & _ & Hr).
  eexists _, _, s2, message. split; [exact Hrun1 |]. split; [exact Hrun2 |].
  rewrite Hc, Hr. split; reflexivity.
Defined.

(** ** Requests that are not analysed *)
Section QuietRequests.
Import Agents HandlerLogic.
Context (oracle : Oracle) (env : Env).

Ltac quiet H :=
  intros H;
  repeat first
    [ wp_step
    | rewrite H
    | wp_case ];
  repeat split.

Lemma ClaimsLincAgent_quiet self request t i :
  claimsRoute request = false ->
  wp (ClaimsLincAgent_onRequest oracle env self request)
     (fun s' r =>
        table (snd s') = table i /\
        agentState (snd s') =
          {| c_createdAt := c_createdAt (agentState i);
             c_lastActivity := dateAt oracle (dates t);
             c_requestCount := c_requestCount (agentState i) + 1;
             claimsAnalyzed := claimsAnalyzed (agentState i);
             totalSavings := totalSavings (agentState i);
             pendingClaims := pendingClaims (agentState i) |} /\
        r = Done
              (if String.eqb (pathname request) "/health"
               then jsonResponse
                      (ClaimsHealth self (claimsAnalyzed (agentState i))
                         (totalSavings (agentState i))) 200
               else jsonResponse NotFound 404))
     (t, i).
Proof.
  unfold claimsRoute, ClaimsLincAgent_onRequest. quiet H.
Qed.

Lemma AuditLincAgent_quiet self request t i :
  auditRoute request = false ->
  wp (AuditLincAgent_onRequest oracle env self request)
     (fun s' r =>
        table (snd s') = table i /\
        agentState (snd s') =
          {| a_createdAt := a_createdAt (agentState i);
             a_lastActivity := dateAt oracle (dates t);
             a_requestCount := a_requestCount (agentState i) + 1;
             auditsCompleted := auditsCompleted (agentState i);
             averageScore := averageScore (agentState i);
             a_correctiveActions := a_correctiveActions (agentState i) |} /\
        r = Done
              (if String.eqb (pathname request) "/health"
               then jsonResponse
                      (AuditHealth self (auditsCompleted (agentState i))
                         (averageScore (agentState i))) 200
               else jsonResponse NotFound 404))
     (t, i).
Proof.
  unfold auditRoute, AuditLincAgent_onRequest. quiet H.
Qed.

Lemma LearningLincAgent_quiet self request t i :
  learningRoute request = false ->
  wp (LearningLincAgent_onRequest oracle env self request)
     (fun s' r =>
        table (snd s') = table i /\
        agentState (snd s') =
          {| l_createdAt := l_createdAt (agentState i);
             l_lastActivity := dateAt oracle (dates t);
             l_requestCount := l_requestCount (agentState i) + 1;
             pathsGenerated := pathsGenerated (agentState i);
             activeModules := activeModules (agentState i);
             completionRate := completionRate (agentState i) |} /\
        r = Done
              (if String.eqb (pathname request) "/health"
               then jsonResponse
                      (LearningHealth self (pathsGenerated (agentState i))
                         (completionRate (agentState i))) 200
               else jsonResponse NotFound 404))
     (t, i).
Proof.
  unfold learningRoute, LearningLincAgent_onRequest. quiet H.
Qed.

(** X7.  A request that is not a [POST] to an analysis path of the agent (a
    health check, another path, another method) is counted and changes
    nothing else: the table and the rest of the state are as before.  The
    answer is the health report with the figures of the instance for
    [/health], and 404 "Not found" otherwise. *)
Theorem only_counted (self : string) (request : Request) (t : Ticks) :
  (forall i t' i' r,
     claimsRoute request = false ->
     ClaimsLincAgent_onRequest oracle env self request (t, i) = ((t', i'), r) ->
     table i' = table i /\
     claimsAnalyzed (agentState i') = claimsAnalyzed (agentState i) /\
     totalSavings (agentState i') = totalSavings (agentState i) /\
     c_requestCount (agentState i') = c_requestCount (agentState i) + 1 /\
     r = Done
           (if String.eqb (pathname request) "/health"
            then jsonResponse
                   (ClaimsHealth self (claimsAnalyzed (agentState i))
                      (totalSavings (agentState i))) 200
            else jsonResponse NotFound 404)) /\
  (forall i t' i' r,
     auditRoute request = false ->
     AuditLincAgent_onRequest oracle env self request (t, i) = ((t', i'), r) ->
     table i' = table i /\
     auditsCompleted (agentState i') = auditsCompleted (agentState i) /\
     averageScore (agentState i') = averageScore (agentState i) /\
     a_requestCount (agentState i') = a_requestCount (agentState i) + 1 /\
     r = Done
           (if String.eqb (pathname request) "/health"
            then jsonResponse
                   (AuditHealth self (auditsCompleted (agentState i))
                      (averageScore (agentState i))) 200
            else jsonResponse NotFound 404)) /\
  (forall i t' i' r,
     learningRoute request = false ->
     LearningLincAgent_onRequest oracle env self request (t, i) = ((t', i'), r) ->
     table i' = table i /\
     pathsGenerated (agentState i') = pathsGenerated (agentState i) /\
     activeModules (agentState i') = activeModules (agentState i) /\
     l_requestCount (agentState i') = l_requestCount (agentState i) + 1 /\
     r = Done
           (if String.eqb (pathname request) "/health"
            then jsonResponse
                   (LearningHealth self (pathsGenerated (agentState i))
                      (completionRate (agentState i))) 200
            else jsonResponse NotFound 404)).
Proof.
  split; [| split]; intros i t' i' r Hroute Hrun.
  all: first
    [ pose proof (wp_run _ _ _ _ _ Hrun
                    (ClaimsLincAgent_quiet self request t i Hroute)) as H
    | pose proof (wp_run _ _ _ _ _ Hrun
                    (AuditLincAgent_quiet self request t i Hroute)) as H
    | pose proof (wp_run _ _ _ _ _ Hrun
                    (LearningLincAgent_quiet self request t i Hroute)) as H ];
    cbn [fst snd] in H; destruct H as (Ht & Hs & Hr);
    rewrite Hs; repeat split; assumption.
Qed.

End QuietRequests.

Lemma only_counted_health :
  Agents.ClaimsLincAgent_onRequest oracle0 env0 "claims-default" healthRequest
    (ticks0, snd (Agents.new_ClaimsLincAgent oracle0 ticks0))
  = (({| Agents.dates := 1; Agents.uuids := 0; Agents.randoms := 0 |},
      {| Agents.agentState :=
           {| Agents.c_createdAt := "2025-01-01T00:00:00.000Z";
              Agents.c_lastActivity := "2025-01-01T00:00:00.000Z";
              Agents.c_requestCount := 1; Agents.claimsAnalyzed := 0;
              Agents.totalSavings := 0; Agents.pendingClaims := [] |};
         Agents.table := [] |}),
     Agents.Done (Agents.jsonResponse
                    (Agents.ClaimsHealth "claims-default" 0 0%Z) 200)).
Proof.
  destruct (only_counted oracle0 env0 "claims-default" healthRequest ticks0)
    as (Hc & _ & _).
  destruct (Agents.ClaimsLincAgent_onRequest oracle0 env0 "claims-default"
              healthRequest
              (ticks0, snd (Agents.new_ClaimsLincAgent oracle0 ticks0)))
    as [[t' i'] r] eqn:Hrun.
  destruct (Hc _ _ _ _ eq_refl Hrun) as (_ & _ & _ & _ & ->).
  vm_compute in Hrun. injection Hrun as <- <-. reflexivity.
Defined.

(** ** Requests that fail *)
Section FailedRequests.
Import Agents HandlerLogic.
Context (oracle : Oracle) (env : Env).

Lemma route_not_health (path verb : string) :
  (String.eqb path "/analyze" || String.eqb path "/api/v1/claims/analyze")
  && String.eqb verb "POST" = true \/
  (String.eqb path "/simulate" || String.eqb path "/api/audit/simulate")
  && String.eqb verb "POST" = true \/
  (String.eqb path "/path" || String.eqb path "/api/learning/path")
  && String.eqb verb "POST" = true ->
  String.eqb path "/health" = false.
Proof.
  intros H. destruct (String.eqb_spec path "/health") as [-> | ]; [| reflexivity].
  cbn in H. intuition discriminate.
Qed.

Ltac failing Hroute :=
  repeat first
    [ wp_step
    | rewrite (route_not_health _ _ ltac:(eauto))
    | rewrite Hroute
    | apply wp_request_json
    | match goal with H : _ = _ |- _ => rewrite H end
    | wp_case ];
  repeat split; eauto.

Lemma ClaimsLincAgent_fails self request t i :
  claimsRoute request = true -> body request = None ->
  wp (ClaimsLincAgent_onRequest oracle env self request)
     (fun s' r =>
        (exists msg, r = Threw msg) /\ table (snd s') = table i /\
        claimsAnalyzed (agentState (snd s')) = claimsAnalyzed (agentState i) /\
        totalSavings (agentState (snd s')) = totalSavings (agentState i) /\
        c_requestCount (agentState (snd s'))
        = c_requestCount (agentState i) + 1)
     (t, i).
Proof.
  unfold claimsRoute. intros Hroute Hbody.
  unfold ClaimsLincAgent_onRequest, ClaimsLincAgent_analyzeClaim.
  failing Hroute.
Qed.

Lemma AuditLincAgent_fails self request t i :
  auditRoute request = true ->
  body request = None \/
  (exists b, body request = Some b /\ providerId (fields b) = None) ->
  wp (AuditLincAgent_onRequest oracle env self request)
     (fun s' r =>
        (exists msg, r = Threw msg) /\ table (snd s') = table i /\
        auditsCompleted (agentState (snd s')) = auditsCompleted (agentState i) /\
        averageScore (agentState (snd s')) = averageScore (agentState i) /\
        a_requestCount (agentState (snd s'))
        = a_requestCount (agentState i) + 1)
     (t, i).
Proof.
  unfold auditRoute. intros Hroute [Hbody | (b & Hbody & Hp)];
  unfold AuditLincAgent_onRequest, AuditLincAgent_simulateAudit;
  failing Hroute.
Qed.

Lemma LearningLincAgent_fails self request t i :
  learningRoute request = true ->
  body request = None \/
  (exists b, body request = Some b /\ targetCertification (fields b) = None) ->
  wp (LearningLincAgent_onRequest oracle env self request)
     (fun s' r =>
        (exists msg, r = Threw msg) /\ table (snd s') = table i /\
        pathsGenerated (agentState (snd s')) = pathsGenerated (agentState i) /\
        activeModules (agentState (snd s')) = activeModules (agentState i) /\
        l_requestCount (agentState (snd s'))
        = l_requestCount (agentState i) + 1)
     (t, i).
Proof.
  unfold learningRoute. intros Hroute [Hbody | (b & Hbody & Hp)];
  unfold LearningLincAgent_onRequest, LearningLincAgent_generateLearningPath;
  failing Hroute.
Qed.

(** X8.  A request to an analysis path that the handler cannot complete (its
    body is not JSON; an audit without [providerId]; a learning path without
    [targetCertification]) makes the handler throw after it has counted the
    request, and nothing else is written: the table and the figures of the
    instance are as before. *)
Theorem failed_requests_write_nothing (self : string) (request : Request)
  (t : Ticks) :
  (forall i t' i' r,
     claimsRoute request = true -> body request = None ->
     ClaimsLincAgent_onRequest oracle env self request (t, i) = ((t', i'), r) ->
     (exists msg, r = Threw msg) /\ table i' = table i /\
     claimsAnalyzed (agentState i') = claimsAnalyzed (agentState i) /\
     totalSavings (agentState i') = totalSavings (agentState i) /\
     c_requestCount (agentState i') = c_requestCount (agentState i) + 1) /\
  (forall i t' i' r,
     auditRoute request = true ->
     body request = None \/
     (exists b, body request = Some b /\ providerId (fields b) = None) ->
     AuditLincAgent_onRequest oracle env self request (t, i) = ((t', i'), r) ->
     (exists msg, r = Threw msg) /\ table i' = table i /\
     auditsCompleted (agentState i') = auditsCompleted (agentState i) /\
     averageScore (agentState i') = averageScore (agentState i) /\
     a_requestCount (agentState i') = a_requestCount (agentState i) + 1) /\
  (forall i t' i' r,
     learningRoute request = true ->
     body request = None \/
     (exists b, body request = Some b /\ targetCertification (fields b) = None) ->
     LearningLincAgent_onRequest oracle env self request (t, i) = ((t', i'), r) ->
     (exists msg, r = Threw msg) /\ table i' = table i /\
     pathsGenerated (agentState i') = pathsGenerated (agentState i) /\
     activeModules (agentState i') = activeModules (agentState i) /\
     l_requestCount (agentState i') = l_requestCount (agentState i) + 1).
Proof.
  split; [| split].
  - intros i t' i' r Hroute Hbody Hrun.
    exact (wp_run _ _ _ _ _ Hrun
             (ClaimsLincAgent_fails self request t i Hroute Hbody)).
  - intros i t' i' r Hroute Hbody Hrun.
    exact (wp_run _ _ _ _ _ Hrun
             (AuditLincAgent_fails self request t i Hroute Hbody)).
  - intros i t' i' r Hroute Hbody Hrun.
    exact (wp_run _ _ _ _ _ Hrun
             (LearningLincAgent_fails self request t i Hroute Hbody)).
Qed.

(** X9.  The audit route gives a body without [providerId] the key ["default"],
    but the agent needs the provider id to name the audit: every such
    request fails.  The instance [audit-default] exists afterwards and has
    counted the request; it has completed no further audit and stored no
    row. *)
Theorem unscoped_audit_fails (req : Request) (b : JsonBody) (t : Ticks)
  (ns : Namespaces) :
  body req = Some b -> providerId (fields b) = None ->
  let before :=
    default (snd (new_AuditLincAgent oracle t))
            (AuditAgent (downstream ns) !! "audit-default") in
  exists t' ns' msg after,
    post_api_audit_simulate oracle env req (t, ns) = ((t', ns'), Threw msg) /\
    AuditAgent (downstream ns') !! "audit-default" = Some after /\
    table after = table before /\
    auditsCompleted (agentState after) = auditsCompleted (agentState before) /\
    a_requestCount (agentState after) = a_requestCount (agentState before) + 1 /\
    MasterAgent ns' = MasterAgent ns /\
    ClaimsAgent (downstream ns') = ClaimsAgent (downstream ns) /\
    LearningAgent (downstream ns') = LearningAgent (downstream ns).
Proof.
  intros Hbody Hp before.
  assert (Hwp :
    wp (post_api_audit_simulate oracle env req)
       (fun s' r =>
          (exists msg, r = Threw msg) /\
          exists after,
            AuditAgent (downstream (snd s')) !! "audit-default" = Some after /\
            table after = table before /\
            auditsCompleted (agentState after)
            = auditsCompleted (agentState before) /\
            a_requestCount (agentState after)
            = a_requestCount (agentState before) + 1 /\
            MasterAgent (snd s') = MasterAgent ns /\
            ClaimsAgent (downstream (snd s')) = ClaimsAgent (downstream ns) /\
            LearningAgent (downstream (snd s')) = LearningAgent (downstream ns))
       (t, ns)).
  { unfold post_api_audit_simulate. wp_step.
    apply wp_request_json. rewrite Hbody. cbn beta iota zeta.
    rewrite Hp. unfold agentId. cbn [JS.or_else].
    change ("audit-" +:+ "default") with "audit-default".
    unfold fetchAudit. wp_step. apply wp_fetch. cbn beta.
    subst before.
    destruct (AuditAgent (downstream ns) !! "audit-default") as [i |];
      [| destruct (new_AuditLincAgent oracle t) as [t0 i0] eqn:Hnew];
      (eapply wp_conseq;
       [ apply AuditLincAgent_fails;
         [reflexivity | right; exists b; split; [reflexivity | exact Hp]]
       | intros [t' i'] r (Hr & Ht & Hc & _ & Hn); cbn in *;
         split; [exact Hr |]; eexists; rewrite lookup_insert_eq;
         repeat split; assumption ]). }
  unfold wp in Hwp.
  destruct (post_api_audit_simulate oracle env req (t, ns)) as [[t' ns'] r].
  cbn [fst snd] in Hwp. destruct Hwp as ((msg & ->) & after & Hafter).
  exists t', ns', msg, after. split; [reflexivity | exact Hafter].
Qed.

End FailedRequests.

Lemma failed_requests_write_nothing_scenario :
  exists s' msg,
    Agents.AuditLincAgent_onRequest oracle0 env0 "audit-default"
      (simulateRequest None) (ticks0, freshAudit) = (s', Agents.Threw msg) /\
    Agents.auditsCompleted (Agents.agentState (snd s')) = 0 /\
    Agents.a_requestCount (Agents.agentState (snd s')) = 1.
Proof.
  destruct (Agents.AuditLincAgent_onRequest oracle0 env0 "audit-default"
              (simulateRequest None) (ticks0, freshAudit))
    as [[t' i'] r] eqn:Hrun.
  destruct (failed_requests_write_nothing oracle0 env0 "audit-default"
              (simulateRequest None) ticks0) as (_ & Ha & _).
  destruct (Ha freshAudit t' i' r eq_refl
              (or_intror (ex_intro _ (auditBody None) (conj eq_refl eq_refl)))
              Hrun)
    as ((msg & ->) & _ & Hc & _ & Hn).
  exists (t', i'), msg. cbn [snd]. rewrite Hc, Hn. repeat split.
Defined.

Lemma unscoped_audit_fails_scenario :
  exists s' msg after,
    Agents.post_api_audit_simulate oracle0 env0 (simulateRequest None)
      (ticks0, noInstances) = (s', Agents.Threw msg) /\
    Agents.AuditAgent (Agents.downstream (snd s')) !! "audit-default"
    = Some after /\
    Agents.auditsCompleted (Agents.agentState after) = 0 /\
    Agents.a_requestCount (Agents.agentState after) = 1.
Proof.
  destruct (unscoped_audit_fails oracle0 env0 (simulateRequest None)
              (auditBody None) ticks0 noInstances eq_refl eq_refl)
    as (t' & ns' & msg & after & Hrun & Hafter & _ & Hc & Hn & _).
  exists (t', ns'), msg, after.
  split; [exact Hrun |]. split; [exact Hafter |].
  rewrite Hc, Hn. split; reflexivity.
Defined.

(** ** The generated learning path *)
Section LearningPath.
Import Agents HandlerLogic.
Context (oracle : Oracle) (env : Env).
Local Open Scope Q_scope.

Lemma learning_path_shape_wp self request t i :
  wp (LearningLincAgent_onRequest oracle env self request)
     (fun _ r => forall st p,
        r = Done {| status := st; r_body := PathGenerated p |} ->
        let ccp := JS.includes (JS.toUpperCase (lp_targetCertification p)) "CCP" in
        totalModules p = length (modules p) /\
        totalModules p = (if ccp then 6 else 5)%nat /\
        map order (modules p) = seq 1 (totalModules p) /\
        map m_id (firstn 3 (modules p)) = ["M001"; "M002"; "M003"] /\
        (In "M008" (map m_id (modules p)) <-> ccp = true) /\
        totalEstimatedHours p = list_sum (map hours (modules p)) /\
        In (totalEstimatedHours p) [40; 44; 55; 59]%nat /\
        (Z.of_nat (totalEstimatedHours p) <= 4 * estimatedCompletionWeeks p
         < Z.of_nat (totalEstimatedHours p) + 4)%Z)
     (t, i).
Proof.
  unfold LearningLincAgent_onRequest, LearningLincAgent_generateLearningPath.
  wp_cases; intros st p Heq; try discriminate Heq.
  all: injection Heq as _ <-; cbv zeta; cbn [lp_targetCertification];
    destruct (JS.includes _ "CCP"), (JS.lt _ 2);
    repeat split; try (vm_compute; intuition congruence).
Qed.

(** X10.  A generated path has the three core modules first, two more by
    experience, and the CCP preparation module exactly when the target
    certification contains "CCP" in any letter case: five or six modules,
    returned in the order 1, 2, 3, ...; the total of hours is the sum over
    the modules (40, 44, 55 or 59), and the estimated weeks are that total
    divided by four, rounded up. *)
Theorem learning_path_shape (self : string) (request : Request) (t : Ticks)
  (i : LearningInstance) s' (st : nat) (p : LearningPathResult) :
  LearningLincAgent_onRequest oracle env self request (t, i)
  = (s', Done {| status := st; r_body := PathGenerated p |}) ->
  let ccp := JS.includes (JS.toUpperCase (lp_targetCertification p)) "CCP" in
  totalModules p = length (modules p) /\
  totalModules p = (if ccp then 6 else 5)%nat /\
  map order (modules p) = seq 1 (totalModules p) /\
  map m_id (firstn 3 (modules p)) = ["M001"; "M002"; "M003"] /\
  (In "M008" (map m_id (modules p)) <-> ccp = true) /\
  totalEstimatedHours p = list_sum (map hours (modules p)) /\
  In (totalEstimatedHours p) [40; 44; 55; 59]%nat /\
  (Z.of_nat (totalEstimatedHours p) <= 4 * estimatedCompletionWeeks p
   < Z.of_nat (totalEstimatedHours p) + 4)%Z.
Proof.
  intros Hrun.
  exact (wp_run _ _ _ _ _ Hrun (learning_path_shape_wp self request t i)
           st p eq_refl).
Qed.

(** *** Active modules *)

Lemma existsb_eqb_elem (x : string) (l : list string) :
  existsb (String.eqb x) l = true <-> x ∈ l.
Proof.
  rewrite existsb_exists. split.
  - intros (y & Hy & Heq). apply String.eqb_eq in Heq. subst y.
    apply list_elem_of_In. exact Hy.
  - intros Hx. exists x. split; [apply list_elem_of_In, Hx | apply String.eqb_refl].
Qed.

Lemma uniq_acc (l acc : list string) :
  let r := fold_left (fun acc x => if existsb (String.eqb x) acc then acc
                                   else acc ++ [x]) l acc in
  (NoDup acc -> NoDup r) /\ (forall x, x ∈ r <-> x ∈ acc \/ x ∈ l).
Proof.
  revert acc. induction l as [| y l IH]; intros acc; cbn.
  - split; [auto |]. intros x. rewrite elem_of_nil. tauto.
  - destruct (existsb (String.eqb y) acc) eqn:Hy.
    + destruct (IH acc) as [Hnd Hin]. split; [exact Hnd |].
      intros x. rewrite Hin, elem_of_cons.
      apply existsb_eqb_elem in Hy. intuition (subst; auto).
    + destruct (IH (acc ++ [y])) as [Hnd Hin]. split.
      * intros Hacc. apply Hnd. apply NoDup_app. split; [exact Hacc |].
        split; [| apply NoDup_singleton].
        intros x Hx Hx'. apply list_elem_of_singleton in Hx'. subst x.
        apply existsb_eqb_elem in Hx. congruence.
      * intros x. rewrite Hin, elem_of_app, list_elem_of_singleton, elem_of_cons.
        tauto.
Qed.

Lemma uniq_spec (l : list string) :
  NoDup (uniq l) /\ (forall x, x ∈ uniq l <-> x ∈ l).
Proof.
  destruct (uniq_acc l []) as [Hnd Hin]. split.
  - apply Hnd, NoDup_nil_2.
  - intros x. unfold uniq. rewrite Hin, elem_of_nil. tauto.
Qed.

Lemma active_modules_wp self request t i :
  wp (LearningLincAgent_onRequest oracle env self request)
     (fun s' r => forall st p,
        r = Done {| status := st; r_body := PathGenerated p |} ->
        let new := agentState (snd s') in
        pathsGenerated new = (pathsGenerated (agentState i) + 1)%nat /\
        NoDup (activeModules new) /\
        (forall m, m ∈ activeModules new <->
                   m ∈ activeModules (agentState i) \/
                   m ∈ map m_id (modules p)))
     (t, i).
Proof.
  unfold LearningLincAgent_onRequest, LearningLincAgent_generateLearningPath.
  wp_cases; intros st p Heq; try discriminate Heq.
  all: injection Heq as _ <-; cbv zeta;
    cbn [snd agentState pathsGenerated activeModules modules];
    match goal with
    | |- context [uniq ?l] => destruct (uniq_spec l) as [Hnd Hin]
    end;
    split; [reflexivity |]; split; [exact Hnd |];
    intros m; rewrite Hin, elem_of_app;
    destruct (JS.includes _ "CCP"), (JS.lt _ 2); reflexivity.
Qed.

(** X11.  After a path is generated, [pathsGenerated] has grown by one and the
    active modules of the instance are exactly the earlier ones together with
    the modules of the new path, each listed once. *)
Theorem active_modules_are_a_set (self : string) (request : Request)
  (t : Ticks) (i : LearningInstance) t' i' (st : nat)
  (p : LearningPathResult) :
  LearningLincAgent_onRequest oracle env self request (t, i)
  = ((t', i'), Done {| status := st; r_body := PathGenerated p |}) ->
  pathsGenerated (agentState i') = (pathsGenerated (agentState i) + 1)%nat /\
  NoDup (activeModules (agentState i')) /\
  (forall m, m ∈ activeModules (agentState i') <->
             m ∈ activeModules (agentState i) \/ m ∈ map m_id (modules p)).
Proof.
  intros Hrun.
  exact (wp_run _ _ _ _ _ Hrun (active_modules_wp self request t i)
           st p eq_refl).
Qed.

(** *** Skill gaps *)

Lemma min100_lt (x c : Q) : c <= 100 -> (JS.lt (Qmin 100 x) c = true <-> x < c).
Proof.
  intros Hc. rewrite lt_true, Q.min_lt_iff. split; [intros [H | H]; lra | auto].
Qed.

Lemma skill_gap_filter (years : Q) :
  let baseLevel := 50 + years * 5 in
  let gaps :=
    List.filter (fun g => JS.lt (currentLevel g) (targetLevel g))
      [ {| skill := "ICD-10 Coding";
           currentLevel := JS.Math_min 100 (baseLevel + 10); targetLevel := 90 |};
        {| skill := "SBS Knowledge";
           currentLevel := JS.Math_min 100 baseLevel; targetLevel := 85 |};
        {| skill := "Documentation";
           currentLevel := JS.Math_min 100 (baseLevel + 20); targetLevel := 95 |};
        {| skill := "Clinical Terminology";
           currentLevel := JS.Math_min 100 (baseLevel + 15);
           targetLevel := 85 |} ] in
  (gaps = [] <-> 7 <= years) /\
  Forall (fun g => currentLevel g < targetLevel g) gaps /\
  (In "Documentation" (map skill gaps) <-> years < 5) /\
  (In "SBS Knowledge" (map skill gaps) <-> years < 7).
Proof.
  cbv zeta. unfold JS.Math_min.
  split; [| split].
  2: { apply Forall_forall. intros g Hg. apply list_elem_of_In in Hg.
       apply filter_In in Hg. apply lt_true, Hg. }
  all: cbn [List.filter currentLevel targetLevel].
  all: destruct (JS.lt (Qmin 100 (50 + years * 5 + 10)) 90) eqn:H1,
         (JS.lt (Qmin 100 (50 + years * 5)) 85) eqn:H2,
         (JS.lt (Qmin 100 (50 + years * 5 + 20)) 95) eqn:H3,
         (JS.lt (Qmin 100 (50 + years * 5 + 15)) 85) eqn:H4.
  all: try apply min100_lt in H1; try apply min100_lt in H2;
       try apply min100_lt in H3; try apply min100_lt in H4;
       try discriminate.
  all: try (apply not_true_iff_false in H1; rewrite min100_lt in H1 by discriminate);
       try (apply not_true_iff_false in H2; rewrite min100_lt in H2 by discriminate);
       try (apply not_true_iff_false in H3; rewrite min100_lt in H3 by discriminate);
       try (apply not_true_iff_false in H4; rewrite min100_lt in H4 by discriminate).
  all: cbn [map skill In].
  all: repeat match goal with H : ~ _ < _ |- _ => apply Qnot_lt_le in H end.
  all: try (split; intros; first [reflexivity | discriminate | lra | exfalso; lra]).
  all: try (exfalso; lra).
  all: split; (split; [intros Hin; repeat (destruct Hin as [Hin | Hin];
                         try discriminate Hin); first [lra | contradiction]
                      | intros; first [exfalso; lra | intuition]]).
Qed.

Lemma skill_gaps_wp self request b t i :
  body request = Some b ->
  wp (LearningLincAgent_onRequest oracle env self request)
     (fun _ r => forall st p,
        r = Done {| status := st; r_body := PathGenerated p |} ->
        let years := default 1 (yearsOfExperience (fields b)) in
        ((skillGaps p = [] <-> 7 <= years) /\
         Forall (fun g => currentLevel g < targetLevel g) (skillGaps p) /\
         (In "Documentation" (map skill (skillGaps p)) <-> years < 5) /\
         (In "SBS Knowledge" (map skill (skillGaps p)) <-> years < 7)) /\
        icd10Coding (skillAssessment p) <= 100 /\
        sbsKnowledge (skillAssessment p) <= 100 /\
        documentation (skillAssessment p) <= 100 /\
        clinicalTerminology (skillAssessment p) <= 100)
     (t, i).
Proof.
  intros Hbody.
  unfold LearningLincAgent_onRequest, LearningLincAgent_generateLearningPath.
  repeat first
    [ wp_step
    | apply wp_request_json; rewrite Hbody
    | apply wp_sql_insert; intros _
    | wp_case ];
    intros st p Heq; try discriminate Heq.
  all: injection Heq as _ <-; cbv zeta;
    cbn [skillGaps skillAssessment icd10Coding sbsKnowledge documentation
         clinicalTerminology];
    (split; [apply skill_gap_filter |]);
    unfold JS.Math_min; repeat split; apply Q.le_min_l.
Qed.

(** X12.  For a whole number of years of experience (1 when the body gives
    none), on which the levels the code computes in doubles are exact: the
    skill levels are capped at 100, and the skill gaps are the skills whose
    level is below its target; there is no gap at all exactly from 7 years
    on, the documentation gap is listed exactly below 5 years and the SBS
    gap exactly below 7. *)
Theorem skill_gaps_by_experience (self : string) (request : Request)
  (b : JsonBody) (n : nat) (t : Ticks) (i : LearningInstance) s' (st : nat)
  (p : LearningPathResult) :
  body request = Some b ->
  default 1 (yearsOfExperience (fields b)) == inject_Z (Z.of_nat n) ->
  LearningLincAgent_onRequest oracle env self request (t, i)
  = (s', Done {| status := st; r_body := PathGenerated p |}) ->
  let years := default 1 (yearsOfExperience (fields b)) in
  ((skillGaps p = [] <-> 7 <= years) /\
   Forall (fun g => currentLevel g < targetLevel g) (skillGaps p) /\
   (In "Documentation" (map skill (skillGaps p)) <-> years < 5) /\
   (In "SBS Knowledge" (map skill (skillGaps p)) <-> years < 7)) /\
  icd10Coding (skillAssessment p) <= 100 /\
  sbsKnowledge (skillAssessment p) <= 100 /\
  documentation (skillAssessment p) <= 100 /\
  clinicalTerminology (skillAssessment p) <= 100.
Proof.
  intros Hbody _ Hrun.
  exact (wp_run _ _ _ _ _ Hrun (skill_gaps_wp self request b t i Hbody)
           st p eq_refl).
Qed.

End LearningPath.

Lemma learning_path_shape_scenario :
  exists s' p,
    Agents.LearningLincAgent_onRequest oracle0 env0 "learning-L-1"
      (pathRequest "ccp-ksa" (Some 8%Q)) (ticks0, freshLearning)
    = (s', Agents.Done {| Agents.status := 200;
                          Agents.r_body := Agents.PathGenerated p |}) /\
    Agents.totalModules p = 6 /\
    map Agents.order (Agents.modules p) = [1; 2; 3; 4; 5; 6] /\
    Agents.totalEstimatedHours p = 55.
Proof.
  eexists _, _. split; [vm_compute; reflexivity |].
  edestruct (learning_path_shape oracle0 env0 "learning-L-1"
               (pathRequest "ccp-ksa" (Some 8%Q)) ticks0 freshLearning)
    as (_ & Hn & Ho & _); [vm_compute; reflexivity |].
  split; [exact Hn |]. split; [exact Ho | reflexivity].
Defined.

Lemma active_modules_scenario :
  exists t' i' p,
    Agents.LearningLincAgent_onRequest oracle0 env0 "learning-L-1"
      (pathRequest "ccp-ksa" (Some 8%Q)) (ticks0, freshLearning)
    = ((t', i'), Agents.Done {| Agents.status := 200;
                                Agents.r_body := Agents.PathGenerated p |}) /\
    Agents.pathsGenerated (Agents.agentState i') = 1 /\
    NoDup (Agents.activeModules (Agents.agentState i')) /\
    "M008" ∈ Agents.activeModules (Agents.agentState i').
Proof.
  eexists _, _, _. split; [vm_compute; reflexivity |].
  edestruct (active_modules_are_a_set oracle0 env0 "learning-L-1"
               (pathRequest "ccp-ksa" (Some 8%Q)) ticks0 freshLearning)
    as (Hn & Hnd & Hin); [vm_compute; reflexivity |].
  split; [exact Hn |]. split; [exact Hnd |].
  apply Hin. right. apply list_elem_of_In. vm_compute. tauto.
Defined.

Lemma skill_gaps_scenario :
  exists s' p,
    Agents.LearningLincAgent_onRequest oracle0 env0 "learning-L-1"
      (pathRequest "ccp-ksa" (Some 8%Q)) (ticks0, freshLearning)
    = (s', Agents.Done {| Agents.status := 200;
                          Agents.r_body := Agents.PathGenerated p |}) /\
    Agents.skillGaps p = [].
Proof.
  eexists _, _. split; [vm_compute; reflexivity |].
  edestruct (skill_gaps_by_experience oracle0 env0 "learning-L-1"
               (pathRequest "ccp-ksa" (Some 8%Q))
               (pathBody "ccp-ksa" (Some 8%Q)) 8 ticks0 freshLearning)
    as ((Hnone & _) & _);
    [reflexivity | reflexivity | vm_compute; reflexivity |].
  apply Hnone. vm_compute. discriminate.
Defined.

(** ** A claim analysis, stored and returned *)
Section StoredAnalyses.
Import Agents HandlerLogic.
Context (oracle : Oracle) (env : Env).

Lemma analyze_stores_wp self request b t i :
  pathname request = "/analyze" -> method request = "POST" ->
  body request = Some b ->
  existsb (fun k => String.eqb k (uuidAt oracle (uuids t)))
          (map cl_id (table i)) = false ->
  wp (ClaimsLincAgent_onRequest oracle env self request)
     (fun s' r =>
        let a := analysisFor env (fields b) in
        (exists processedAt,
           r = Done (jsonResponse
                       (ClaimAnalyzed (uuidAt oracle (uuids t))
                          (claimId (fields b)) a processedAt) 200)) /\
        (exists row,
           table (snd s') = table i ++ [row] /\
           cl_id row = uuidAt oracle (uuids t) /\
           claim_id row = claimId (fields b) /\
           rejection_reason row = JS.or_else (rejectionReason (fields b)) "" /\
           root_causes row = rootCauses a /\
           cl_recommendations row = recommendations a /\
           confidence_score row = confidenceScore a) /\
        claimsAnalyzed (agentState (snd s'))
        = claimsAnalyzed (agentState i) + 1 /\
        totalSavings (agentState (snd s'))
        = (totalSavings (agentState i) + estimatedSavings a)%Z /\
        c_requestCount (agentState (snd s'))
        = c_requestCount (agentState i) + 1 /\
        uuids (fst s') = S (uuids t))
     (t, i).
Proof.
  intros Hpath Hmethod Hbody Hfresh.
  unfold ClaimsLincAgent_onRequest, ClaimsLincAgent_analyzeClaim, analysisFor.
  rewrite Hpath, Hmethod.
  repeat first
    [ wp_step
    | progress simpl (String.eqb _ _); cbn [orb andb]
    | apply wp_request_json; rewrite Hbody
    | apply wp_sql_insert; cbn [table cl_id uuids];
      [rewrite existsb_ids; congruence | intros _] ].
  cbv zeta. cbn [snd fst table agentState claimsAnalyzed totalSavings
                 c_requestCount uuids].
  destruct (triggerWorkflow (CLAIMS_WORKFLOW env) (fields b));
    (split; [eexists; reflexivity |]);
    (split; [eexists; split; [reflexivity |]; repeat split |]);
    repeat split.
Qed.

(** X13.  A completed claim analysis appends one row to [claims_analysis] that
    carries what the response carries: the same id, claim id, root causes,
    recommendations and confidence; [claimsAnalyzed] grows by one and
    [totalSavings] by the estimated savings of the analysis. *)
Theorem analysis_is_stored (self : string) (request : Request) (b : JsonBody)
  (t : Ticks) (i : ClaimsInstance) t' i' r :
  pathname request = "/analyze" -> method request = "POST" ->
  body request = Some b ->
  existsb (fun k => String.eqb k (uuidAt oracle (uuids t)))
          (map cl_id (table i)) = false ->
  ClaimsLincAgent_onRequest oracle env self request (t, i) = ((t', i'), r) ->
  let a := analysisFor env (fields b) in
  (exists processedAt,
     r = Done (jsonResponse
                 (ClaimAnalyzed (uuidAt oracle (uuids t))
                    (claimId (fields b)) a processedAt) 200)) /\
  (exists row,
     table i' = table i ++ [row] /\
     cl_id row = uuidAt oracle (uuids t) /\
     claim_id row = claimId (fields b) /\
     rejection_reason row = JS.or_else (rejectionReason (fields b)) "" /\
     root_causes row = rootCauses a /\
     cl_recommendations row = recommendations a /\
     confidence_score row = confidenceScore a) /\
  claimsAnalyzed (agentState i') = claimsAnalyzed (agentState i) + 1 /\
  totalSavings (agentState i')
  = (totalSavings (agentState i) + estimatedSavings a)%Z /\
  c_requestCount (agentState i') = c_requestCount (agentState i) + 1.
Proof.
  intros Hpath Hmethod Hbody Hfresh Hrun.
  destruct (wp_run _ _ _ _ _ Hrun
              (analyze_stores_wp self request b t i Hpath Hmethod Hbody Hfresh))
    as (H1 & H2 & H3 & H4 & H5 & _).
  cbn [snd] in *. repeat split; assumption.
Qed.

End StoredAnalyses.

Lemma analysis_is_stored_scenario :
  exists t' i' r row,
    Agents.ClaimsLincAgent_onRequest oracle0 env0 "claims-CLM-1"
      (Agents.postTo "/analyze" (claimPayload (Some "CLM-1") "Invalid code"))
      (ticks0, snd (Agents.new_ClaimsLincAgent oracle0 ticks0))
    = ((t', i'), r) /\
    Agents.table i' = [row] /\
    Agents.cl_id row = "0" /\
    Agents.root_causes row
    = ["Incorrect or missing diagnosis/procedure codes"] /\
    Agents.claimsAnalyzed (Agents.agentState i') = 1 /\
    Agents.totalSavings (Agents.agentState i') = 2500%Z.
Proof.
  eassert (Hrun : Agents.ClaimsLincAgent_onRequest oracle0 env0 "claims-CLM-1"
                    (Agents.postTo "/analyze"
                       (claimPayload (Some "CLM-1") "Invalid code"))
                    (ticks0, snd (Agents.new_ClaimsLincAgent oracle0 ticks0))
                  = ((_, _), _)) by (vm_compute; reflexivity).
  destruct (analysis_is_stored oracle0 env0 "claims-CLM-1"
              (Agents.postTo "/analyze"
                 (claimPayload (Some "CLM-1") "Invalid code"))
              (Agents.bodyOf (claimPayload (Some "CLM-1") "Invalid code"))
              ticks0 (snd (Agents.new_ClaimsLincAgent oracle0 ticks0))
              _ _ _ eq_refl eq_refl eq_refl eq_refl Hrun)
    as (_ & (row & Ht & Hid & _ & _ & Hrc & _) & Hn & Hs & _).
  eexists _, _, _, row. split; [exact Hrun |].
  split; [exact Ht |]. split; [exact Hid |]. split; [exact Hrc |].
  split; [exact Hn | exact Hs].
Defined.

(** ** The hub and the agents it calls *)
Section HubCalls.
Import Agents HandlerLogic.
Context (oracle : Oracle) (env : Env).

Lemma update_fresh {R} (key : R -> string) (id : string) (f : R -> R)
  (l : list R) :
  existsb (fun r => String.eqb (key r) id) l = false ->
  map (fun r => if String.eqb (key r) id then f r else r) l = l.
Proof.
  induction l as [| r l IH]; cbn; [reflexivity |].
  intros H. apply orb_false_iff in H as [Hr Hl].
  rewrite Hr, IH by exact Hl. reflexivity.
Qed.

Lemma orchestrate_analyze_claim_wp self request b p t i d :
  pathname request = "/orchestrate" -> method request = "POST" ->
  body request = Some b ->
  action b = Some "analyze_claim" -> payload b = Some p ->
  existsb (fun r => String.eqb (rq_id r) (uuidAt oracle (uuids t))) (table i)
  = false ->
  (forall c, ClaimsAgent d !! ("claims-" +:+ agentId (claimId p)) = Some c ->
     existsb (fun k => String.eqb k (uuidAt oracle (S (uuids t))))
             (map cl_id (table c)) = false) ->
  wp (MasterLincAgent_onRequest oracle env self request)
     (fun s' r =>
        let name := "claims-" +:+ agentId (claimId p) in
        exists analyzedAt processedAt,
          let result :=
            ClaimAnalyzed (uuidAt oracle (S (uuids t))) (claimId p)
              (analysisFor env p) analyzedAt in
          r = Done (jsonResponse
                      (Orchestrated (uuidAt oracle (uuids t))
                         (Some "analyze_claim") result processedAt) 200) /\
          (exists row,
             table (fst (snd s')) = table i ++ [row] /\
             rq_id row = uuidAt oracle (uuids t) /\
             rq_type row = Some "analyze_claim" /\
             rq_payload row = Some p /\
             rq_response row = Some result) /\
          requestCount (agentState (fst (snd s')))
          = requestCount (agentState i) + 1 /\
          (exists c',
             ClaimsAgent (snd (snd s')) !! name = Some c' /\
             claimsAnalyzed (agentState c')
             = claimsAnalyzed
                 (agentState (default (snd (new_ClaimsLincAgent oracle t))
                                      (ClaimsAgent d !! name))) + 1) /\
          (forall other, other <> name ->
             ClaimsAgent (snd (snd s')) !! other = ClaimsAgent d !! other) /\
          AuditAgent (snd (snd s')) = AuditAgent d /\
          LearningAgent (snd (snd s')) = LearningAgent d)
     (t, (i, d)).
Proof.
  intros Hpath Hmethod Hbody Haction Hpayload Hfresh Hfresh'.
  unfold MasterLincAgent_onRequest, MasterLincAgent_handleOrchestrate.
  rewrite Hpath, Hmethod.
  repeat first
    [ wp_step
    | progress simpl (String.eqb _ _); cbn [orb andb]
    | apply wp_request_json; rewrite Hbody
    | apply wp_sql_insert; cbn [table rq_id uuids]; [congruence | intros _]
    | rewrite Haction, (bool_decide_eq_true_2 _ eq_refl)
    | rewrite Hpayload ].
  apply wp_fetch. cbn beta. unfold agentId in *.
  set (name := "claims-" +:+ JS.or_else (claimId p) "default") in *.
  destruct (ClaimsAgent d !! name) as [c |] eqn:Hc;
    unfold new_ClaimsLincAgent, twoDates; cbn [default snd];
    (eapply wp_conseq;
     [ apply (analyze_stores_wp oracle env name (postTo "/analyze" p) (bodyOf p));
       first [reflexivity | eauto]
     | ]);
    intros s' r ([analyzedAt ->] & _ & Hn & _ & _ & _);
    cbn beta iota delta [fst snd r_body jsonResponse];
    repeat wp_step;
    cbn [table agentState fst snd app map rq_id];
    rewrite map_app, (update_fresh _ _ _ _ Hfresh); cbn [map rq_id];
    rewrite String.eqb_refl;
    exists analyzedAt; eexists;
    (split; [reflexivity |]);
    (split; [eexists; split; [reflexivity |]; repeat split |]);
    (split; [cbn; reflexivity |]);
    (split; [exists (snd s'); split;
             [cbn; apply lookup_insert_eq | cbn in Hn |- *; exact Hn] |]);
    (split; [intros other Hother; cbn; apply lookup_insert_ne; congruence |]);
    split; reflexivity.
Qed.

(** X14.  [POST /orchestrate] with the action [analyze_claim] hands the payload to
    the claims instance the direct route would use for that payload,
    ["claims-" + (claimId || "default")], and answers 200 with the response
    of that instance as [result]; the same response is written into the row
    the hub logged for the request.  The claims instance counts one more
    analysis; no other instance of any downstream kind changes. *)
Theorem orchestrated_claim_analysis (self : string) (request : Request)
  (b : JsonBody) (p : Payload) (t : Ticks) (i : MasterInstance)
  (d : Downstream) t' i' d' r :
  pathname request = "/orchestrate" -> method request = "POST" ->
  body request = Some b ->
  action b = Some "analyze_claim" -> payload b = Some p ->
  existsb (fun r => String.eqb (rq_id r) (uuidAt oracle (uuids t))) (table i)
  = false ->
  (forall c, ClaimsAgent d !! ("claims-" +:+ agentId (claimId p)) = Some c ->
     existsb (fun k => String.eqb k (uuidAt oracle (S (uuids t))))
             (map cl_id (table c)) = false) ->
  MasterLincAgent_onRequest oracle env self request (t, (i, d))
  = ((t', (i', d')), r) ->
  let name := "claims-" +:+ agentId (claimId p) in
  exists analyzedAt processedAt,
    let result :=
      ClaimAnalyzed (uuidAt oracle (S (uuids t))) (claimId p)
        (analysisFor env p) analyzedAt in
    r = Done (jsonResponse
                (Orchestrated (uuidAt oracle (uuids t))
                   (Some "analyze_claim") result processedAt) 200) /\
    (exists row,
       table i' = table i ++ [row] /\
       rq_id row = uuidAt oracle (uuids t) /\
       rq_type row = Some "analyze_claim" /\
       rq_payload row = Some p /\
       rq_response row = Some result) /\
    requestCount (agentState i') = requestCount (agentState i) + 1 /\
    (exists c',
       ClaimsAgent d' !! name = Some c' /\
       claimsAnalyzed (agentState c')
       = claimsAnalyzed
           (agentState (default (snd (new_ClaimsLincAgent oracle t))
                                (ClaimsAgent d !! name))) + 1) /\
    (forall other, other <> name ->
       ClaimsAgent d' !! other = ClaimsAgent d !! other) /\
    AuditAgent d' = AuditAgent d /\
    LearningAgent d' = LearningAgent d.
Proof.
  intros Hpath Hmethod Hbody Haction Hpayload Hfresh Hfresh' Hrun.
  exact (wp_run _ _ _ _ _ Hrun
           (orchestrate_analyze_claim_wp self request b p t i d
              Hpath Hmethod Hbody Haction Hpayload Hfresh Hfresh')).
Qed.

End HubCalls.

Lemma orchestrated_claim_analysis_scenario :
  exists s' analyzedAt processedAt c',
    Agents.MasterLincAgent_onRequest oracle0 env0 "master-orchestrator"
      (orchestrateRequest "analyze_claim"
         (Some (claimPayload (Some "CLM-1") "Invalid code")))
      (ticks0, (freshMaster, noAgents))
    = (s', Agents.Done
             (Agents.jsonResponse
                (Agents.Orchestrated "0" (Some "analyze_claim")
                   (Agents.ClaimAnalyzed "1" (Some "CLM-1")
                      (analysisFor env0
                         (claimPayload (Some "CLM-1") "Invalid code"))
                      analyzedAt)
                   processedAt) 200)) /\
    Agents.ClaimsAgent (snd (snd s')) !! "claims-CLM-1" = Some c' /\
    Agents.claimsAnalyzed (Agents.agentState c') = 1.
Proof.
  eassert (Hrun : Agents.MasterLincAgent_onRequest oracle0 env0
                    "master-orchestrator"
                    (orchestrateRequest "analyze_claim"
                       (Some (claimPayload (Some "CLM-1") "Invalid code")))
                    (ticks0, (freshMaster, noAgents))
                  = ((_, (_, _)), _)) by (vm_compute; reflexivity).
  assert (Hnone : forall c,
            Agents.ClaimsAgent noAgents
              !! ("claims-" +:+ Agents.agentId (Some "CLM-1")) = Some c ->
            existsb (fun k => String.eqb k "1") (map Agents.cl_id (Agents.table c))
            = false)
    by (intros c H; cbn in H; rewrite lookup_empty in H; discriminate H).
  destruct (orchestrated_claim_analysis oracle0 env0 "master-orchestrator"
              (orchestrateRequest "analyze_claim"
                 (Some (claimPayload (Some "CLM-1") "Invalid code")))
              (orchestrateBody "analyze_claim"
                 (Some (claimPayload (Some "CLM-1") "Invalid code")))
              (claimPayload (Some "CLM-1") "Invalid code")
              ticks0 freshMaster noAgents _ _ _ _
              eq_refl eq_refl eq_refl eq_refl eq_refl eq_refl
              Hnone
              Hrun)
    as (analyzedAt & processedAt & Hr & _ & _ & (c' & Hc' & Hn) & _).
  eexists _, analyzedAt, processedAt, c'.
  split; [rewrite Hrun, Hr; reflexivity |].
  split; [exact Hc' | exact Hn].
Defined.

(** ** Orchestrations that fail *)
Section FailedOrchestrations.
Import Agents HandlerLogic.
Context (oracle : Oracle) (env : Env).

Lemma orchestrate_malformed_wp self request t i d :
  pathname request = "/orchestrate" -> method request = "POST" ->
  body request = None ->
  wp (MasterLincAgent_onRequest oracle env self request)
     (fun s' r =>
        (exists message,
           r = Done (jsonResponse (OrchestrationFailed message) 500)) /\
        table (fst (snd s')) = table i /\
        requestCount (agentState (fst (snd s')))
        = requestCount (agentState i) + 1 /\
        snd (snd s') = d /\
        uuids (fst s') = uuids t)
     (t, (i, d)).
Proof.
  intros Hpath Hmethod Hbody.
  unfold MasterLincAgent_onRequest, MasterLincAgent_handleOrchestrate.
  rewrite Hpath, Hmethod.
  repeat first
    [ wp_step
    | progress simpl (String.eqb _ _); cbn [orb andb]
    | apply wp_request_json; rewrite Hbody ].
  cbn. repeat split. eexists; reflexivity.
Qed.

Lemma orchestrate_no_payload_wp self request b t i d :
  pathname request = "/orchestrate" -> method request = "POST" ->
  body request = Some b ->
  In (action b) [Some "analyze_claim"; Some "run_audit";
                 Some "generate_learning_path"] ->
  payload b = None ->
  existsb (fun r => String.eqb (rq_id r) (uuidAt oracle (uuids t))) (table i)
  = false ->
  wp (MasterLincAgent_onRequest oracle env self request)
     (fun s' r =>
        (exists message,
           r = Done (jsonResponse (OrchestrationFailed message) 500)) /\
        (exists row,
           table (fst (snd s')) = table i ++ [row] /\
           rq_id row = uuidAt oracle (uuids t) /\
           rq_type row = action b /\
           rq_payload row = None /\
           rq_response row = None) /\
        requestCount (agentState (fst (snd s')))
        = requestCount (agentState i) + 1 /\
        snd (snd s') = d)
     (t, (i, d)).
Proof.
  intros Hpath Hmethod Hbody Haction Hpayload Hfresh.
  unfold MasterLincAgent_onRequest, MasterLincAgent_handleOrchestrate.
  rewrite Hpath, Hmethod.
  repeat first
    [ wp_step
    | progress simpl (String.eqb _ _); cbn [orb andb]
    | apply wp_request_json; rewrite Hbody
    | apply wp_sql_insert; cbn [table rq_id uuids]; [congruence | intros _]
    | rewrite Hpayload ].
  cbn in Haction.
  destruct Haction as [<- | [<- | [<- | []]]];
    repeat first
      [ wp_step
      | rewrite (bool_decide_eq_true_2 _ eq_refl)
      | rewrite bool_decide_eq_false_2 by discriminate ];
    (split; [eexists; reflexivity |]);
    (split; [eexists; split; [reflexivity |]; repeat split; assumption |]);
    split; reflexivity.
Qed.

(** X15.  An orchestration that cannot be carried out answers 500 and calls no
    downstream agent.  When the body cannot be parsed, nothing is logged;
    when the action is one of the three known ones but the body has no
    [payload], the request is logged first and its row keeps an empty
    response.  Both requests are counted. *)
Theorem failed_orchestration (self : string) (request : Request) (t : Ticks)
  (i : MasterInstance) (d : Downstream) t' i' d' r :
  pathname request = "/orchestrate" -> method request = "POST" ->
  MasterLincAgent_onRequest oracle env self request (t, (i, d))
  = ((t', (i', d')), r) ->
  (body request = None ->
   (exists message,
      r = Done (jsonResponse (OrchestrationFailed message) 500)) /\
   table i' = table i /\
   requestCount (agentState i') = requestCount (agentState i) + 1 /\
   d' = d) /\
  (forall b,
     body request = Some b ->
     In (action b) [Some "analyze_claim"; Some "run_audit";
                    Some "generate_learning_path"] ->
     payload b = None ->
     existsb (fun r => String.eqb (rq_id r) (uuidAt oracle (uuids t)))
             (table i) = false ->
     (exists message,
        r = Done (jsonResponse (OrchestrationFailed message) 500)) /\
     (exists row,
        table i' = table i ++ [row] /\
        rq_id row = uuidAt oracle (uuids t) /\
        rq_type row = action b /\
        rq_payload row = None /\
        rq_response row = None) /\
     requestCount (agentState i') = requestCount (agentState i) + 1 /\
     d' = d).
Proof.
  intros Hpath Hmethod Hrun. split.
  - intros Hbody.
    destruct (wp_run _ _ _ _ _ Hrun
                (orchestrate_malformed_wp self request t i d
                   Hpath Hmethod Hbody)) as (H1 & H2 & H3 & H4 & _).
    repeat split; assumption.
  - intros b Hbody Haction Hpayload Hfresh.
    exact (wp_run _ _ _ _ _ Hrun
             (orchestrate_no_payload_wp self request b t i d
                Hpath Hmethod Hbody Haction Hpayload Hfresh)).
Qed.

End FailedOrchestrations.

Lemma failed_orchestration_scenario :
  exists t' i' row,
    Agents.MasterLincAgent_onRequest oracle0 env0 "master-orchestrator"
      (orchestrateRequest "run_audit" None) (ticks0, (freshMaster, noAgents))
    = ((t', (i', noAgents)),
       Agents.Done
         (Agents.jsonResponse
            (Agents.OrchestrationFailed
               "Cannot read properties of undefined (reading 'providerId')")
            500)) /\
    Agents.table i' = [row] /\ Agents.rq_response row = None.
Proof.
  eassert (Hrun : Agents.MasterLincAgent_onRequest oracle0 env0
                    "master-orchestrator"
                    (orchestrateRequest "run_audit" None)
                    (ticks0, (freshMaster, noAgents))
                  = ((_, (_, _)), _)) by (vm_compute; reflexivity).
  destruct (failed_orchestration oracle0 env0 "master-orchestrator"
              (orchestrateRequest "run_audit" None) ticks0 freshMaster
              noAgents _ _ _ _ eq_refl eq_refl Hrun) as [_ H].
  destruct (H (orchestrateBody "run_audit" None) eq_refl
              (or_intror (or_introl eq_refl)) eq_refl eq_refl)
    as (_ & (row & Ht & _ & _ & _ & Hr) & _ & Hd).
  eexists _, _, row.
  split; [rewrite Hrun; rewrite Hd; reflexivity |].
  split; [exact Ht | exact Hr].
Defined.

(** ** One instance per request *)
Section OneInstance.
Import Agents HandlerLogic.
Context (oracle : Oracle) (env : Env).

Lemma fetch_frame {S R} (create : Ticks -> Ticks * Instance S R) onRequest
  name request t (ns : gmap string (Instance S R)) :
  wp (fetch create onRequest name request)
     (fun s' _ => (forall other, other <> name -> snd s' !! other = ns !! other)
                  /\ is_Some (snd s' !! name))
     (t, ns).
Proof.
  apply wp_fetch. unfold wp. cbn. split.
  - intros other Hother. apply lookup_insert_ne. congruence.
  - rewrite lookup_insert_eq. eauto.
Qed.

(** X16.  A request to one of the agent routes reaches exactly one instance, the
    one named by the kind of the agent and the key of the body
    ([claimId], [providerId] or [learnerId], or "default"): that instance
    exists afterwards, also when the request failed, and every other
    instance of every kind is as it was before. *)
Theorem one_instance_per_request (req : Request) (b : JsonBody) (t : Ticks)
  (ns : Namespaces) :
  body req = Some b ->
  let claims := snd (fst (post_api_v1_claims_analyze oracle env req (t, ns))) in
  let audit := snd (fst (post_api_audit_simulate oracle env req (t, ns))) in
  let learning := snd (fst (post_api_learning_path oracle env req (t, ns))) in
  (MasterAgent claims = MasterAgent ns /\
   AuditAgent (downstream claims) = AuditAgent (downstream ns) /\
   LearningAgent (downstream claims) = LearningAgent (downstream ns) /\
   (forall other, other <> "claims-" +:+ agentId (claimId (fields b)) ->
      ClaimsAgent (downstream claims) !! other
      = ClaimsAgent (downstream ns) !! other) /\
   is_Some (ClaimsAgent (downstream claims)
              !! ("claims-" +:+ agentId (claimId (fields b))))) /\
  (MasterAgent audit = MasterAgent ns /\
   ClaimsAgent (downstream audit) = ClaimsAgent (downstream ns) /\
   LearningAgent (downstream audit) = LearningAgent (downstream ns) /\
   (forall other, other <> "audit-" +:+ agentId (providerId (fields b)) ->
      AuditAgent (downstream audit) !! other
      = AuditAgent (downstream ns) !! other) /\
   is_Some (AuditAgent (downstream audit)
              !! ("audit-" +:+ agentId (providerId (fields b))))) /\
  (MasterAgent learning = MasterAgent ns /\
   ClaimsAgent (downstream learning) = ClaimsAgent (downstream ns) /\
   AuditAgent (downstream learning) = AuditAgent (downstream ns) /\
   (forall other, other <> "learning-" +:+ agentId (learnerId (fields b)) ->
      LearningAgent (downstream learning) !! other
      = LearningAgent (downstream ns) !! other) /\
   is_Some (LearningAgent (downstream learning)
              !! ("learning-" +:+ agentId (learnerId (fields b))))).
Proof.
  intros Hbody. cbv zeta.
  split; [| split].
  - assert (H : wp (post_api_v1_claims_analyze oracle env req)
                   (fun s' _ =>
                      MasterAgent (snd s') = MasterAgent ns /\
                      AuditAgent (downstream (snd s'))
                      = AuditAgent (downstream ns) /\
                      LearningAgent (downstream (snd s'))
                      = LearningAgent (downstream ns) /\
                      (forall other,
                         other <> "claims-" +:+ agentId (claimId (fields b)) ->
                         ClaimsAgent (downstream (snd s')) !! other
                         = ClaimsAgent (downstream ns) !! other) /\
                      is_Some (ClaimsAgent (downstream (snd s'))
                                 !! ("claims-" +:+ agentId (claimId (fields b)))))
                   (t, ns)).
    { unfold post_api_v1_claims_analyze, fetchClaims.
      wp_step. apply wp_request_json. rewrite Hbody. wp_step.
      eapply wp_conseq; [apply fetch_frame |].
      intros s' r [Hother Hsome]. cbn. repeat split; assumption. }
    exact H.
  - assert (H : wp (post_api_audit_simulate oracle env req)
                   (fun s' _ =>
                      MasterAgent (snd s') = MasterAgent ns /\
                      ClaimsAgent (downstream (snd s'))
                      = ClaimsAgent (downstream ns) /\
                      LearningAgent (downstream (snd s'))
                      = LearningAgent (downstream ns) /\
                      (forall other,
                         other <> "audit-" +:+ agentId (providerId (fields b)) ->
                         AuditAgent (downstream (snd s')) !! other
                         = AuditAgent (downstream ns) !! other) /\
                      is_Some (AuditAgent (downstream (snd s'))
                                 !! ("audit-" +:+ agentId (providerId (fields b)))))
                   (t, ns)).
    { unfold post_api_audit_simulate, fetchAudit.
      wp_step. apply wp_request_json. rewrite Hbody. wp_step.
      eapply wp_conseq; [apply fetch_frame |].
      intros s' r [Hother Hsome]. cbn. repeat split; assumption. }
    exact H.
  - assert (H : wp (post_api_learning_path oracle env req)
                   (fun s' _ =>
                      MasterAgent (snd s') = MasterAgent ns /\
                      ClaimsAgent (downstream (snd s'))
                      = ClaimsAgent (downstream ns) /\
                      AuditAgent (downstream (snd s'))
                      = AuditAgent (downstream ns) /\
                      (forall other,
                         other <> "learning-" +:+ agentId (learnerId (fields b)) ->
                         LearningAgent (downstream (snd s')) !! other
                         = LearningAgent (downstream ns) !! other) /\
                      is_Some (LearningAgent (downstream (snd s'))
                                 !! ("learning-" +:+ agentId (learnerId (fields b)))))
                   (t, ns)).
    { unfold post_api_learning_path, fetchLearning.
      wp_step. apply wp_request_json. rewrite Hbody. wp_step.
      eapply wp_conseq; [apply fetch_frame |].
      intros s' r [Hother Hsome]. cbn. repeat split; assumption. }
    exact H.
Qed.

End OneInstance.

Lemma one_instance_per_request_scenario :
  is_Some
    (Agents.ClaimsAgent
       (Agents.downstream
          (snd (fst (Agents.post_api_v1_claims_analyze oracle0 env0
                       (Agents.postTo "/api/v1/claims/analyze"
                          (claimPayload (Some "CLM-1") "Invalid code"))
                       (ticks0, noInstances)))))
       !! "claims-CLM-1").
Proof.
  pose proof (one_instance_per_request oracle0 env0
                (Agents.postTo "/api/v1/claims/analyze"
                   (claimPayload (Some "CLM-1") "Invalid code"))
                (Agents.bodyOf (claimPayload (Some "CLM-1") "Invalid code"))
                ticks0 noInstances eq_refl) as H.
  cbv zeta in H. destruct H as ((_ & _ & _ & _ & H) & _).
  exact H.
Defined.

(** ** The steps of the workflows *)
Section ClaimsSteps.
Import Workflows.

(** X17.  [validate-claim-data] accepts the parameters exactly when the claim id,
    the payer id and at least one diagnosis code are present; otherwise the
    issues name exactly what is missing, and nothing else. *)
Theorem validation_names_what_is_missing (p : ClaimsParams) :
  let v := validate_claim_data p in
  (isValid v = true <->
   JS.truthy (claimId p) = true /\ JS.truthy (payerId p) = true /\
   exists code codes, diagnosisCodes p = Some (code :: codes)) /\
  (isValid v = true <-> issues v = []) /\
  (In "Missing claim ID" (issues v) <-> JS.truthy (claimId p) = false) /\
  (In "Missing payer ID" (issues v) <-> JS.truthy (payerId p) = false) /\
  (In "Missing diagnosis codes" (issues v) <->
   diagnosisCodes p = None \/ diagnosisCodes p = Some []) /\
  (forall issue, In issue (issues v) ->
     In issue ["Missing claim ID"; "Missing payer ID";
               "Missing diagnosis codes"]) /\
  v_claimId v = claimId p.
Proof.
  cbv zeta. unfold validate_claim_data.
  destruct (JS.truthy (claimId p)), (JS.truthy (payerId p)),
    (diagnosisCodes p) as [[| code codes] |]; cbn;
    repeat split; intros;
    repeat match goal with
           | H : _ /\ _ |- _ => destruct H
           | H : _ \/ _ |- _ => destruct H
           | H : exists _, _ |- _ => destruct H
           | H : False |- _ => destruct H
           end;
    subst; try discriminate; try congruence; eauto 10.
Qed.

(** X18.  Whatever the rejection reason, the analysis step of [ClaimsWorkflow]
    reports that automation is available, so the last step always plans the
    resubmission and never asks for a human review: the manual review queue
    is not reachable, also when the only root cause is "Requires manual
    review". *)
Theorem workflow_never_asks_for_review (rejectionReason : option string) :
  let a := ai_analyze_rejection rejectionReason in
  let next := determine_next_actions (automationAvailable a) in
  automationAvailable a = true /\
  actions next = ["Prepare corrected claim"; "Submit for re-processing"] /\
  requiresHumanReview next = false /\
  length (recommendations a) = length (rootCauses a) /\
  (JS.truthy rejectionReason = false ->
   rootCauses a = ["Requires manual review"]).
Proof.
  cbv zeta. unfold ai_analyze_rejection.
  destruct (JS.truthy rejectionReason); [| repeat split].
  destruct (JS.includes _ "code"), (JS.includes _ "authorization"),
    (JS.includes _ "documentation"); repeat split; discriminate.
Qed.

End ClaimsSteps.

Section AuditSteps.
Import Workflows WorkflowSteps.
Local Open Scope Q_scope.

Lemma clamped_is_score (sampleSize : Q) (claims : list SampleClaim) :
  let errors := inject_Z (Z.of_nat (length (List.filter hasErrors claims))) in
  0 < sampleSize -> errors <= sampleSize ->
  clampedScore sampleSize (length (List.filter hasErrors claims))
  == (sampleSize - errors) / sampleSize * 100.
Proof.
  intros errors Hs He. unfold clampedScore.
  apply clamp_id; apply (score_range sampleSize errors Hs (errors_nonneg _) He).
Qed.

Lemma gathered_sample_facts (Date_now : nat -> Z)
  (Math_random : nat -> Q) (n : nat) :
  let sampleSize := inject_Z (Z.of_nat n) in
  let sample := gather_sample_claims Date_now Math_random sampleSize in
  let r := analyze_compliance sampleSize (claims sample) in
  let errors := inject_Z (Z.of_nat (errorCount r)) in
  (0 < n)%nat ->
  length (claims sample) = n /\
  totalSampled sample = sampleSize /\
  (errorCount r <= n)%nat /\
  errorCount r
  = length (List.filter (fun i => JS.lt 0.85 (Math_random (2 * i)%nat))
                        (seq 0 n)) /\
  clampedScore sampleSize (errorCount r)
  == (sampleSize - errors) / sampleSize * 100 /\
  complianceScore r == JS.round2 ((sampleSize - errors) / sampleSize * 100) /\
  0 <= complianceScore r /\ complianceScore r <= 100.
Proof.
  intros sampleSize sample r errors Hn.
  assert (Hlen : length (claims sample) = n).
  { subst sample sampleSize. unfold gather_sample_claims. cbn [claims].
    rewrite length_map, length_seq, Qceiling_Z. apply Nat2Z.id. }
  assert (Herr : errorCount r
                 = length (List.filter hasErrors (claims sample))).
  { subst r. unfold analyze_compliance.
    repeat match goal with |- context [if ?b then _ else _] => destruct b end;
      reflexivity. }
  assert (Hle : (errorCount r <= n)%nat).
  { rewrite Herr, <- Hlen. apply List.filter_length_le. }
  assert (Hs : 0 < sampleSize).
  { subst sampleSize. change 0 with (inject_Z 0). rewrite <- Zlt_Qlt. lia. }
  assert (He : errors <= sampleSize).
  { subst errors sampleSize. rewrite <- Zle_Qle. lia. }
  assert (Hclamp : clampedScore sampleSize (errorCount r)
                   == (sampleSize - errors) / sampleSize * 100).
  { subst errors. rewrite Herr in He |- *.
    apply (clamped_is_score sampleSize (claims sample) Hs He). }
  assert (Hround : complianceScore r
                   == JS.round2 ((sampleSize - errors) / sampleSize * 100)).
  { rewrite <- (round2_comp _ _ Hclamp). rewrite Herr.
    subst r. unfold analyze_compliance.
    repeat match goal with |- context [if ?b then _ else _] => destruct b end;
      reflexivity. }
  pose proof (score_range sampleSize errors Hs (errors_nonneg _) He)
    as [H0 H100].
  split; [exact Hlen |]. split; [reflexivity |]. split; [exact Hle |].
  split.
  { rewrite Herr. subst sample. unfold gather_sample_claims. cbn [claims].
    subst sampleSize. rewrite Qceiling_Z, Nat2Z.id.
    generalize (seq 0 n). intros l.
    induction l as [| i l IH]; [reflexivity |].
    cbn [List.filter map length hasErrors].
    destruct (JS.lt 0.85 (Math_random _)); cbn [length]; congruence. }
  split; [exact Hclamp |]. split; [exact Hround |].
  rewrite Hround. split.
  - eapply Qle_trans; [| apply round2_le, H0]. vm_compute. discriminate.
  - eapply Qle_trans; [apply round2_le, H100 |]. vm_compute. discriminate.
Qed.

(** X21.  An audit started without a sample size, or with the sample size 0,
    samples 50 claims; its score is then the whole number [100 - 2 * errors],
    which the rounding leaves as it is. *)
Theorem default_sample_is_fifty (Date_now : nat -> Z)
  (Math_random : nat -> Q) (params : Agents.Payload) :
  let sampleSize := sampleSize (auditParams params) in
  let sample := gather_sample_claims Date_now Math_random sampleSize in
  let r := analyze_compliance sampleSize (claims sample) in
  Agents.sampleSize params = None \/ Agents.sampleSize params = Some 0 ->
  sampleSize = 50 /\
  length (claims sample) = 50%nat /\
  (errorCount r <= 50)%nat /\
  complianceScore r == 100 - 2 * inject_Z (Z.of_nat (errorCount r)).
Proof.
  intros sampleSize sample r Hp.
  assert (H50 : sampleSize = inject_Z (Z.of_nat 50)).
  { subst sampleSize. unfold auditParams. cbn [WorkflowSteps.sampleSize].
    destruct Hp as [-> | ->]; reflexivity. }
  subst sample r. rewrite H50.
  pose proof (gathered_sample_facts Date_now Math_random 50) as H.
  cbv zeta in H.
  destruct H as (Hlen & _ & Hle & _ & _ & Hround & _); [lia |].
  split; [reflexivity |]. split; [exact Hlen |]. split; [exact Hle |].
  rewrite Hround.
  set (e := errorCount _) in *.
  rewrite (round2_exact _ (10000 - 200 * Z.of_nat e)).
  - change (inject_Z (Z.of_nat 50)) with 50. field.
  - change (inject_Z (Z.of_nat 50)) with 50.
    unfold Zminus. rewrite inject_Z_plus, inject_Z_opp, inject_Z_mult.
    change (inject_Z 10000) with 10000. change (inject_Z 200) with 200.
    field.
Qed.

End AuditSteps.

Section LearningSteps.
Import Workflows WorkflowSteps.
Local Open Scope Q_scope.

(** X22.  The schedule of a learning path.  Every path starts with M001, M002 and
    M003; learners with less than two years of experience continue with
    M004 and M005, which are required, the others with M006 and M007, which
    are recommended; M008 follows when the certification contains "CCP" (in
    capitals).  No module occurs twice, the schedule counts these modules
    and their hours (44 or 40, and 15 more with M008), and at four hours a
    week the hours fit in the weeks it announces, and not in one week
    less. *)
Theorem learning_schedule (yearsOfExperience : Q)
  (targetCertification : string) :
  let modules :=
    generate_learning_modules yearsOfExperience targetCertification in
  let s := create_schedule modules in
  let beginner := JS.lt yearsOfExperience 2 in
  let ccp := JS.includes targetCertification "CCP" in
  map id modules
  = ["M001"; "M002"; "M003"]
    ++ (if beginner then ["M004"; "M005"] else ["M006"; "M007"])
    ++ (if ccp then ["M008"] else []) /\
  NoDup (map id modules) /\
  (forall m, In m modules ->
     priority m = recommended <-> id m = "M006" \/ id m = "M007") /\
  totalModules s = length modules /\
  totalEstimatedHours s
  = ((if beginner then 44 else 40) + (if ccp then 15 else 0))%nat /\
  estimatedCompletionWeeks s
  = ((if beginner then 11 else 10) + (if ccp then 4 else 0))%Z /\
  (Z.of_nat (totalEstimatedHours s) <= 4 * estimatedCompletionWeeks s
   < Z.of_nat (totalEstimatedHours s) + 4)%Z /\
  recommendedPace s = "4 hours/week".
Proof.
  cbv zeta. unfold generate_learning_modules.
  destruct (JS.lt yearsOfExperience 2), (JS.includes targetCertification "CCP");
    (split; [reflexivity |]);
    (split; [cbn; apply (bool_decide_unpack _); vm_compute; exact I |]);
    (split; [intros m Hm; cbn in Hm;
             repeat (destruct Hm as [<- | Hm]; [cbn; intuition discriminate |]);
             destruct Hm |]);
    (split; [reflexivity |]); (split; [reflexivity |]);
    (split; [reflexivity |]); (split; [vm_compute; intuition discriminate |]);
    reflexivity.
Qed.

(** X24.  A learning path requested without [yearsOfExperience], or with 0 years,
    is started for a learner with one year of experience: the path has the
    five modules for beginners (and M008 for a CCP certification), the SBS
    knowledge is assessed at 55 and the success probability is 0.65. *)
Theorem no_experience_counts_as_one_year (params : Agents.Payload) :
  let p := learningParams params in
  Agents.yearsOfExperience params = None \/
  Agents.yearsOfExperience params = Some 0 ->
  yearsOfExperience p = 1 /\
  sbsKnowledge (assess_current_skills (yearsOfExperience p)) == 55 /\
  overallProbability
    (calculate_success_probability (yearsOfExperience p) (currentRole p))
  == 0.65 /\
  firstn 5 (map id (generate_learning_modules (yearsOfExperience p)
                      (WorkflowSteps.targetCertification p)))
  = ["M001"; "M002"; "M003"; "M004"; "M005"] /\
  (Agents.targetCertification params = None ->
   map id (generate_learning_modules (yearsOfExperience p)
             (WorkflowSteps.targetCertification p))
   = ["M001"; "M002"; "M003"; "M004"; "M005"; "M008"]).
Proof.
  intros p Hy.
  assert (H1 : yearsOfExperience p = 1).
  { subst p. unfold learningParams. cbn [yearsOfExperience].
    destruct Hy as [-> | ->]; reflexivity. }
  rewrite H1.
  split; [reflexivity |]. split; [vm_compute; reflexivity |].
  split; [vm_compute; reflexivity |].
  split.
  - unfold generate_learning_modules.
    change (JS.lt 1 2) with true. cbv iota.
    destruct (JS.includes _ "CCP"); reflexivity.
  - intros Hc. subst p. unfold learningParams.
    cbn [WorkflowSteps.targetCertification]. rewrite Hc. reflexivity.
Qed.

End LearningSteps.

Lemma default_sample_is_fifty_scenario :
  length (WorkflowSteps.claims
            (WorkflowSteps.gather_sample_claims (fun _ => 0%Z)
               (fun _ => (1 # 10)%Q)
               (WorkflowSteps.sampleSize
                  (WorkflowSteps.auditParams Agents.emptyPayload)))) = 50.
Proof.
  pose proof (default_sample_is_fifty (fun _ => 0%Z) (fun _ => (1 # 10)%Q)
                Agents.emptyPayload) as H.
  cbv zeta in H. destruct H as (_ & H & _).
  - left. reflexivity.
  - exact H.
Defined.

Lemma no_experience_counts_as_one_year_scenario :
  WorkflowSteps.yearsOfExperience
    (WorkflowSteps.learningParams Agents.emptyPayload) = 1%Q.
Proof.
  pose proof (no_experience_counts_as_one_year Agents.emptyPayload) as H.
  cbv zeta in H. destruct H as (H & _).
  - left. reflexivity.
  - exact H.
Defined.

(** ** The steps of the audit, in doubles *)
Section AuditInDoubles.
Import Workflows WorkflowSteps Scoring.
Local Open Scope Q_scope.

(** X19.  The corrective actions of an audit of a whole sample size from 1
    to 1000, by its scores.  The training (CAP-001) goes by the risk level,
    hence by the exact score (below 75); the follow-up audit (CAP-002) goes
    by the score that is returned (below 85), and is due in 90 days when
    that is below 70, in 180 days otherwise.  The training is never planned
    without a follow-up audit. *)
Theorem corrective_actions_follow_score (n : nat)
  (claims : list SampleClaim) :
  let errors := length (List.filter hasErrors claims) in
  let score :=
    (inject_Z (Z.of_nat n) - inject_Z (Z.of_nat errors))
    / inject_Z (Z.of_nat n) * 100 in
  let r := analyze_compliance (Double.ofNat n) claims in
  let plan := map (fun a => (actionId a, deadlineDays a))
                  (generate_corrective_actions r) in
  (1 <= n <= 1000)%nat -> (errors <= n)%nat ->
  (Double.lt (complianceScore r) 85%float = false -> plan = []) /\
  (75 <= score -> Double.lt (complianceScore r) 85%float = true ->
   plan = [("CAP-002", 180%nat)]) /\
  (score < 75 -> Double.lt (complianceScore r) 70%float = false ->
   plan = [("CAP-001", 30%nat); ("CAP-002", 180%nat)]) /\
  (Double.lt (complianceScore r) 70%float = true ->
   plan = [("CAP-001", 30%nat); ("CAP-002", 90%nat)]) /\
  (In "CAP-001" (map fst plan) -> In "CAP-002" (map fst plan)).
Proof.
  intros errors score r plan Hn He.
  destruct (compliance_at n errors Hn He) as [k Hk]. cbv zeta in Hk.
  unfold compliance_checked_at in Hk. checked Hk.
  apply Z.leb_le in Hc5. apply Bool.eqb_prop in Hc4, Hc3, Hc2, Hc1, Hc0.
  assert (Hpos : (0 < Z.of_nat n)%Z) by lia.
  pose proof (score_lt (Z.of_nat n) (Z.of_nat errors) 75 Hpos) as H75.
  change (inject_Z 75) with 75 in H75. fold score in H75.
  rewrite <- Z.ltb_lt, <- Hc3 in H75.
  assert (Hz75 : Double.lt (clampedScore (Double.ofNat n) (Double.ofNat errors))
                   75%float = true ->
                 (k <? 8500)%Z = true).
  { rewrite Hc3. intros H%Z.ltb_lt. apply Z.ltb_lt. nia. }
  assert (Hz70 : (k <? 7000)%Z = true ->
                 Double.lt (clampedScore (Double.ofNat n) (Double.ofNat errors))
                   75%float = true).
  { rewrite Hc3. intros H%Z.ltb_lt. apply Z.ltb_lt. nia. }
  assert (Hz : (k <? 7000)%Z = true -> (k <? 8500)%Z = true).
  { intros H%Z.ltb_lt. apply Z.ltb_lt. lia. }
  assert (Hz60 : Double.lt (clampedScore (Double.ofNat n) (Double.ofNat errors))
                   60%float = true ->
                 Double.lt (clampedScore (Double.ofNat n) (Double.ofNat errors))
                   75%float = true).
  { rewrite Hc4, Hc3. intros H%Z.ltb_lt. apply Z.ltb_lt. lia. }
  subst plan r. unfold generate_corrective_actions, analyze_compliance.
  fold errors.
  set (c := clampedScore (Double.ofNat n) (Double.ofNat errors)) in *.
  clearbody score. clear Hk Hc Hc2 Hc3 Hc4 Hc5.
  destruct (Double.lt c 90), (Double.lt c 75) eqn:E75, (Double.lt c 60) eqn:E60;
    cbn [riskLevel complianceScore];
    rewrite Hc1, Hc0;
    destruct (k <? 8500)%Z eqn:E85, (k <? 7000)%Z eqn:E70;
    cbn; repeat (split || intros);
    first [ reflexivity | discriminate
          | exfalso; first [ discriminate (Hz75 eq_refl)
                           | discriminate (Hz70 eq_refl)
                           | discriminate (Hz eq_refl)
                           | discriminate (Hz60 eq_refl)
                           | pose proof (proj2 H75 eq_refl); lra
                           | (assert (~ score < 75)
                               by (intros ?%H75; discriminate)); lra ]
          | intuition (auto; discriminate) ].
Qed.

(** X20.  The sample [gather-sample-claims] draws for a whole sample size
    from 1 to 1000 has exactly that many claims, so that the errors cannot
    outnumber the sample, and [analyze-compliance] finds the clamp with
    nothing to do: the score it returns is [k] hundredths, between 0 and
    100 and within half a hundredth of
    [(sampleSize - errors) / sampleSize * 100]. *)
Theorem gathered_sample_scoring (Date_now : nat -> Z)
  (Math_random : nat -> Q) (n : nat) :
  let sample :=
    gather_sample_claims Date_now Math_random (inject_Z (Z.of_nat n)) in
  let r := analyze_compliance (Double.ofNat n) (claims sample) in
  let score :=
    (inject_Z (Z.of_nat n) - inject_Z (Z.of_nat (errorCount r)))
    / inject_Z (Z.of_nat n) * 100 in
  (1 <= n <= 1000)%nat ->
  length (claims sample) = n /\
  totalSampled sample = inject_Z (Z.of_nat n) /\
  (errorCount r <= n)%nat /\
  errorCount r
  = length (List.filter (fun i => JS.lt 0.85 (Math_random (2 * i)%nat))
                        (seq 0 n)) /\
  Double.eq (clampedScore (Double.ofNat n) (Double.ofNat (errorCount r)))
    (PrimFloat.mul
       (PrimFloat.div
          (PrimFloat.sub (Double.ofNat n) (Double.ofNat (errorCount r)))
          (Double.ofNat n)) 100%float) = true /\
  exists k : Z,
    Double.eq (complianceScore r) (hundredths k) = true /\
    (0 <= k <= 10000)%Z /\
    Qabs (inject_Z k / 100 - score) <= 1 # 200.
Proof.
  intros sample r score Hn.
  assert (Hlen : length (claims sample) = n).
  { subst sample. unfold gather_sample_claims. cbn [claims].
    rewrite length_map, length_seq, Qceiling_Z. apply Nat2Z.id. }
  assert (Herr : errorCount r
                 = length (List.filter hasErrors (claims sample))).
  { subst r. unfold analyze_compliance.
    repeat match goal with |- context [if ?b then _ else _] => destruct b end;
      reflexivity. }
  assert (Hle : (errorCount r <= n)%nat).
  { rewrite Herr, <- Hlen. apply List.filter_length_le. }
  destruct (compliance_at n (errorCount r) Hn Hle) as [k Hk]. cbv zeta in Hk.
  unfold compliance_checked_at in Hk. checked Hk.
  apply Z.leb_le in Hc5.
  assert (Hpos : (0 < Z.of_nat n)%Z) by lia.
  split; [exact Hlen |]. split; [reflexivity |]. split; [exact Hle |].
  split.
  { rewrite Herr. subst sample. unfold gather_sample_claims. cbn [claims].
    rewrite Qceiling_Z, Nat2Z.id.
    generalize (seq 0 n). intros l.
    induction l as [| i l IH]; [reflexivity |].
    cbn [List.filter map length hasErrors].
    destruct (JS.lt 0.85 (Math_random _)); cbn [length]; congruence. }
  split; [exact Hc |].
  exists k. split.
  { rewrite Herr in Hk. subst r. unfold analyze_compliance.
    set (c := clampedScore _ _) in *.
    destruct (Double.lt c 90), (Double.lt c 75), (Double.lt c 60); exact Hk. }
  split; [nia |]. exact (score_near _ _ _ Hpos Hc5).
Qed.

End AuditInDoubles.

Section SkillsInDoubles.
Import Scoring.

Lemma skills_range_checked (k : Z) :
  (0 <= k <= 100000)%Z -> skills_checked k = true.
Proof.
  assert (H : within 0 100000 skills_checked = true)
    by (vm_compute; reflexivity).
  exact (within_spec _ _ _ H k).
Qed.

Lemma whole_years_range_checked (n : Z) :
  (0 <= n <= 10)%Z -> whole_years_checked n = true.
Proof.
  assert (H : within 0 10 whole_years_checked = true)
    by (vm_compute; reflexivity).
  exact (within_spec _ _ _ H n).
Qed.

(** X23.  The skills of a learner with [k / 1000] years of experience, [k]
    from 0 to 100000: the levels lie between 50 and 100, in the order SBS,
    ICD-10, clinical terminology, documentation; documentation is at the cap
    100 exactly from six years on, SBS knowledge exactly from ten years on;
    for whole years up to ten the SBS level is [50 + 5 * years]. *)
Theorem skills_are_capped (k : Z) :
  let s := assess_current_skills (thousandths k) in
  (0 <= k <= 100000)%Z ->
  PrimFloat.leb 50%float (sbsKnowledge s) = true /\
  PrimFloat.leb (sbsKnowledge s) (icd10Coding s) = true /\
  PrimFloat.leb (icd10Coding s) (clinicalTerminology s) = true /\
  PrimFloat.leb (clinicalTerminology s) (documentation s) = true /\
  PrimFloat.leb (documentation s) 100%float = true /\
  (Double.eq (documentation s) 100%float = true <-> (6000 <= k)%Z) /\
  (Double.eq (sbsKnowledge s) 100%float = true <-> (10000 <= k)%Z) /\
  (forall n : Z, k = (1000 * n)%Z -> (n <= 10)%Z ->
     Double.eq (sbsKnowledge s) (Double.ofZ (50 + 5 * n)) = true).
Proof.
  intros s Hk. pose proof (skills_range_checked k Hk) as H.
  unfold skills_checked in H. fold s in H. checked H.
  apply Bool.eqb_prop in Hc, Hc0.
  repeat split; try assumption.
  - rewrite Hc0. apply Z.leb_le.
  - rewrite Hc0. apply Z.leb_le.
  - rewrite Hc. apply Z.leb_le.
  - rewrite Hc. apply Z.leb_le.
  - intros n -> Hn. subst s.
    exact (whole_years_range_checked n ltac:(lia)).
Qed.

End SkillsInDoubles.

Lemma corrective_actions_follow_score_scenario :
  let r := Scoring.analyze_compliance (Double.ofNat 50) sample_50_8 in
  Double.lt (Scoring.complianceScore r) 85%float = true /\
  map (fun a => (WorkflowSteps.actionId a, WorkflowSteps.deadlineDays a))
      (Scoring.generate_corrective_actions r)
  = [("CAP-002", 180)].
Proof.
  pose proof (corrective_actions_follow_score 50 sample_50_8) as H.
  cbv zeta in H. destruct H as (_ & H & _).
  - lia.
  - vm_compute. lia.
  - split; [vm_compute; reflexivity |].
    apply H; vm_compute; [discriminate | reflexivity].
Defined.

Lemma gathered_sample_scoring_scenario :
  let sample :=
    WorkflowSteps.gather_sample_claims (fun _ => 1735689600000%Z)
      (fun i => if Nat.even i then (9 # 10)%Q else (1 # 10)%Q) 4 in
  length (WorkflowSteps.claims sample) = 4 /\
  Scoring.errorCount
    (Scoring.analyze_compliance 4%float (WorkflowSteps.claims sample)) = 4.
Proof.
  pose proof (gathered_sample_scoring (fun _ => 1735689600000%Z)
                (fun i => if Nat.even i then (9 # 10)%Q else (1 # 10)%Q) 4)
    as H.
  cbv zeta in H. destruct H as (H & _).
  - lia.
  - split; [exact H | reflexivity].
Defined.

Lemma skills_are_capped_scenario :
  Double.eq
    (Scoring.documentation (Scoring.assess_current_skills 6%float)) 100%float
  = true.
Proof.
  pose proof (skills_are_capped 6000) as H. cbv zeta in H.
  destruct H as (_ & _ & _ & _ & _ & H & _).
  - lia.
  - apply H. lia.
Defined.
